(** * Testkube execution orchestrator: a shallow embedding and its properties

  The development follows the Go sources
  - [internal/app/api/v1/executions.go] (batch handler, [executeTest],
    [notifyEvents], [GetExecuteOptions], [mergeParams]),
  - the test-suite execution model ([CalculateDuration]),
  and states the properties of the natural-language specification
  against them. *)

From Stdlib Require Import ZArith Ascii String DecimalString List Lia.
From stdpp Require Import base option list gmap strings fin_maps.

Local Open Scope string_scope.
Local Open Scope Z_scope.

(** ** Machine integers and Go's [time] package *)

Module GoTime.

(** [int64] values are integers reduced to the signed 64-bit range. *)
Definition wrap64 (z : Z) : Z := (z + 2^63) mod 2^64 - 2^63.

(** [time.Duration] is an [int64] count of nanoseconds. *)
Definition Duration := Z.
Definition minDuration : Duration := - 2^63.
Definition maxDuration : Duration := 2^63 - 1.
Definition Second : Z := 1000000000.

(** A [time.Time] without monotonic reading: seconds since January 1 of
    year 1 (Go's internal epoch) and nanoseconds within that second. *)
Record Time := mkTime { sec : Z; nsec : Z }.

Definition wfTime (t : Time) : Prop := 0 <= nsec t < Second.

Definition unixToInternal : Z := 62135596800.
Definition internalToUnix : Z := - unixToInternal.

(** The zero value [time.Time{}]. *)
Definition zeroTime : Time := mkTime 0 0.

Definition IsZero (t : Time) : bool := (sec t =? 0) && (nsec t =? 0).

(** [t.UnixNano()]: [(t.sec() + internalToUnix)*1e9 + int64(t.nsec())],
    computed in [int64], so it wraps for instants outside 1678..2262. *)
Definition UnixNano (t : Time) : Z :=
  wrap64 ((sec t + internalToUnix) * Second + nsec t).

Definition After (t u : Time) : bool :=
  (sec u <? sec t) || ((sec t =? sec u) && (nsec u <? nsec t)).

(** [t.Sub(u)] on wall-clock readings: the difference when it fits a
    [Duration], otherwise the nearest of [minDuration] and [maxDuration].
    (When both times carry a monotonic reading Go subtracts those
    instead; timestamps read back from the store carry none.) *)
Definition Sub (t u : Time) : Duration :=
  let d := (sec t - sec u) * Second + (nsec t - nsec u) in
  if d <? minDuration then minDuration
  else if maxDuration <? d then maxDuration
  else d.

End GoTime.

(** ** Test-suite executions and their duration *)

Module Suite.
Import GoTime.

Record TestExecution := mkTestExecution {
  Id : string;
  Name : string;
  StartTime : Time;
  EndTime : Time
}.

(** [func (e *TestExecution) CalculateDuration() time.Duration];
    [now] is the reading of [time.Now()]. *)
Definition CalculateDuration (now : Time) (e : TestExecution) : Duration :=
  let end_ := EndTime e in
  let start := StartTime e in
  if (UnixNano start <=? 0) && (UnixNano end_ <=? 0) then 0
  else
    let end_ := if UnixNano end_ <=? 0 then now else end_ in
    Sub end_ (StartTime e).

(** A timestamp is unset when the guard of [CalculateDuration] finds no
    positive [UnixNano()]. *)
Definition unset (t : Time) : bool := UnixNano t <=? 0.

(** The Unix epoch, January 1, 1970 UTC. *)
Definition unixEpoch : Time := mkTime unixToInternal 0.

(** The instants whose [UnixNano()] does not overflow (years 1678 to
    2262). *)
Definition representable (t : Time) : Prop :=
  - 2^63 <= (sec t + internalToUnix) * Second + nsec t < 2^63.

(** The end the duration is measured to: [now] while the end time is
    unset. *)
Definition effectiveEnd (now : Time) (e : TestExecution) : Time :=
  if unset (EndTime e) then now else EndTime e.

(** Valid inputs: the start is not after the end the duration is measured
    to, which is [now] for an execution that is still running; the
    nanosecond fields are within a second, as [time.Time] keeps them. *)
Definition validTimes (now : Time) (e : TestExecution) : Prop :=
  wfTime (StartTime e) /\ wfTime (EndTime e) /\ wfTime now /\
  After (StartTime e) (effectiveEnd now e) = false.

(** The inputs the specification calls valid: the start is not after the
    end and the end is not after now. *)
Definition orderedTimes (now : Time) (e : TestExecution) : Prop :=
  wfTime (StartTime e) /\ wfTime (EndTime e) /\ wfTime now /\
  After (StartTime e) (EndTime e) = false /\
  After (EndTime e) now = false.

End Suite.

(** ** The execution result model (package [testkube]) *)

Module Testkube.
Import GoTime.

(** Go errors: the text of [err.Error()] and whether the Kubernetes client
    classifies the error as "not found" ([errors.IsNotFound]). *)
Record GoError := mkError { errText : string; isNotFound : bool }.

(** [fmt.Errorf(prefix + "%w", err)]; a nil operand prints as
    [%!w(<nil>)]. *)
Definition Errorf_w (prefix : string) (err : option GoError) : GoError :=
  match err with
  | Some e => mkError (prefix ++ errText e) (isNotFound e)
  | None => mkError (prefix ++ "%!w(<nil>)") false
  end.

(** A Go [map[string]string] is a reference: [None] is the nil map, and
    [Some l] points to a map stored in the heap. *)
Abbreviation loc := positive (only parsing).
Abbreviation GoMap := (option positive) (only parsing).
Abbreviation Heap := (gmap positive (gmap string string)) (only parsing).

Inductive ExecutionStatus := Queued | Pending | Running | Success | Error.

Record ExecutionResult := mkExecutionResult {
  Status : option ExecutionStatus;
  ErrorMessage : string;
  Output : string
}.

Record Execution := mkExecution {
  Id : string;
  TestName : string;
  TestNamespace : string;
  TestType : string;
  Name : string;
  Args : list string;
  Params : GoMap;
  ParamsFile : string;
  Content : string;
  StartTime : Time;
  EndTime : Time;
  Result : option ExecutionResult;
  Labels : GoMap
}.

(** The zero value [testkube.Execution{}]. *)
Definition zeroExecution : Execution :=
  mkExecution "" "" "" "" "" [] None "" "" zeroTime zeroTime None None.

Definition withResult (e : Execution) (r : option ExecutionResult) : Execution :=
  mkExecution (Id e) (TestName e) (TestNamespace e) (TestType e) (Name e)
    (Args e) (Params e) (ParamsFile e) (Content e) (StartTime e) (EndTime e)
    r (Labels e).

Definition withStartTime (e : Execution) (t : Time) : Execution :=
  mkExecution (Id e) (TestName e) (TestNamespace e) (TestType e) (Name e)
    (Args e) (Params e) (ParamsFile e) (Content e) t (EndTime e)
    (Result e) (Labels e).

(** Modelled from the spec: [ExecutionResult.IsCompleted] is missing from
    the sources; it holds iff the status is Success or Error. *)
Definition IsCompleted (r : ExecutionResult) : bool :=
  match Status r with
  | Some Success | Some Error => true
  | _ => false
  end.

(** Modelled from the spec: [ExecutionResult.IsFailed] is missing from the
    sources; it holds iff the status is Error or the error message is not
    empty. *)
Definition IsFailed (r : ExecutionResult) : bool :=
  match Status r with
  | Some Error => true
  | _ => negb (String.eqb (ErrorMessage r) "")
  end.

(** Modelled from the spec: [NewPendingExecutionResult] is missing from the
    sources; an accepted run is created in Pending state. *)
Definition NewPendingExecutionResult : ExecutionResult :=
  mkExecutionResult (Some Pending) "" "".

(** Modelled from the spec: [ExecutionResult.Err] is missing from the
    sources; a failure is recorded as the terminal Error status together
    with the human error message, the raw output being kept. *)
Definition ResultErr (r : ExecutionResult) (err : GoError) : ExecutionResult :=
  mkExecutionResult (Some Error) (errText err) (Output r).

(** Modelled from the spec: [Execution.Err] is missing from the sources; it
    returns the execution with the error recorded in its result, a result
    being allocated when the execution has none. *)
Definition Err (e : Execution) (err : GoError) : Execution :=
  withResult e
    (Some (ResultErr (default (mkExecutionResult None "" "") (Result e)) err)).

(** Modelled from the spec: [Execution.Errw] is missing from the sources;
    it is [Err] applied to [fmt.Errorf(msg, err)]. *)
Definition Errw (e : Execution) (prefix : string) (err : option GoError) : Execution :=
  Err e (Errorf_w prefix err).

(** Modelled from the spec: [Execution.Start] is missing from the sources;
    it marks the execution Running and stamps the transition time. *)
Definition Start (now : Time) (e : Execution) : Execution :=
  withStartTime
    (withResult e
       (match Result e with
        | Some r => Some (mkExecutionResult (Some Running) (ErrorMessage r) (Output r))
        | None => None
        end))
    now.

(** Modelled from the spec: [NewExecution] is missing from the sources; the
    identity is assigned at creation and the remaining fields are taken
    from the arguments. *)
Definition NewExecution (id : string) (testNamespace testName executionName testType : string)
    (content : string) (result : ExecutionResult) (params labels : GoMap) : Execution :=
  mkExecution id testName testNamespace testType executionName [] params ""
    content zeroTime zeroTime (Some result) labels.

Inductive WebhookEventType := StartTest | EndTest.

Record WebhookEvent := mkWebhookEvent {
  Uri : string;
  Type_ : WebhookEventType;
  EventExecution : Execution
}.

Record ExecutionRequest := mkExecutionRequest {
  ReqName : string;
  ReqNamespace : string;
  ReqParams : GoMap;
  ReqParamsFile : string;
  ReqArgs : list string;
  ReqSync : bool
}.

Definition withReqName (r : ExecutionRequest) (n : string) : ExecutionRequest :=
  mkExecutionRequest n (ReqNamespace r) (ReqParams r) (ReqParamsFile r)
    (ReqArgs r) (ReqSync r).

Definition withReqParams (r : ExecutionRequest) (p : GoMap) : ExecutionRequest :=
  mkExecutionRequest (ReqName r) (ReqNamespace r) p (ReqParamsFile r)
    (ReqArgs r) (ReqSync r).

(** The API view of a test, as produced by [MapTestCRToAPI]. *)
Record Test := mkTest {
  TName : string;
  TNamespace : string;
  TType : string;
  TSchedule : string;
  TParams : GoMap;
  TLabels : GoMap
}.

End Testkube.

(** ** The worker pool (package [workerpool]) *)

Module Workerpool.
Import Testkube.

(** Modelled from the spec: the [workerpool] package is missing from the
    sources; the context given to [Run] and handed on to every work
    function, of which the pool only reads whether it was cancelled. *)
Record Context := mkContext { cancelled : bool }.

Section Pool.
Context {In Opt Out W : Type}.

(** Modelled from the spec: the [workerpool] package is missing from the
    sources; a job is a subject, its options and a work function
    [(context, In, Opt) -> (Out, error)], which here also transforms the
    state [W] shared by the jobs. *)
Record Request := mkRequest {
  Object : In;
  Options : Opt;
  ExecFn : Context -> In -> Opt -> W -> (Out * option GoError) * W
}.

(** Modelled from the spec: the [workerpool] package is missing from the
    sources; a response carries a result or an error. *)
Record Response := mkResponse {
  RespResult : option Out;
  RespErr : option GoError
}.

(** Modelled from the spec: the [workerpool] package is missing from the
    sources; a worker wraps the returned [(Out, error)] into a response. *)
Definition wrap (r : Out * option GoError) : Response :=
  match r with
  | (out, None) => mkResponse (Some out) None
  | (_, Some err) => mkResponse None (Some err)
  end.

(** Modelled from the spec: the [workerpool] package is missing from the
    sources; the pool holds the strictly positive concurrency bound, the
    context of [Run], the FIFO queue of submitted jobs, the jobs taken by
    workers, the responses published so far (oldest first) and the state
    shared by the jobs. *)
Record Pool := mkPool {
  concurrency : positive;
  context : Context;
  queue : list Request;
  inflight : list Request;
  responses : list Response;
  shared : W
}.

(** Modelled from the spec: the [workerpool] package is missing from the
    sources; [New(concurrency)], [SendRequests(jobs)] and [Run(ctx)]. *)
Definition submitted (n : positive) (ctx : Context) (jobs : list Request) (w : W) : Pool :=
  mkPool n ctx jobs [] [] w.

(** The work function of a job applied to its subject and options. *)
Definition execute (ctx : Context) (r : Request) (w : W) : (Out * option GoError) * W :=
  ExecFn r ctx (Object r) (Options r) w.

(** Modelled from the spec: the [workerpool] package is missing from the
    sources; [Run] lets at most [concurrency] workers hold a job: while
    the context is not cancelled a free worker takes the oldest queued
    job; any busy worker may finish, which runs the work function with the
    context and publishes the wrapped outcome; and the context may be
    cancelled at any time, after which no job is started while the jobs
    in flight still finish. *)
Inductive step : Pool -> Pool -> Prop :=
| step_take n ctx r q fl rs w :
    cancelled ctx = false ->
    (length fl < Pos.to_nat n)%nat ->
    step (mkPool n ctx (r :: q) fl rs w) (mkPool n ctx q (fl ++ [r]) rs w)
| step_finish n ctx q fl1 r fl2 rs w :
    step (mkPool n ctx q (fl1 ++ r :: fl2) rs w)
         (mkPool n ctx q (fl1 ++ fl2)
            (rs ++ [wrap (fst (execute ctx r w))])
            (snd (execute ctx r w)))
| step_cancel n ctx q fl rs w :
    cancelled ctx = false ->
    step (mkPool n ctx q fl rs w) (mkPool n (mkContext true) q fl rs w).

(** Modelled from the spec: the [workerpool] package is missing from the
    sources; the response stream is closed when no worker is busy and no
    job will be started any more: every job was consumed, or the context
    was cancelled. *)
Definition closed (p : Pool) : Prop :=
  inflight p = [] /\ (queue p = [] \/ cancelled (context p) = true).

(** Steps still possible before nothing can happen any more: two for a
    queued job, one for a job in flight, one for the cancellation. *)
Definition remaining (p : Pool) : nat :=
  (2 * length (queue p) + length (inflight p)
   + if cancelled (context p) then 0 else 1)%nat.

(** Runs of the pool, counted in steps. *)
Inductive run : nat -> Pool -> Pool -> Prop :=
| run_refl p : run 0 p p
| run_step k p1 p2 p3 : step p1 p2 -> run k p2 p3 -> run (S k) p1 p3.

(** A response carries exactly one of result and error. *)
Definition exclusive (r : Response) : Prop :=
  (is_Some (RespResult r) /\ RespErr r = None) \/
  (RespResult r = None /\ is_Some (RespErr r)).

(** The job [r] made to fail: its work function does what it did and
    returns the error [err]. *)
Definition failing (r : Request) (err : GoError) : Request :=
  mkRequest (Object r) (Options r)
    (fun ctx object options w =>
       ((fst (fst (ExecFn r ctx object options w)), Some err),
        snd (ExecFn r ctx object options w))).

Section Siblings.
(** What the jobs can tell of the state they share. *)
Variable R : W -> W -> Prop.

(** The job sees of the shared state only what [R] keeps. *)
Definition respects (r : Request) : Prop :=
  forall ctx w w',
    R w w' ->
    fst (execute ctx r w) = fst (execute ctx r w') /\
    R (snd (execute ctx r w)) (snd (execute ctx r w')).

(** The two jobs leave the shared state alike. *)
Definition sameEffect (j j' : Request) : Prop :=
  forall ctx w w', R w w' -> R (snd (execute ctx j w)) (snd (execute ctx j' w')).

(** The responses are the same but for the one of [j], in whose place is
    that of [j'], run in a state that is alike. *)
Definition differ (j j' : Request) (rs rs' : list Response) : Prop :=
  exists rs1 rs2 ctx w w',
    R w w' /\
    rs = (rs1 ++ wrap (fst (execute ctx j w)) :: rs2)%list /\
    rs' = (rs1 ++ wrap (fst (execute ctx j' w')) :: rs2)%list.

(** Two pools that differ in the job [j] only, replaced by [j']: the job
    is at the same place of the queue, or at the same place among the jobs
    in flight, or has answered; all else is the same, the siblings see of
    the shared state only what [R] keeps, and the shared states are
    alike. *)
Definition similar (j j' : Request) (p p' : Pool) : Prop :=
  concurrency p' = concurrency p /\ context p' = context p /\
  R (shared p) (shared p') /\
  ((exists before after,
      queue p = (before ++ j :: after)%list /\
      queue p' = (before ++ j' :: after)%list /\
      Forall respects (before ++ after)%list /\
      inflight p' = inflight p /\ Forall respects (inflight p) /\
      responses p' = responses p) \/
   (exists before after,
      queue p' = queue p /\ Forall respects (queue p) /\
      inflight p = (before ++ j :: after)%list /\
      inflight p' = (before ++ j' :: after)%list /\
      Forall respects (before ++ after)%list /\
      responses p' = responses p) \/
   (queue p' = queue p /\ Forall respects (queue p) /\
    inflight p' = inflight p /\ Forall respects (inflight p) /\
    differ j j' (responses p) (responses p'))).

End Siblings.

End Pool.

Arguments Request : clear implicits.
Arguments Response : clear implicits.
Arguments Pool : clear implicits.

End Workerpool.

(** ** Collaborators, recorded calls and the program monad *)

Module Collab.
Import GoTime Testkube.

(** Kubernetes custom resources ([testsv2.Test], executors, webhooks). *)
Record TestSpec := mkTestSpec {
  SpecType : string;
  SpecSchedule : string;
  SpecParams : GoMap;
  SpecContent : string
}.

Record TestCR := mkTestCR {
  CRName : string;
  CRLabels : GoMap;
  Spec : TestSpec
}.

Record ExecutorCR := mkExecutorCR {
  ExecutorMetaName : string;
  ExecutorCRSpec : string
}.

Record Webhook := mkWebhook { WebhookUri : string }.

(** [cronjob.CronJobOptions] *)
Record CronJobOptions := mkCronJobOptions {
  CronSchedule : string;
  CronResource : string;
  CronData : string;
  CronLabels : GoMap
}.

(** [client.ExecuteOptions] *)
Record ExecuteOptions := mkExecuteOptions {
  OptID : string;
  OptTestName : string;
  OptNamespace : string;
  OptTestSpec : TestSpec;
  OptExecutorName : string;
  OptExecutorSpec : string;
  OptRequest : ExecutionRequest;
  OptSync : bool;
  OptLabels : GoMap;
  OptHasSecrets : bool
}.

Definition zeroTestSpec : TestSpec := mkTestSpec "" "" None "".

Definition zeroExecutionRequest : ExecutionRequest :=
  mkExecutionRequest "" "" None "" [] false.

(** The zero value of [client.ExecuteOptions], the named result of
    [GetExecuteOptions] before it is assigned. *)
Definition zeroExecuteOptions : ExecuteOptions :=
  mkExecuteOptions "" "" "" zeroTestSpec "" "" zeroExecutionRequest false None false.

Definition withOptID (o : ExecuteOptions) (id : string) : ExecuteOptions :=
  mkExecuteOptions id (OptTestName o) (OptNamespace o) (OptTestSpec o)
    (OptExecutorName o) (OptExecutorSpec o) (OptRequest o) (OptSync o)
    (OptLabels o) (OptHasSecrets o).

Definition withHasSecrets (o : ExecuteOptions) (b : bool) : ExecuteOptions :=
  mkExecuteOptions (OptID o) (OptTestName o) (OptNamespace o) (OptTestSpec o)
    (OptExecutorName o) (OptExecutorSpec o) (OptRequest o) (OptSync o)
    (OptLabels o) b.

(** A job handed to the worker pool by the batch handler: the subject and
    the options; its work function is always [executeTest]. *)
Record TestJob := mkTestJob {
  JobObject : Test;
  JobOptions : ExecutionRequest
}.

(** Every call the handlers make on a collaborator, with its arguments. *)
Inductive Call :=
| CallGetByNameAndTest (name test : string)
| CallInsert (e : Execution)
| CallStartExecution (id : string) (t : Time)
| CallUpdateResult (id : string) (r : ExecutionResult)
| CallTestsGet (id : string)
| CallTestsList (selector : string)
| CallExecutorsGetByType (ty : string)
| CallSecretGet (name : string)
| CallExecute (e : Execution) (o : ExecuteOptions)
| CallExecuteSync (e : Execution) (o : ExecuteOptions)
| CallWebhooksGetByEvent (ty : WebhookEventType)
| CallNotify (ev : WebhookEvent)
| CallSlackSendEvent (ty : WebhookEventType) (e : Execution)
| CallIncExecution (e : Execution)
| CallLog (level msg : string)
| CallCronApply (name metaName : string) (o : CronJobOptions)
| CallPool (level : Z) (jobs : list TestJob).

(** What the collaborators answer.  Their implementations are outside the
    orchestrator, so every answer is left arbitrary. *)
Record Services := mkServices {
  (* pkg/rand, bson object ids, the clock *)
  randName : string;
  newObjectID : string;
  timeNow : Time;
  (* execution store *)
  GetByNameAndTest : string -> string -> Execution * option GoError;
  Insert : Execution -> option GoError;
  StartExecution : string -> Time -> option GoError;
  UpdateResult : string -> ExecutionResult -> option GoError;
  (* test, executor, secret and webhook definitions *)
  TestsGet : string -> TestCR + GoError;
  TestsList : string -> list TestCR + GoError;
  ExecutorsGetByType : string -> ExecutorCR + GoError;
  SecretGet : string -> option GoError;
  WebhooksGetByEvent : WebhookEventType -> list Webhook + GoError;
  (* executor dispatch *)
  Execute : Execution -> ExecuteOptions -> ExecutionResult * option GoError;
  ExecuteSync : Execution -> ExecuteOptions -> ExecutionResult * option GoError;
  (* chat notifier, scheduler, worker pool *)
  SlackSendEvent : WebhookEventType -> Execution -> option GoError;
  CronApply : string -> string -> CronJobOptions -> option GoError;
  PoolResponses : Z -> list TestJob -> list (Workerpool.Response Execution);
  (* helpers that only rename or reshape data *)
  secretMetadataName : string -> string;
  cronMetadataName : string -> string -> string;
  MapTestCRToAPI : TestCR -> Test;
  MapTestContentFromSpec : string -> string;
  jsonMarshal : ExecutionRequest -> string + GoError;
  (* [fmt.Errorf(format)] without operands *)
  fmtErrorf0 : string -> GoError
}.

(** The state a handler runs in: the heap of Go maps and the calls made
    so far, oldest first. *)
Record World := mkWorld { heap : Heap; trace : list Call }.

(** A computation either leaves the enclosing function early with a value
    of type [E] (a Go [return] inside the body) or continues with an [A]. *)
Definition Prog (E A : Type) : Type := World -> (E + A) * World.

Definition ret {E A} (a : A) : Prog E A := fun w => (inr a, w).

Definition exit {E A} (e : E) : Prog E A := fun w => (inl e, w).

Definition bind {E A B} (m : Prog E A) (k : A -> Prog E B) : Prog E B :=
  fun w =>
    match m w with
    | (inl e, w') => (inl e, w')
    | (inr a, w') => k a w'
    end.

(** The body of a function: both ways of leaving it yield its result. *)
Definition runBody {A} (m : Prog A A) (w : World) : A * World :=
  match m w with
  | (inl a, w') => (a, w')
  | (inr a, w') => (a, w')
  end.

(** Calling a function from another body: its early returns end there. *)
Definition invoke {E A} (m : Prog A A) : Prog E A :=
  fun w => (inr (fst (runBody m w)), snd (runBody m w)).

Definition call {E} (c : Call) : Prog E unit :=
  fun w => (inr tt, mkWorld (heap w) (trace w ++ [c])).

Fixpoint forEach {E A} (l : list A) (body : A -> Prog E unit) : Prog E unit :=
  match l with
  | [] => ret tt
  | x :: l' => bind (body x) (fun _ => forEach l' body)
  end.

(** [make(map[string]string)]: a fresh location holding the empty map. *)
Definition newMap {E} : Prog E loc :=
  fun w =>
    let l := fresh (dom (heap w)) in
    (inr l, mkWorld (<[l := ∅]> (heap w)) (trace w)).

(** The entries of a Go map ([nil] has none). *)
Definition contents (h : Heap) (m : GoMap) : gmap string string :=
  match m with
  | None => ∅
  | Some l => default ∅ (h !! l)
  end.

(** [m[k] = v] on a non-nil map. *)
Definition mapAssign {E} (l : loc) (k v : string) : Prog E unit :=
  fun w =>
    (inr tt, mkWorld (<[l := <[k := v]> (contents (heap w) (Some l))]> (heap w))
                     (trace w)).

(** The entries a [range] loop over the map visits. *)
Definition mapRange {E} (m : GoMap) : Prog E (list (string * string)) :=
  fun w => (inr (map_to_list (contents (heap w) m)), w).

End Collab.

Declare Scope prog_scope.
Delimit Scope prog_scope with prog.
Notation "x <- m ;; k" := (Collab.bind m (fun x => k))
  (at level 100, m at next level, right associativity) : prog_scope.
Notation "m ;; k" := (Collab.bind m (fun _ => k))
  (at level 100, right associativity) : prog_scope.

(** ** The handlers (package [v1], [executions.go]) *)

Module V1.
Import GoTime Testkube Collab.
Local Open Scope prog_scope.

Definition testResourceURI : string := "tests".
Definition defaultConcurrencyLevel : string := "10".

(** [func mergeParams(params, appendParams map[string]string) map[string]string] *)
Definition mergeParams {E} (params appendParams : GoMap) : Prog E GoMap :=
  l <- match params with
       | None => newMap
       | Some l => ret l
       end ;;
  kvs <- mapRange appendParams ;;
  forEach kvs (fun kv => mapAssign l (fst kv) (snd kv)) ;;
  ret (Some l).

(** [func (s TestkubeAPI) GetExecuteOptions(namespace, id, request)] *)
Definition GetExecuteOptions (S : Services) (namespace id : string)
    (request : ExecutionRequest)
  : Prog (ExecuteOptions * option GoError) (ExecuteOptions * option GoError) :=
  call (CallTestsGet id) ;;
  testCR <- match TestsGet S id with
            | inr err =>
                exit (zeroExecuteOptions,
                      Some (Errorf_w "can't get test custom resource " (Some err)))
            | inl testCR => ret testCR
            end ;;
  merged <- mergeParams (SpecParams (Spec testCR)) (ReqParams request) ;;
  let request := withReqParams request merged in
  call (CallExecutorsGetByType (SpecType (Spec testCR))) ;;
  executorCR <- match ExecutorsGetByType S (SpecType (Spec testCR)) with
                | inr err =>
                    exit (zeroExecuteOptions,
                          Some (Errorf_w "can't get executor spec: " (Some err)))
                | inl executorCR => ret executorCR
                end ;;
  ret (mkExecuteOptions "" id namespace (Spec testCR)
         (ExecutorMetaName executorCR) (ExecutorCRSpec executorCR)
         request (ReqSync request) (CRLabels testCR) false,
       None).

(** [func newExecutionFromExecutionOptions(options) testkube.Execution] *)
Definition newExecutionFromExecutionOptions (S : Services) (options : ExecuteOptions)
  : Execution :=
  let execution :=
    NewExecution (newObjectID S)
      (OptNamespace options)
      (OptTestName options)
      (ReqName (OptRequest options))
      (SpecType (OptTestSpec options))
      (MapTestContentFromSpec S (SpecContent (OptTestSpec options)))
      NewPendingExecutionResult
      (ReqParams (OptRequest options))
      (OptLabels options) in
  mkExecution (Id execution) (TestName execution) (TestNamespace execution)
    (TestType execution) (Name execution)
    (ReqArgs (OptRequest options))
    (Params execution)
    (ReqParamsFile (OptRequest options))
    (Content execution) (StartTime execution) (EndTime execution)
    (Result execution) (Labels execution).

(** [func (s TestkubeAPI) notifySlack(eventType, execution)] *)
Definition notifySlack {E} (S : Services) (eventType : WebhookEventType)
    (execution : Execution) : Prog E unit :=
  call (CallSlackSendEvent eventType execution) ;;
  match SlackSendEvent S eventType execution with
  | Some _ => call (CallLog "warn" "notify slack failed")
  | None => ret tt
  end.

(** [func (s TestkubeAPI) notifyEvents(eventType, execution) error] *)
Definition notifyEvents (S : Services) (eventType : WebhookEventType)
    (execution : Execution) : Prog (option GoError) (option GoError) :=
  call (CallWebhooksGetByEvent eventType) ;;
  webhookList <- match WebhooksGetByEvent S eventType with
                 | inr err => exit (Some err)
                 | inl items => ret items
                 end ;;
  forEach webhookList (fun wh =>
    call (CallLog "debug" "Sending event") ;;
    call (CallNotify (mkWebhookEvent (WebhookUri wh) eventType execution))) ;;
  notifySlack S eventType execution ;;
  ret None.

(** The pattern
    [err = s.notifyEvents(...); if err != nil { s.Log.Infow(...) }]
    of [executeTest] (lines 176-179, 182-185, 192-195, 212-215, 226-229
    and 234-237), which leaves the outcome of the notification in [err]. *)
Definition notifyAndLog {E} (S : Services) (eventType : WebhookEventType)
    (execution : Execution) : Prog E (option GoError) :=
  err <- invoke (notifyEvents S eventType execution) ;;
  match err with
  | Some _ => call (CallLog "info" "Notify events")
  | None => ret tt
  end ;;
  ret err.

(** [func (s TestkubeAPI) executeTest(ctx, test, request) (execution, err)] *)
Definition executeTest (S : Services) (test : Test) (request : ExecutionRequest)
  : Prog (Execution * option GoError) (Execution * option GoError) :=
  let request :=
    if String.eqb (ReqName request) "" then withReqName request (randName S)
    else request in
  call (CallGetByNameAndTest (ReqName request) (TName test)) ;;
  let execution := fst (GetByNameAndTest S (ReqName request) (TName test)) in
  (if String.eqb (Name execution) (ReqName request) then
     exit (Err execution
             (mkError ("test execution with name " ++ ReqName request
                       ++ " already exists") false),
           None)
   else ret tt) ;;
  optErr <- invoke (GetExecuteOptions S (ReqNamespace request) (TName test) request) ;;
  let options := fst optErr in
  (match snd optErr with
   | Some err =>
       exit (Errw execution "can't create valid execution options: " (Some err), None)
   | None => ret tt
   end) ;;
  let execution := newExecutionFromExecutionOptions S options in
  let options := withOptID options (Id execution) in
  call (CallInsert execution) ;;
  (match Insert S execution with
   | Some err =>
       exit (Errw execution
               "can't create new test execution, can't insert into storage: "
               (Some err), None)
   | None => ret tt
   end) ;;
  call (CallLog "info" "calling executor with options") ;;
  let execution := Start (timeNow S) execution in
  notifyAndLog S StartTest execution ;;
  call (CallStartExecution (Id execution) (StartTime execution)) ;;
  (match StartExecution S (Id execution) (StartTime execution) with
   | Some _ =>
       err <- notifyAndLog S EndTest execution ;;
       exit (Errw execution
               "can't execute test, can't insert into storage error: " err, None)
   | None => ret tt
   end) ;;
  let options := withHasSecrets options true in
  call (CallSecretGet (secretMetadataName S (TestName execution))) ;;
  options <- match SecretGet S (secretMetadataName S (TestName execution)) with
             | Some err =>
                 if negb (isNotFound err) then
                   err <- notifyAndLog S EndTest execution ;;
                   exit (Errw execution "can't get secrets: " err, None)
                 else ret (withHasSecrets options false)
             | None => ret options
             end ;;
  resErr <- (if OptSync options then
               call (CallExecuteSync execution options) ;;
               ret (ExecuteSync S execution options)
             else
               call (CallExecute execution options) ;;
               ret (Execute S execution options)) ;;
  let result := fst resErr in
  let err := snd resErr in
  call (CallUpdateResult (Id execution) result) ;;
  (match UpdateResult S (Id execution) result with
   | Some uerr =>
       notifyAndLog S EndTest execution ;;
       exit (Errw execution "update execution error: " (Some uerr), None)
   | None => ret tt
   end) ;;
  let execution := withResult execution (Some result) in
  call (CallIncExecution execution) ;;
  (match err with
   | Some _ =>
       err <- notifyAndLog S EndTest execution ;;
       exit (Errw execution "test execution failed: " err, None)
   | None => ret tt
   end) ;;
  call (CallLog "info" "test executed") ;;
  notifyAndLog S EndTest execution ;;
  ret (execution, None).

(** The part of a [*fiber.Ctx] the handler reads: the outcome of
    [c.BodyParser(&request)], route parameters and query values (empty
    when absent). *)
Record FiberCtx := mkFiberCtx {
  BodyParser : ExecutionRequest + GoError;
  CtxParams : string -> string;
  CtxQuery : string -> string
}.

(** [c.Query(key, defaultValue)] *)
Definition QueryDefault (c : FiberCtx) (key def : string) : string :=
  if String.eqb (CtxQuery c key) "" then def else CtxQuery c key.

(** What the handler answers: [c.JSON(...)] of one execution or of the
    batch, [s.Error(c, status, err)], or a run-time panic. *)
Inductive HttpResponse :=
| JSONExecution (e : Execution)
| JSONExecutions (l : list Execution)
| ErrorResponse (status : Z) (err : GoError)
| Panic.

Definition StatusBadRequest : Z := 400.
Definition StatusInternalServerError : Z := 500.

(** [strconv.Atoi] on a 64-bit platform: an optional sign followed by one
    or more decimal digits, within the [int] range. *)
Definition digitValue (a : ascii) : option Z :=
  let n := Z.of_nat (nat_of_ascii a) in
  if (48 <=? n) && (n <=? 57) then Some (n - 48) else None.

Fixpoint parseDigits (s : string) (acc : Z) : option Z :=
  match s with
  | EmptyString => Some acc
  | String a s' =>
      match digitValue a with
      | Some d => parseDigits s' (acc * 10 + d)
      | None => None
      end
  end.

Definition Atoi (s : string) : Z + GoError :=
  let quoted := String (ascii_of_nat 34) (s ++ String (ascii_of_nat 34) "") in
  let syntaxError :=
    mkError ("strconv.Atoi: parsing " ++ quoted ++ ": invalid syntax") false in
  let rangeError :=
    mkError ("strconv.Atoi: parsing " ++ quoted ++ ": value out of range") false in
  let signed :=
    match s with
    | String a rest =>
        if Ascii.eqb a "+" then (false, rest)
        else if Ascii.eqb a "-" then (true, rest)
        else (false, s)
    | EmptyString => (false, s)
    end in
  match snd signed with
  | EmptyString => inr syntaxError
  | body =>
      match parseDigits body 0 with
      | None => inr syntaxError
      | Some n =>
          let v := if fst signed then - n else n in
          if (- 2^63 <=? v) && (v <=? 2^63 - 1) then inl v else inr rangeError
      end
  end.

(** [func (s TestkubeAPI) prepareTestRequests(work, request)] *)
Definition prepareTestRequests (S : Services) (work : list TestCR)
    (request : ExecutionRequest) : list TestJob :=
  map (fun t => mkTestJob (MapTestCRToAPI S t) request) work.

(** The job as the worker pool sees it, [ExecFn] being [s.executeTest]. *)
Definition asPoolRequest (S : Services) (j : TestJob)
  : Workerpool.Request Test ExecutionRequest Execution World :=
  Workerpool.mkRequest (JobObject j) (JobOptions j)
    (fun _ test request => runBody (executeTest S test request)).

(** The execution reported for a test left to its recurring schedule. *)
Definition queuedExecution (test : TestCR) (namespace : string) : Execution :=
  mkExecution "" (CRName test) namespace (SpecType (Spec test)) "" [] None ""
    "" zeroTime zeroTime (Some (mkExecutionResult (Some Queued) "" "")) None.

(** Whether the handler runs the test now rather than scheduling it. *)
Definition runsNow (c : FiberCtx) (test : TestCR) : bool :=
  String.eqb (SpecSchedule (Spec test)) "" || negb (String.eqb (CtxQuery c "callback") "").

(** [ExecuteTestsHandler], lines 74-101: the loop
    [for _, test := range tests] that splits the tests into [work] and
    scheduled ones. *)
Fixpoint scheduleLoop (S : Services) (c : FiberCtx) (request : ExecutionRequest)
    (tests : list TestCR) (results : list Execution) (work : list TestCR)
  : Prog HttpResponse (list Execution * list TestCR) :=
  match tests with
  | [] => ret (results, work)
  | test :: tests' =>
      if runsNow c test then
        scheduleLoop S c request tests' results (work ++ [test])%list
      else
        data <- match jsonMarshal S request with
                | inr err =>
                    exit (ErrorResponse StatusBadRequest
                            (Errorf_w "can't prepare test request: " (Some err)))
                | inl data => ret data
                end ;;
        let options :=
          mkCronJobOptions (SpecSchedule (Spec test)) testResourceURI data
            (CRLabels test) in
        call (CallCronApply (CRName test)
                (cronMetadataName S (CRName test) testResourceURI) options) ;;
        match CronApply S (CRName test)
                (cronMetadataName S (CRName test) testResourceURI) options with
        | Some err =>
            exit (ErrorResponse StatusInternalServerError
                    (Errorf_w "can't create scheduled test: " (Some err)))
        | None => ret tt
        end ;;
        scheduleLoop S c request tests'
          (results ++ [queuedExecution test (ReqNamespace request)])%list work
  end.

(** [ExecuteTestsHandler], lines 42-117, up to the point where all results
    are gathered: body parsing, test lookup, scheduling and the worker
    pool, whose responses are read in the order [PoolResponses] gives. *)
Definition collectResults (S : Services) (c : FiberCtx)
  : Prog HttpResponse (list Execution) :=
  request <- match BodyParser c with
             | inr err =>
                 exit (ErrorResponse StatusBadRequest
                         (Errorf_w "test request body invalid: " (Some err)))
             | inl request => ret request
             end ;;
  let id := CtxParams c "id" in
  tests <- (if negb (String.eqb id "") then
              call (CallTestsGet id) ;;
              match TestsGet S id with
              | inr err =>
                  exit (ErrorResponse StatusInternalServerError
                          (Errorf_w "can't get test: " (Some err)))
              | inl test => ret [test]
              end
            else
              call (CallTestsList (CtxQuery c "selector")) ;;
              match TestsList S (CtxQuery c "selector") with
              | inr err =>
                  exit (ErrorResponse StatusInternalServerError
                          (Errorf_w "can't get tests: " (Some err)))
              | inl items => ret items
              end) ;;
  split <- scheduleLoop S c request tests [] [] ;;
  let results := fst split in
  let work := snd split in
  if negb (Nat.eqb (length work) 0) then
    concurrencyLevel <-
      match Atoi (QueryDefault c "concurrency" defaultConcurrencyLevel) with
      | inr err =>
          exit (ErrorResponse StatusBadRequest
                  (Errorf_w "can't detect concurrency level: " (Some err)))
      | inl n => ret n
      end ;;
    let jobs := prepareTestRequests S work request in
    call (CallPool concurrencyLevel jobs) ;;
    ret (results ++ map (fun r => default zeroExecution (Workerpool.RespResult r))
                        (PoolResponses S concurrencyLevel jobs))%list
  else ret results.

(** [ExecuteTestsHandler], lines 119-127: the choice of the answer from
    the results.  [IsFailed] reads the fields of its receiver, so calling
    it through a nil [ExecutionResult] pointer panics. *)
Definition respond (S : Services) (id : string) (results : list Execution)
  : HttpResponse :=
  if negb (String.eqb id "") && negb (Nat.eqb (length results) 0) then
    match results with
    | [] => Panic
    | first :: _ =>
        match Result first with
        | None => Panic
        | Some result =>
            if IsFailed result then
              ErrorResponse StatusInternalServerError
                (fmtErrorf0 S (ErrorMessage result))
            else JSONExecution first
        end
    end
  else JSONExecutions results.

(** [func (s TestkubeAPI) ExecuteTestsHandler() fiber.Handler] *)
Definition ExecuteTestsHandler (S : Services) (c : FiberCtx)
  : Prog HttpResponse HttpResponse :=
  results <- collectResults S c ;;
  ret (respond S (CtxParams c "id") results).

End V1.

(** ** Vocabulary of the statements *)

Module Vocabulary.
Import GoTime Testkube Collab V1.

(** The heap after the assignments [m[k] = v] of the merge loop, in order. *)
Definition assignAll (l : loc) (kvs : list (string * string)) (h : Heap) : Heap :=
  fold_left (fun h kv => <[l := <[fst kv := snd kv]> (contents h (Some l))]> h) kvs h.

Definition insertAll (kvs : list (string * string)) (m : gmap string string)
  : gmap string string :=
  fold_left (fun m kv => <[fst kv := snd kv]> m) kvs m.

(** The merge read as a pure function: neither of the caller's maps
    changes. *)
Definition mergeParams_pure (params appendParams : GoMap) (w : World) : Prop :=
  let w' := snd (mergeParams (E := Empty_set) params appendParams w) in
  contents (heap w') params = contents (heap w) params /\
  contents (heap w') appendParams = contents (heap w) appendParams.

(** The world after further calls. *)
Definition addCalls (w : World) (cs : list Call) : World :=
  mkWorld (heap w) (trace w ++ cs).

(** The calls made since the world [w]. *)
Definition callsSince (w w' : World) : list Call :=
  drop (length (trace w)) (trace w').

(** What [notifyEvents] answers and the calls it makes: the webhook
    lookup, then, when the lookup succeeds, one delivery per webhook
    followed by the chat notifier. *)
Definition notifyOutcome (S : Services) (ty : WebhookEventType) : option GoError :=
  match WebhooksGetByEvent S ty with
  | inr err => Some err
  | inl _ => None
  end.

Definition webhookCalls (ty : WebhookEventType) (e : Execution) (whs : list Webhook)
  : list Call :=
  flat_map (fun wh => [CallLog "debug" "Sending event";
                       CallNotify (mkWebhookEvent (WebhookUri wh) ty e)]) whs.

Definition slackCalls (S : Services) (ty : WebhookEventType) (e : Execution)
  : list Call :=
  CallSlackSendEvent ty e ::
  match SlackSendEvent S ty e with
  | Some _ => [CallLog "warn" "notify slack failed"]
  | None => []
  end.

Definition notifyCalls (S : Services) (ty : WebhookEventType) (e : Execution)
  : list Call :=
  CallWebhooksGetByEvent ty ::
  match WebhooksGetByEvent S ty with
  | inr _ => []
  | inl whs => webhookCalls ty e whs ++ slackCalls S ty e
  end.

Definition notifyLogCalls (S : Services) (ty : WebhookEventType) (e : Execution)
  : list Call :=
  notifyCalls S ty e ++
  match notifyOutcome S ty with
  | Some _ => [CallLog "info" "Notify events"]
  | None => []
  end.

(** The calls [GetExecuteOptions] makes. *)
Definition optionsCalls (S : Services) (id : string) : list Call :=
  CallTestsGet id ::
  match TestsGet S id with
  | inl testCR => [CallExecutorsGetByType (SpecType (Spec testCR))]
  | inr _ => []
  end.

(** Weakest preconditions: [wp m Qe Qa w] holds when running [m] from [w]
    ends in an early return satisfying [Qe] or a value satisfying [Qa]. *)
Definition wp {E A} (m : Prog E A) (Qe : E -> World -> Prop)
    (Qa : A -> World -> Prop) (w : World) : Prop :=
  match m w with
  | (inl e, w') => Qe e w'
  | (inr a, w') => Qa a w'
  end.

Definition isDispatch (c : Call) : bool :=
  match c with
  | CallExecute _ _ | CallExecuteSync _ _ => true
  | _ => false
  end.

Definition isStorageWrite (c : Call) : bool :=
  match c with
  | CallInsert _ | CallStartExecution _ _ | CallUpdateResult _ _ => true
  | _ => false
  end.

Definition statusOf (e : Execution) : option ExecutionStatus :=
  match Result e with
  | Some r => Status r
  | None => None
  end.

(** What [GetExecuteOptions] returns and the heap it leaves; both depend
    on the heap only, not on the calls made before. *)
Definition optionsOutcome (S : Services) (namespace id : string)
    (request : ExecutionRequest) (h : Heap) : ExecuteOptions * option GoError :=
  fst (runBody (GetExecuteOptions S namespace id request) (mkWorld h [])).

Definition optionsHeap (S : Services) (namespace id : string)
    (request : ExecutionRequest) (h : Heap) : Heap :=
  heap (snd (runBody (GetExecuteOptions S namespace id request) (mkWorld h []))).

(** The execution name [executeTest] works with: the requested one, or a
    generated one when the request gives none. *)
Definition effectiveName (S : Services) (request : ExecutionRequest) : string :=
  if String.eqb (ReqName request) "" then randName S else ReqName request.

Definition isSecretLookup (c : Call) : bool :=
  match c with
  | CallSecretGet _ => true
  | _ => false
  end.

(** Calls that only notify, log or read definitions. *)
Definition isAuxiliary (c : Call) : bool :=
  match c with
  | CallWebhooksGetByEvent _ | CallNotify _ | CallSlackSendEvent _ _
  | CallLog _ _ | CallTestsGet _ | CallExecutorsGetByType _ => true
  | _ => false
  end.

(** The dispatch the options ask for: [ExecuteSync] or [Execute]. *)
Definition dispatchCall (e : Execution) (o : ExecuteOptions) : Call :=
  if OptSync o then CallExecuteSync e o else CallExecute e o.

(** A small deployment used to exercise the statements: one postman test
    with an executor, a store that accepts every write, and chosen answers
    of the secret store, the webhook registry and the executor. *)
Definition sampleServices (schedule : string) (secret : option GoError)
    (webhooks : WebhookEventType -> list Webhook + GoError)
    (dispatchError : option GoError) : Services :=
  mkServices "generated-name" "62f1" (mkTime 63786000000 0)
    (fun _ _ => (zeroExecution, Some (mkError "no documents in result" false)))
    (fun _ => None) (fun _ _ => None) (fun _ _ => None)
    (fun id => inl (mkTestCR id None (mkTestSpec "postman/collection" schedule None "{}")))
    (fun _ => inl [])
    (fun _ => inl (mkExecutorCR "postman-executor" "job"))
    (fun _ => secret)
    webhooks
    (fun _ _ => (mkExecutionResult (Some Running) "" "", dispatchError))
    (fun _ _ => (mkExecutionResult (Some Success) "" "done", dispatchError))
    (fun _ _ => None) (fun _ _ _ => None)
    (fun _ jobs =>
       map (fun j => Workerpool.mkResponse
                       (Some (mkExecution "62f1" (TName (JobObject j)) "testkube"
                                (TType (JobObject j)) "run-1" [] None "" "{}"
                                (mkTime 63786000000 0) zeroTime
                                (Some (mkExecutionResult (Some Running) "" ""))
                                None))
                       None) jobs)
    (fun n => n ++ "-secrets") (fun n r => n ++ "-" ++ r)
    (fun cr => mkTest (CRName cr) "" (SpecType (Spec cr)) (SpecSchedule (Spec cr))
                 (SpecParams (Spec cr)) (CRLabels cr))
    (fun c => c)
    (fun _ => inl "{}")
    (fun m => mkError m false).

(** A request context naming one test by id, with a chosen [concurrency]
    query value. *)
Definition sampleCtx (id concurrency : string) : FiberCtx :=
  mkFiberCtx (inl (mkExecutionRequest "run-1" "testkube" None "" [] false))
    (fun key => if String.eqb key "id" then id else "")
    (fun key => if String.eqb key "concurrency" then concurrency else "").

Definition sampleTest : Test := mkTest "api-test" "testkube" "postman/collection" "" None None.

Definition sampleRequest : ExecutionRequest :=
  mkExecutionRequest "run-1" "testkube" None "" [] false.

(** Calls that notify a sink, look the sinks up, or log. *)
Definition isNotification (c : Call) : bool :=
  match c with
  | CallWebhooksGetByEvent _ | CallNotify _ | CallSlackSendEvent _ _
  | CallLog _ _ => true
  | _ => false
  end.

(** The calls that remain when notifications and logging are set aside:
    the store, the definitions, the secret lookup, the dispatch and the
    metric. *)
Definition quietCalls (cs : list Call) : list Call :=
  List.filter (fun c => negb (isNotification c)) cs.

(** Two deployments that differ at most in what the webhook registry and
    the chat notifier answer. *)
Definition agreeOffNotifications (S1 S2 : Services) : Prop :=
  randName S1 = randName S2 /\ newObjectID S1 = newObjectID S2 /\
  timeNow S1 = timeNow S2 /\
  GetByNameAndTest S1 = GetByNameAndTest S2 /\ Insert S1 = Insert S2 /\
  StartExecution S1 = StartExecution S2 /\ UpdateResult S1 = UpdateResult S2 /\
  TestsGet S1 = TestsGet S2 /\ ExecutorsGetByType S1 = ExecutorsGetByType S2 /\
  SecretGet S1 = SecretGet S2 /\
  Execute S1 = Execute S2 /\ ExecuteSync S1 = ExecuteSync S2 /\
  secretMetadataName S1 = secretMetadataName S2 /\
  MapTestContentFromSpec S1 = MapTestContentFromSpec S2.

(** The execution with the error message of its result blanked. *)
Definition withoutMessage (e : Execution) : Execution :=
  withResult e
    (match Result e with
     | Some r => Some (mkExecutionResult (Status r) "" (Output r))
     | None => None
     end).

(** Worlds with equal heaps that agree on every call but notifications. *)
Definition sameQuiet (w1 w2 : World) : Prop :=
  heap w1 = heap w2 /\ quietCalls (trace w1) = quietCalls (trace w2).

(** Two programs that, started in such worlds, leave the same way with
    related values and end in such worlds again. *)
Definition related {E A} (RE : E -> E -> Prop) (RA : A -> A -> Prop)
    (m1 m2 : Prog E A) : Prop :=
  forall w1 w2, sameQuiet w1 w2 ->
    match m1 w1, m2 w2 with
    | (inl e1, w1'), (inl e2, w2') => RE e1 e2 /\ sameQuiet w1' w2'
    | (inr a1, w1'), (inr a2, w2') => RA a1 a2 /\ sameQuiet w1' w2'
    | _, _ => False
    end.

(** Results of [executeTest] that agree up to the error message. *)
Definition sameOutcome (r1 r2 : Execution * option GoError) : Prop :=
  withoutMessage (fst r1) = withoutMessage (fst r2) /\ snd r1 = snd r2.

(** The statement that the chat notifier is reached whatever happens to
    the webhook sinks. *)
Definition chat_notified_regardless (S : Services) (ty : WebhookEventType)
    (e : Execution) (w : World) : Prop :=
  In (CallSlackSendEvent ty e)
     (callsSince w (snd (runBody (notifyEvents S ty e) w))).

(** The statement that the execution [executeTest] returns is the same
    whatever the notification sinks answer. *)
Definition notifications_transparent (S1 S2 : Services) (test : Test)
    (request : ExecutionRequest) (w : World) : Prop :=
  agreeOffNotifications S1 S2 ->
  fst (fst (runBody (executeTest S1 test request) w))
  = fst (fst (runBody (executeTest S2 test request) w)).

(** Deliveries to a sink: a webhook event or a chat message. *)
Definition isDelivery (c : Call) : bool :=
  match c with
  | CallNotify _ | CallSlackSendEvent _ _ => true
  | _ => false
  end.

(** The tests the handler works on: the one named by the [id] route
    parameter, or those the selector lists. *)
Definition requestedTests (S : Services) (c : FiberCtx) : list TestCR + GoError :=
  if negb (String.eqb (CtxParams c "id") "") then
    match TestsGet S (CtxParams c "id") with
    | inl test => inl [test]
    | inr err => inr err
    end
  else TestsList S (CtxQuery c "selector").

Definition lookupCall (c : FiberCtx) : Call :=
  if negb (String.eqb (CtxParams c "id") "") then CallTestsGet (CtxParams c "id")
  else CallTestsList (CtxQuery c "selector").

Definition scheduledTests (c : FiberCtx) (tests : list TestCR) : list TestCR :=
  List.filter (fun t => negb (runsNow c t)) tests.

Definition immediateTests (c : FiberCtx) (tests : list TestCR) : list TestCR :=
  List.filter (runsNow c) tests.

(** The serialized request, when it serializes. *)
Definition marshalled (S : Services) (request : ExecutionRequest) : string :=
  match jsonMarshal S request with
  | inl data => data
  | inr _ => ""
  end.

(** The registration of a test with the scheduler. *)
Definition cronOptions (S : Services) (request : ExecutionRequest) (t : TestCR)
  : CronJobOptions :=
  mkCronJobOptions (SpecSchedule (Spec t)) testResourceURI (marshalled S request)
    (CRLabels t).

Definition cronCall (S : Services) (request : ExecutionRequest) (t : TestCR) : Call :=
  CallCronApply (CRName t) (cronMetadataName S (CRName t) testResourceURI)
    (cronOptions S request t).

(** The scheduler accepts the registration of the test. *)
Definition schedules (S : Services) (request : ExecutionRequest) (t : TestCR) : Prop :=
  (exists data, jsonMarshal S request = inl data) /\
  CronApply S (CRName t) (cronMetadataName S (CRName t) testResourceURI)
    (cronOptions S request t) = None.

(** The concurrency level of the request, when it is a number. *)
Definition concurrencyLevelOf (c : FiberCtx) : Z :=
  match Atoi (QueryDefault c "concurrency" defaultConcurrencyLevel) with
  | inl n => n
  | inr _ => 0
  end.

(** The statement that every test to run now reaches the worker pool. *)
Definition immediate_tests_dispatched (S : Services) (c : FiberCtx) (w : World)
  : Prop :=
  forall request tests t,
    BodyParser c = inl request ->
    requestedTests S c = inl tests ->
    In t tests -> runsNow c t = true ->
    exists level jobs,
      In (CallPool level jobs)
         (callsSince w (snd (runBody (ExecuteTestsHandler S c) w))) /\
      In (mkTestJob (MapTestCRToAPI S t) request) jobs.

(** The deployment in which the store already holds an execution, which
    every lookup by name and test answers. *)
Definition withStoredExecution (S : Services) (stored : Execution) : Services :=
  mkServices (randName S) (newObjectID S) (timeNow S)
    (fun _ _ => (stored, None))
    (Insert S) (StartExecution S) (UpdateResult S) (TestsGet S) (TestsList S)
    (ExecutorsGetByType S) (SecretGet S) (WebhooksGetByEvent S)
    (Execute S) (ExecuteSync S) (SlackSendEvent S) (CronApply S)
    (PoolResponses S) (secretMetadataName S) (cronMetadataName S)
    (MapTestCRToAPI S) (MapTestContentFromSpec S) (jsonMarshal S) (fmtErrorf0 S).

End Vocabulary.

(** ** Further vocabulary for [executeTest] and the batch handler *)

Module MoreVocabulary.
Import GoTime Testkube Collab V1 Vocabulary.

Definition isInsert (c : Call) : bool :=
  match c with
  | CallInsert _ => true
  | _ => false
  end.

Definition isUpdateResult (c : Call) : bool :=
  match c with
  | CallUpdateResult _ _ => true
  | _ => false
  end.

Definition isMetric (c : Call) : bool :=
  match c with
  | CallIncExecution _ => true
  | _ => false
  end.

(** The lookups of webhooks, one per attempted notification. *)
Definition isEventLookup (c : Call) : bool :=
  match c with
  | CallWebhooksGetByEvent _ => true
  | _ => false
  end.

(** The services [S] with another answer of the test listing. *)
Definition withTestsList (S : Services) (answer : string -> list TestCR + GoError)
  : Services :=
  mkServices (randName S) (newObjectID S) (timeNow S) (GetByNameAndTest S) (Insert S)
    (StartExecution S) (UpdateResult S) (TestsGet S) answer (ExecutorsGetByType S)
    (SecretGet S) (WebhooksGetByEvent S) (Execute S) (ExecuteSync S) (SlackSendEvent S)
    (CronApply S) (PoolResponses S) (secretMetadataName S) (cronMetadataName S)
    (MapTestCRToAPI S) (MapTestContentFromSpec S) (jsonMarshal S) (fmtErrorf0 S).

(** The services [S] with a stored test whose parameter map is at [l]. *)
Definition withStoredParams (S : Services) (l : loc) : Services :=
  mkServices (randName S) (newObjectID S) (timeNow S) (GetByNameAndTest S) (Insert S)
    (StartExecution S) (UpdateResult S)
    (fun id => inl (mkTestCR id None (mkTestSpec "postman/collection" "" (Some l) "{}")))
    (TestsList S) (ExecutorsGetByType S)
    (SecretGet S) (WebhooksGetByEvent S) (Execute S) (ExecuteSync S) (SlackSendEvent S)
    (CronApply S) (PoolResponses S) (secretMetadataName S) (cronMetadataName S)
    (MapTestCRToAPI S) (MapTestContentFromSpec S) (jsonMarshal S) (fmtErrorf0 S).

(** A listing of two tests: one with a recurring schedule, one without. *)
Definition sampleListing : list TestCR :=
  [mkTestCR "nightly" None (mkTestSpec "postman/collection" "0 3 * * *" None "{}");
   mkTestCR "smoke" None (mkTestSpec "postman/collection" "" None "{}")].

End MoreVocabulary.

(** ** The stages of [executeTest] *)

(** The answers of the collaborators decide where a run of [executeTest]
    ends.  The values the run works with are named here after the
    variables of the source. *)
Module Outcomes.
Import GoTime Testkube Collab V1 Vocabulary.

(** [request] after lines 148-150: a generated name is filled in. *)
Definition namedRequest (S : Services) (request : ExecutionRequest) : ExecutionRequest :=
  if String.eqb (ReqName request) "" then withReqName request (randName S)
  else request.

(** [execution] after line 153: what the store holds under the name. *)
Definition storedExecution (S : Services) (test : Test) (request : ExecutionRequest)
  : Execution :=
  fst (GetByNameAndTest S (ReqName (namedRequest S request)) (TName test)).

(** [options, err] of line 159. *)
Definition resolved (S : Services) (test : Test) (request : ExecutionRequest) (h : Heap)
  : ExecuteOptions * option GoError :=
  optionsOutcome S (ReqNamespace (namedRequest S request)) (TName test)
    (namedRequest S request) h.

(** [execution] of line 165, as inserted. *)
Definition pendingExecution (S : Services) (test : Test) (request : ExecutionRequest)
    (h : Heap) : Execution :=
  newExecutionFromExecutionOptions S (fst (resolved S test request h)).

(** [execution] after [execution.Start()], line 174. *)
Definition startedExecution (S : Services) (test : Test) (request : ExecutionRequest)
    (h : Heap) : Execution :=
  Start (timeNow S) (pendingExecution S test request h).

(** The answer of the secret store at line 189. *)
Definition secretAnswer (S : Services) (test : Test) (request : ExecutionRequest)
    (h : Heap) : option GoError :=
  SecretGet S (secretMetadataName S (TestName (startedExecution S test request h))).

(** [options] as handed to the executor: with the id of the execution
    and [HasSecrets] as the secret store answered. *)
Definition dispatchOptions (S : Services) (test : Test) (request : ExecutionRequest)
    (h : Heap) : ExecuteOptions :=
  let options :=
    withHasSecrets
      (withOptID (fst (resolved S test request h)) (Id (pendingExecution S test request h)))
      true in
  match secretAnswer S test request h with
  | Some _ => withHasSecrets options false
  | None => options
  end.

(** [result, err] of lines 204-208. *)
Definition dispatchAnswer (S : Services) (test : Test) (request : ExecutionRequest)
    (h : Heap) : ExecutionResult * option GoError :=
  if OptSync (dispatchOptions S test request h) then
    ExecuteSync S (startedExecution S test request h) (dispatchOptions S test request h)
  else
    Execute S (startedExecution S test request h) (dispatchOptions S test request h).

(** Where a run ends: at one of the failures, with its error, or
    completed. *)
Inductive Stage :=
| Duplicate
| OptionsFailed (err : GoError)
| InsertFailed (err : GoError)
| StartFailed (err : GoError)
| SecretFailed (err : GoError)
| UpdateFailed (err : GoError)
| DispatchFailed (err : GoError)
| Completed.

Definition stage (S : Services) (test : Test) (request : ExecutionRequest) (h : Heap)
  : Stage :=
  if String.eqb (Name (storedExecution S test request))
       (ReqName (namedRequest S request)) then Duplicate
  else
    match snd (resolved S test request h) with
    | Some err => OptionsFailed err
    | None =>
        match Insert S (pendingExecution S test request h) with
        | Some err => InsertFailed err
        | None =>
            match StartExecution S (Id (startedExecution S test request h))
                    (StartTime (startedExecution S test request h)) with
            | Some err => StartFailed err
            | None =>
                let dispatch :=
                  match UpdateResult S (Id (startedExecution S test request h))
                          (fst (dispatchAnswer S test request h)) with
                  | Some uerr => UpdateFailed uerr
                  | None =>
                      match snd (dispatchAnswer S test request h) with
                      | Some err => DispatchFailed err
                      | None => Completed
                      end
                  end in
                match secretAnswer S test request h with
                | Some err => if negb (isNotFound err) then SecretFailed err else dispatch
                | None => dispatch
                end
            end
        end
    end.

(** The execution a run returns, by the stage at which it ends. *)
Definition reported (S : Services) (test : Test) (request : ExecutionRequest) (h : Heap)
  : Execution :=
  match stage S test request h with
  | Duplicate =>
      Err (storedExecution S test request)
        (mkError ("test execution with name " ++ ReqName (namedRequest S request)
                  ++ " already exists") false)
  | OptionsFailed err =>
      Errw (storedExecution S test request)
        "can't create valid execution options: " (Some err)
  | InsertFailed err =>
      Errw (pendingExecution S test request h)
        "can't create new test execution, can't insert into storage: " (Some err)
  | StartFailed _ =>
      Errw (startedExecution S test request h)
        "can't execute test, can't insert into storage error: "
        (notifyOutcome S EndTest)
  | SecretFailed _ =>
      Errw (startedExecution S test request h) "can't get secrets: "
        (notifyOutcome S EndTest)
  | UpdateFailed uerr =>
      Errw (startedExecution S test request h) "update execution error: " (Some uerr)
  | DispatchFailed _ =>
      Errw (withResult (startedExecution S test request h)
              (Some (fst (dispatchAnswer S test request h))))
        "test execution failed: " (notifyOutcome S EndTest)
  | Completed =>
      withResult (startedExecution S test request h)
        (Some (fst (dispatchAnswer S test request h)))
  end.

(** The run reaches the lookup of the secret. *)
Definition reachesSecretLookup (S : Services) (test : Test) (request : ExecutionRequest)
    (h : Heap) : bool :=
  match stage S test request h with
  | Duplicate | OptionsFailed _ | InsertFailed _ | StartFailed _ => false
  | _ => true
  end.

(** The heap a run leaves: only the resolution of the options writes to
    it. *)
Definition heapAfter (S : Services) (test : Test) (request : ExecutionRequest) (h : Heap)
  : Heap :=
  if String.eqb (Name (storedExecution S test request))
       (ReqName (namedRequest S request)) then h
  else
    optionsHeap S (ReqNamespace (namedRequest S request)) (TName test)
      (namedRequest S request) h.

(** Two states of the world hold the same maps; the calls recorded so
    far may differ. *)
Definition sameHeap (w w' : World) : Prop := heap w = heap w'.

(** The deployment in which the secret store answers as [answer] does. *)
Definition withSecretGet (S : Services) (answer : string -> option GoError) : Services :=
  mkServices (randName S) (newObjectID S) (timeNow S) (GetByNameAndTest S)
    (Insert S) (StartExecution S) (UpdateResult S) (TestsGet S) (TestsList S)
    (ExecutorsGetByType S) answer (WebhooksGetByEvent S)
    (Execute S) (ExecuteSync S) (SlackSendEvent S) (CronApply S)
    (PoolResponses S) (secretMetadataName S) (cronMetadataName S)
    (MapTestCRToAPI S) (MapTestContentFromSpec S) (jsonMarshal S) (fmtErrorf0 S).

End Outcomes.

(** ** The content and suite models (package [testkube]) *)

Module Models.
Import Testkube.

(** [testkube.Repository], the fields read by the handlers. *)
Record Repository := mkRepository { Username : string; Token : string }.

(** [testkube.TestContent], the fields read by the code. *)
Record TestContent := mkTestContent {
  Type_ : string;
  Data : string;
  ContentRepository : option Repository
}.

Definition ScriptContentTypeString : string := "string".
Definition ScriptContentTypeFileURI : string := "file-uri".
Definition ScriptContentTypeGitFile : string := "git-file".
Definition ScriptContentTypeGitDir : string := "git-dir".

(** [func NewStringScriptContent(str string) *TestContent] *)
Definition NewStringScriptContent (str : string) : TestContent :=
  mkTestContent ScriptContentTypeString str None.

(** [func (c *TestContent) IsDir() bool] *)
Definition IsDir (c : TestContent) : bool :=
  String.eqb (Type_ c) ScriptContentTypeGitDir.

(** [func (c *TestContent) IsFile() bool] *)
Definition IsFile (c : TestContent) : bool :=
  String.eqb (Type_ c) ScriptContentTypeGitFile
  || String.eqb (Type_ c) ScriptContentTypeFileURI
  || String.eqb (Type_ c) ScriptContentTypeString.

(** [testkube.ObjectRef] *)
Record ObjectRef := mkObjectRef { RefName : string; RefNamespace : string }.

(** [fmt.Sprintf("%d", n)] for a length. *)
Definition Sprintf_d (n : nat) : string := NilZero.string_of_uint (Nat.to_uint n).

Section Suites.
(** [testkube.TestSuiteStep] and its methods, and [LabelsToString], are
    not among the sources: they stay abstract. *)
Context {Step : Type}.
Variable LabelsToString : GoMap -> string.

(** [testkube.TestSuite], the fields read by the code. *)
Record TestSuite := mkTestSuite {
  SuiteName : string;
  SuiteNamespace : string;
  Description : string;
  Steps : list Step;
  SuiteLabels : GoMap;
  Schedule : string
}.

(** [testkube.TestSuiteExecution], the fields read by [Table]. *)
Record TestSuiteExecution := mkTestSuiteExecution {
  SuiteExecutionId : string;
  SuiteExecutionStatus : option string
}.

Record TestSuiteWithExecution := mkTestSuiteWithExecution {
  WithSuite : option TestSuite;
  WithLatestExecution : option TestSuiteExecution
}.

Definition suiteHeader : list string :=
  ["Name"; "Description"; "Steps"; "Labels"; "Schedule"; "Status"; "Execution id"].

(** The row of one entry in [TestSuiteWithExecutions.Table], lines 77-94. *)
Definition suiteRow (suite : TestSuite) (e : TestSuiteWithExecution) : list string :=
  let status := "" in
  let executionID := "" in
  let '(executionID, status) :=
    match WithLatestExecution e with
    | Some latest =>
        (SuiteExecutionId latest,
         match SuiteExecutionStatus latest with
         | Some s => s
         | None => status
         end)
    | None => (executionID, status)
    end in
  [SuiteName suite; Description suite; Sprintf_d (length (Steps suite));
   LabelsToString (SuiteLabels suite); Schedule suite; status; executionID].

(** [func (testSutes TestSuiteWithExecutions) Table() (header []string,
    output [][]string)]: the loop appends to [output]. *)
Fixpoint suiteRows (testSutes : list TestSuiteWithExecution) (output : list (list string))
  : list (list string) :=
  match testSutes with
  | [] => output
  | e :: rest =>
      match WithSuite e with
      | None => suiteRows rest output
      | Some suite => suiteRows rest (output ++ [suiteRow suite e])
      end
  end.

Definition SuitesTable (testSutes : list TestSuiteWithExecution)
  : list string * list (list string) :=
  (suiteHeader, suiteRows testSutes []).

(** [func (t TestSuiteWithExecution) GetObjectRef() *ObjectRef] *)
Definition GetObjectRef (t : TestSuiteWithExecution) : ObjectRef :=
  let name := "" in
  let namespace := "" in
  let '(name, namespace) :=
    match WithSuite t with
    | Some suite => (SuiteName suite, SuiteNamespace suite)
    | None => (name, namespace)
    end in
  mkObjectRef name namespace.

(** [testkube.Tests.Table], over the fields it reads. *)
Record TestSummary := mkTestSummary {
  SummaryName : string;
  SummaryDescription : string;
  SummarySteps : list Step
}.

Definition testsHeader : list string := ["Name"; "Description"; "Steps"].

Fixpoint testsRows (tests : list TestSummary) (output : list (list string))
  : list (list string) :=
  match tests with
  | [] => output
  | e :: rest =>
      testsRows rest
        (output ++ [[SummaryName e; SummaryDescription e;
                     Sprintf_d (length (SummarySteps e))]])
  end.

Definition TestsTable (tests : list TestSummary) : list string * list (list string) :=
  (testsHeader, testsRows tests []).

(** The step types [Step.Type()] is compared with; any other value,
    nil included, is [TestStepTypeOther]. *)
Inductive TestSuiteStepType :=
| TestStepTypeExecuteScript
| TestStepTypeDelay
| TestStepTypeOther.

Variable StepTypeOf : Step -> TestSuiteStepType.
Variable FullName : Step -> string.
(** [string(status)] of an execution status. *)
Variable StatusText : ExecutionStatus -> string.

(** [testkube.TestStepExecutionResult] *)
Record TestStepExecutionResult := mkTestStepExecutionResult {
  ResultStep : Step;
  StepExecution : option Execution
}.

Definition executionHeader : list string := ["Status"; "Step"; "ID"; "Error"].

(** The rows one step result adds in [TestExecution.Table], lines 57-74:
    one for a script or a delay step, none for another step type. *)
Definition executionRow (sr : TestStepExecutionResult) : list (list string) :=
  let status :=
    match StepExecution sr with
    | Some execution =>
        match Result execution with
        | Some result =>
            match Status result with
            | Some s => StatusText s
            | None => "no-execution-result"
            end
        | None => "no-execution-result"
        end
    | None => "no-execution-result"
    end in
  match StepTypeOf (ResultStep sr) with
  | TestStepTypeExecuteScript =>
      let '(id, errorMessage) :=
        match StepExecution sr with
        | Some execution =>
            match Result execution with
            | Some result => (Id execution, ErrorMessage result)
            | None => ("", "")
            end
        | None => ("", "")
        end in
      [[status; FullName (ResultStep sr); id; errorMessage]]
  | TestStepTypeDelay => [[status; FullName (ResultStep sr); ""; ""]]
  | TestStepTypeOther => []
  end.

Fixpoint executionRows (stepResults : list TestStepExecutionResult)
    (output : list (list string)) : list (list string) :=
  match stepResults with
  | [] => output
  | sr :: rest => executionRows rest (output ++ executionRow sr)
  end.

(** [func (e TestExecution) Table() (header []string, output [][]string)],
    which reads [e.StepResults] only. *)
Definition ExecutionTable (stepResults : list TestStepExecutionResult)
  : list string * list (list string) :=
  (executionHeader, executionRows stepResults []).

(** The entries that carry a test suite. *)
Definition hasSuite (e : TestSuiteWithExecution) : bool :=
  match WithSuite e with Some _ => true | None => false end.

(** The step results of script and delay steps. *)
Definition isShown (sr : TestStepExecutionResult) : bool :=
  match StepTypeOf (ResultStep sr) with
  | TestStepTypeOther => false
  | _ => true
  end.

End Suites.

End Models.

(** ** Handlers that only call their collaborators *)

(** The handlers below keep no state of their own: a run is its result,
    or the answer it returned early with, and the calls it made on the
    collaborators, in order. *)
Module Act.
Section Act.
Context {C : Type}.

Definition Act (E A : Type) : Type := ((E + A) * list C)%type.

Definition ret {E A} (a : A) : Act E A := (inr a, []).

(** An early [return] from the handler. *)
Definition exit {E A} (e : E) : Act E A := (inl e, []).

Definition bind {E A B} (m : Act E A) (k : A -> Act E B) : Act E B :=
  match m with
  | (inl e, made) => (inl e, made)
  | (inr a, made) =>
      match k a with
      | (r, more) => (r, made ++ more)%list
      end
  end.

(** A call on a collaborator. *)
Definition call {E} (c : C) : Act E unit := (inr tt, [c]).

(** What the handler answers, returned early or at its end. *)
Definition answer {R} (m : Act R R) : R :=
  match fst m with
  | inl r => r
  | inr r => r
  end.

(** The calls of a run. *)
Definition calls {E A} (m : Act E A) : list C := snd m.

End Act.
Arguments Act : clear implicits.
End Act.

Declare Scope act_scope.
Delimit Scope act_scope with act.
Notation "x <- m ;; k" := (Act.bind m (fun x => k))
  (at level 100, m at next level, right associativity) : act_scope.
Notation "m ;; k" := (Act.bind m (fun _ => k))
  (at level 100, right associativity) : act_scope.

(** ** The test handlers (package [v1], [tests.go]) *)

Module Tests.
Import GoTime Testkube Collab V1 Models Act.
Local Open Scope act_scope.

(** An error of the execution store: [mongo.ErrNoDocuments], which the
    handlers compare with [==], or any other error. *)
Inductive StoreError :=
| ErrNoDocuments
| StoreFailure (err : GoError).

Definition storeError (e : StoreError) : GoError :=
  match e with
  | ErrNoDocuments => mkError "mongo: no documents in result" false
  | StoreFailure err => err
  end.

Definition isErrNoDocuments (e : StoreError) : bool :=
  match e with
  | ErrNoDocuments => true
  | StoreFailure _ => false
  end.

(** [testkube.TestUpsertRequest], the fields read by the handlers. *)
Record TestUpsertRequest := mkTestUpsertRequest {
  UpsertName : string;
  UpsertSchedule : string;
  UpsertLabels : GoMap;
  UpsertContent : option TestContent
}.

(** A cron job of the cluster. *)
Record CronJob := mkCronJob { CronJobName : string }.

(** [testkube.TestWithExecution] *)
Record TestWithExecution := mkTestWithExecution {
  WithTest : option Test;
  LatestExecution : option Execution
}.

(** What a handler answers: [c.JSON], [s.Error], [s.Warn], [c.SendStatus],
    [c.SendStream], or a run-time panic. *)
Inductive Reply (P : Type) :=
| ReplyJSON (payload : P)
| ReplyError (status : Z) (err : GoError)
| ReplyWarn (status : Z) (err : GoError)
| ReplyStatus (status : Z)
| ReplySendStream (file : string)
| ReplyPanic.
Arguments ReplyJSON {P}.
Arguments ReplySendStream {P}.
Arguments ReplyError {P}.
Arguments ReplyWarn {P}.
Arguments ReplyStatus {P}.
Arguments ReplyPanic {P}.

Definition StatusNotFound : Z := 404.
Definition StatusBadGateway : Z := 502.
Definition StatusNoContent : Z := 204.

(** The calls of the test handlers on their collaborators. *)
Inductive TCall :=
| CallGet (name : string)
| CallList (selector : string)
| CallGetLatestByTest (name : string)
| CallGetLatestByTests (names : list string)
| CallInfow (msg : string) (request : TestUpsertRequest)
| CallCreate (namespace : string) (test : TestCR)
| CallIncCreateTest (testType : string) (err : option GoError)
| CallSecretCreate (name : string) (labels : GoMap) (data : gmap string string)
| CallCronGet (name : string)
| CallCronDelete (name : string)
| CallCronUpdateLabels (cronJob : CronJob) (oldLabels newLabels : GoMap)
| CallUpdate (test : TestCR)
| CallIncUpdateTest (testType : string) (err : option GoError)
| CallSecretApply (name : string) (labels : GoMap) (data : gmap string string)
| CallDelete (name : string)
| CallSecretDelete (name : string)
| CallDeleteAll
| CallDeleteByLabels (selector : string)
| CallSecretDeleteAll (selector : string)
| CallCronDeleteAll (resource : string) (selector : string).

(** The answers of the collaborators.  A client that returns a pointer
    and an error answers a pair where the handler reads the pointer
    whatever the error is. *)
Record TestServices := mkTestServices {
  Namespace : string;
  TestsGet : string -> TestCR + GoError;
  TestsList : string -> list TestCR + GoError;
  GetLatestByTest : string -> Execution * option StoreError;
  GetLatestByTests : list string -> list Execution * option StoreError;
  TestsCreate : string -> TestCR -> option TestCR * option GoError;
  TestsUpdate : TestCR -> option TestCR * option GoError;
  TestsDelete : string -> option GoError;
  TestsDeleteAll : option GoError;
  TestsDeleteByLabels : string -> option GoError;
  SecretCreate : string -> GoMap -> gmap string string -> option GoError;
  SecretApply : string -> GoMap -> gmap string string -> option GoError;
  SecretDelete : string -> option GoError;
  SecretDeleteAll : string -> option GoError;
  CronGet : string -> option CronJob * option GoError;
  CronDelete : string -> option GoError;
  CronUpdateLabels : CronJob -> GoMap -> GoMap -> option GoError;
  CronDeleteAll : string -> string -> option GoError;
  (** [secret.GetMetadataName], [cronjob.GetMetadataName] *)
  secretName : string -> string;
  cronName : string -> string -> string;
  (** [jobs.GitUsernameSecretName], [jobs.GitTokenSecretName] *)
  GitUsernameSecretName : string;
  GitTokenSecretName : string;
  (** package [testsmapper] *)
  MapCRToAPI : TestCR -> Test;
  MapTestListKubeToAPI : list TestCR -> list Test;
  MapToSpec : TestUpsertRequest -> TestCR;
  (** [testkube.ParseExecutionStatusList] followed by [ToMap]: the
      statuses that are keys of the map *)
  ParseExecutionStatusList : string -> string -> (ExecutionStatus -> bool) + GoError
}.

Section Handlers.
Variable S : TestServices.

Abbreviation Handler P := (Act TCall (Reply P) (Reply P)) (only parsing).

(** [func (s TestkubeAPI) GetTestHandler() fiber.Handler] *)
Definition GetTestHandler (c : FiberCtx) : Handler Test :=
  let name := CtxParams c "id" in
  call (CallGet name) ;;
  match TestsGet S name with
  | inr err =>
      if isNotFound err then exit (ReplyError StatusNotFound err)
      else exit (ReplyError StatusBadGateway err)
  | inl crTest => ret (ReplyJSON (MapCRToAPI S crTest))
  end.

(** [func (s TestkubeAPI) GetTestWithExecutionHandler() fiber.Handler] *)
Definition GetTestWithExecutionHandler (c : FiberCtx) : Handler TestWithExecution :=
  let name := CtxParams c "id" in
  call (CallGet name) ;;
  crTest <- match TestsGet S name with
            | inr err =>
                if isNotFound err then exit (ReplyError StatusNotFound err)
                else exit (ReplyError StatusBadGateway err)
            | inl crTest => ret crTest
            end ;;
  call (CallGetLatestByTest name) ;;
  let '(execution, err) := GetLatestByTest S name in
  match err with
  | Some e =>
      if negb (isErrNoDocuments e) then
        exit (ReplyError StatusInternalServerError (storeError e))
      else ret tt
  | None => ret tt
  end ;;
  let test := MapCRToAPI S crTest in
  let testWithExecution := mkTestWithExecution (Some test) None in
  let testWithExecution :=
    match err with
    | None => mkTestWithExecution (WithTest testWithExecution) (Some execution)
    | Some _ => testWithExecution
    end in
  ret (ReplyJSON testWithExecution).

(** [strings.Contains(s, substr)] *)
Fixpoint Contains (s substr : string) : bool :=
  String.prefix substr s ||
  match s with
  | EmptyString => false
  | String _ rest => Contains rest substr
  end.

(** The loop [for i := len(items) - 1; i >= 0; i--] that removes the
    items failing [keep] in place with
    [items = append(items[:i], items[i+1:]...)]; [n] is [i + 1].  Reading
    [items[i]] beyond the length panics. *)
Fixpoint removeLoop {A} (keep : A -> bool) (n : nat) (items : list A) : option (list A) :=
  match n with
  | O => Some items
  | Datatypes.S i =>
      match items !! i with
      | None => None
      | Some item =>
          if negb (keep item) then removeLoop keep i (take i items ++ drop (i + 1) items)%list
          else removeLoop keep i items
      end
  end.

(** [func (s TestkubeAPI) getFilteredTestList], which returns the list
    of tests or an error; a panic is the early answer. *)
Definition getFilteredTestList {P} (c : FiberCtx)
  : Act TCall (Reply P) (list TestCR + GoError) :=
  call (CallList (CtxQuery c "selector")) ;;
  match TestsList S (CtxQuery c "selector") with
  | inr err => ret (inr err)
  | inl items =>
      let search := CtxQuery c "textSearch" in
      items <- (if negb (String.eqb search "") then
                  match removeLoop (fun t => Contains (CRName t) search)
                          (length items) items with
                  | None => exit ReplyPanic
                  | Some items => ret items
                  end
                else ret items) ;;
      let testType := CtxQuery c "type" in
      items <- (if negb (String.eqb testType "") then
                  match removeLoop (fun t => Contains (SpecType (Spec t)) testType)
                          (length items) items with
                  | None => exit ReplyPanic
                  | Some items => ret items
                  end
                else ret items) ;;
      ret (inl items)
  end.

(** [func (s TestkubeAPI) ListTestsHandler() fiber.Handler] *)
Definition ListTestsHandler (c : FiberCtx) : Handler (list Test) :=
  crTests <- getFilteredTestList c ;;
  match crTests with
  | inr err => exit (ReplyError StatusBadGateway err)
  | inl crTests => ret (ReplyJSON (MapTestListKubeToAPI S crTests))
  end.

(** The map [executionMap] of [ListTestWithExecutionsHandler], lines
    135-138. *)
Definition executionMap (executions : list Execution) : gmap string Execution :=
  fold_left (fun m e => <[TestName e := e]> m) executions ∅.

(** The condition of lines 157-162 under which an entry is kept. *)
Definition keepsStatus (statusMap : ExecutionStatus -> bool) (t : TestWithExecution)
  : bool :=
  match LatestExecution t with
  | Some execution =>
      match Result execution with
      | Some result =>
          match Status result with
          | Some status => statusMap status
          | None => false
          end
      | None => false
      end
  | None => false
  end.

(** [func (s TestkubeAPI) ListTestWithExecutionsHandler() fiber.Handler] *)
Definition ListTestWithExecutionsHandler (c : FiberCtx)
  : Handler (list TestWithExecution) :=
  crTests <- getFilteredTestList c ;;
  crTests <- match crTests with
             | inr err => exit (ReplyError StatusBadGateway err)
             | inl crTests => ret crTests
             end ;;
  let tests := MapTestListKubeToAPI S crTests in
  let testNames := map TName tests in
  call (CallGetLatestByTests testNames) ;;
  let '(executions, err) := GetLatestByTests S testNames in
  match err with
  | Some e =>
      if negb (isErrNoDocuments e) then
        exit (ReplyError StatusInternalServerError (storeError e))
      else ret tt
  | None => ret tt
  end ;;
  let executionMap := executionMap executions in
  let testWithExecutions :=
    map (fun t => mkTestWithExecution (Some t) (executionMap !! TName t)) tests in
  let status := CtxQuery c "status" in
  testWithExecutions <-
    (if negb (String.eqb status "") then
       match ParseExecutionStatusList S status "," with
       | inr err =>
           exit (ReplyError StatusBadRequest
                   (Errorf_w "execution status filter invalid: " (Some err)))
       | inl statusMap =>
           match removeLoop (keepsStatus statusMap) (length testWithExecutions)
                   testWithExecutions with
           | None => exit ReplyPanic
           | Some kept => ret kept
           end
       end
     else ret testWithExecutions) ;;
  ret (ReplyJSON testWithExecutions).

(** [func GetSecretsStringData(content *testkube.TestContent)
    map[string]string] *)
Definition GetSecretsStringData (content : option TestContent) : gmap string string :=
  let stringData : gmap string string :=
    <[GitTokenSecretName S := ""]> (<[GitUsernameSecretName S := ""]> ∅) in
  match content with
  | Some content =>
      match ContentRepository content with
      | Some repository =>
          <[GitTokenSecretName S := Token repository]>
            (<[GitUsernameSecretName S := Username repository]> stringData)
      | None => stringData
      end
  | None => stringData
  end.

(** [func (s TestkubeAPI) CreateTestHandler() fiber.Handler].  The metric
    reads [test.Spec.Type_] through the pointer [Create] returned, before
    the error is looked at. *)
Definition CreateTestHandler (body : TestUpsertRequest + GoError) : Handler TestCR :=
  request <- match body with
             | inr err => exit (ReplyError StatusBadRequest err)
             | inl request => ret request
             end ;;
  call (CallInfow "creating test" request) ;;
  let testSpec := MapToSpec S request in
  call (CallCreate (Namespace S) testSpec) ;;
  let '(test, err) := TestsCreate S (Namespace S) testSpec in
  test <- match test with
          | None => exit ReplyPanic
          | Some test => ret test
          end ;;
  call (CallIncCreateTest (SpecType (Spec test)) err) ;;
  match err with
  | Some err => exit (ReplyError StatusBadGateway err)
  | None => ret tt
  end ;;
  let stringData := GetSecretsStringData (UpsertContent request) in
  call (CallSecretCreate (secretName S (UpsertName request)) (CRLabels test) stringData) ;;
  match SecretCreate S (secretName S (UpsertName request)) (CRLabels test) stringData with
  | Some err => exit (ReplyError StatusBadGateway err)
  | None => ret tt
  end ;;
  ret (ReplyJSON test).

(** [func (s TestkubeAPI) UpdateTestHandler() fiber.Handler] *)
Definition UpdateTestHandler (body : TestUpsertRequest + GoError) : Handler TestCR :=
  request <- match body with
             | inr err => exit (ReplyError StatusBadRequest err)
             | inl request => ret request
             end ;;
  call (CallInfow "updating test" request) ;;
  call (CallGet (UpsertName request)) ;;
  test <- match TestsGet S (UpsertName request) with
          | inr err => exit (ReplyError StatusBadGateway err)
          | inl test => ret test
          end ;;
  (if negb (String.eqb (SpecSchedule (Spec test)) "") then
     let name := cronName S (UpsertName request) testResourceURI in
     call (CallCronGet name) ;;
     let '(cronJob, err) := CronGet S name in
     match err with
     | Some err =>
         if negb (isNotFound err) then exit (ReplyError StatusBadGateway err)
         else ret tt
     | None => ret tt
     end ;;
     match cronJob with
     | Some cronJob =>
         if String.eqb (UpsertSchedule request) "" then
           call (CallCronDelete name) ;;
           match CronDelete S name with
           | Some err => exit (ReplyError StatusBadGateway err)
           | None => ret tt
           end
         else
           call (CallCronUpdateLabels cronJob (CRLabels test) (UpsertLabels request)) ;;
           match CronUpdateLabels S cronJob (CRLabels test) (UpsertLabels request) with
           | Some err => exit (ReplyError StatusBadGateway err)
           | None => ret tt
           end
     | None => ret tt
     end
   else ret tt) ;;
  let testSpec := MapToSpec S request in
  let test := mkTestCR (CRName test) (UpsertLabels request) (Spec testSpec) in
  call (CallUpdate test) ;;
  let '(test, err) := TestsUpdate S test in
  test <- match test with
          | None => exit ReplyPanic
          | Some test => ret test
          end ;;
  call (CallIncUpdateTest (SpecType (Spec test)) err) ;;
  match err with
  | Some err => exit (ReplyError StatusBadGateway err)
  | None => ret tt
  end ;;
  let stringData := GetSecretsStringData (UpsertContent request) in
  call (CallSecretApply (secretName S (UpsertName request)) (CRLabels test) stringData) ;;
  match SecretApply S (secretName S (UpsertName request)) (CRLabels test) stringData with
  | Some err => exit (ReplyError StatusBadGateway err)
  | None => ret tt
  end ;;
  ret (ReplyJSON test).

(** The pattern [if err = f(); err != nil { if !errors.IsNotFound(err)
    { return s.Error(c, http.StatusBadGateway, err) } }] of the deletions. *)
Definition unlessNotFound {P} (err : option GoError) : Act TCall (Reply P) unit :=
  match err with
  | Some err =>
      if negb (isNotFound err) then exit (ReplyError StatusBadGateway err)
      else ret tt
  | None => ret tt
  end.

(** [func (s TestkubeAPI) DeleteTestHandler() fiber.Handler] *)
Definition DeleteTestHandler (c : FiberCtx) : Handler unit :=
  let name := CtxParams c "id" in
  call (CallDelete name) ;;
  match TestsDelete S name with
  | Some err =>
      if isNotFound err then exit (ReplyWarn StatusNotFound err)
      else exit (ReplyError StatusBadGateway err)
  | None => ret tt
  end ;;
  call (CallSecretDelete (secretName S name)) ;;
  unlessNotFound (SecretDelete S (secretName S name)) ;;
  call (CallCronDelete (cronName S name testResourceURI)) ;;
  unlessNotFound (CronDelete S (cronName S name testResourceURI)) ;;
  ret (ReplyStatus StatusNoContent).

(** [func (s TestkubeAPI) DeleteTestsHandler() fiber.Handler] *)
Definition DeleteTestsHandler (c : FiberCtx) : Handler unit :=
  let selector := CtxQuery c "selector" in
  err <- (if String.eqb selector "" then
            call CallDeleteAll ;; ret (TestsDeleteAll S)
          else
            call (CallDeleteByLabels selector) ;; ret (TestsDeleteByLabels S selector)) ;;
  match err with
  | Some err =>
      if isNotFound err then exit (ReplyWarn StatusNotFound err)
      else exit (ReplyError StatusBadGateway err)
  | None => ret tt
  end ;;
  call (CallSecretDeleteAll selector) ;;
  unlessNotFound (SecretDeleteAll S selector) ;;
  call (CallCronDeleteAll testResourceURI selector) ;;
  unlessNotFound (CronDeleteAll S testResourceURI selector) ;;
  ret (ReplyStatus StatusNoContent).

End Handlers.

End Tests.

(** ** Vocabulary for the test handlers *)

Module TestsVocabulary.
Import GoTime Testkube Collab V1 Models Act Tests.

(** The tests a listing request selects: those whose name contains the
    [textSearch] value and whose type contains the [type] value. *)
Definition selects (c : FiberCtx) (t : TestCR) : bool :=
  Contains (CRName t) (CtxQuery c "textSearch")
  && Contains (SpecType (Spec t)) (CtxQuery c "type").

(** The last execution of the list recorded for the test name. *)
Definition latestFor (name : string) (executions : list Execution) : option Execution :=
  find (fun e => String.eqb (TestName e) name) (rev executions).

Definition withLatest (executions : list Execution) (t : Test) : TestWithExecution :=
  mkTestWithExecution (Some t) (latestFor (TName t) executions).

(** An error the deletions tolerate: none, or "not found". *)
Definition tolerated (err : option GoError) : bool :=
  match err with
  | Some err => isNotFound err
  | None => true
  end.

Definition isTestMetric (c : TCall) : bool :=
  match c with
  | CallIncCreateTest _ _ | CallIncUpdateTest _ _ => true
  | _ => false
  end.

Definition isSecretWrite (c : TCall) : bool :=
  match c with
  | CallSecretCreate _ _ _ | CallSecretApply _ _ _ => true
  | _ => false
  end.

Definition isCronCall (c : TCall) : bool :=
  match c with
  | CallCronGet _ | CallCronDelete _ | CallCronUpdateLabels _ _ _
  | CallCronDeleteAll _ _ => true
  | _ => false
  end.

(** The error, if any, on which [UpdateTestHandler] stops while it deals
    with the cron job of the stored test. *)
Definition cronStage (S : TestServices) (request : TestUpsertRequest) (test : TestCR)
  : option GoError :=
  let name := cronName S (UpsertName request) testResourceURI in
  if String.eqb (SpecSchedule (Spec test)) "" then None
  else
    match CronGet S name with
    | (cronJob, err) =>
        if tolerated err then
          match cronJob with
          | Some cronJob =>
              if String.eqb (UpsertSchedule request) "" then CronDelete S name
              else CronUpdateLabels S cronJob (CRLabels test) (UpsertLabels request)
          | None => None
          end
        else err
    end.

(** Collaborators that accept everything, over one stored test with a
    recurring schedule and a cron job. *)
Definition sampleTestServices : TestServices :=
  let stored :=
    mkTestCR "nightly" None (mkTestSpec "postman/collection" "0 3 * * *" None "{}") in
  mkTestServices "testkube"
    (fun _ => inl stored) (fun _ => inl [stored])
    (fun _ => (zeroExecution, Some ErrNoDocuments)) (fun _ => ([], None))
    (fun _ cr => (Some cr, None)) (fun cr => (Some cr, None))
    (fun _ => None) None (fun _ => None)
    (fun _ _ _ => None) (fun _ _ _ => None) (fun _ => None) (fun _ => None)
    (fun n => (Some (mkCronJob n), None)) (fun _ => None) (fun _ _ _ => None)
    (fun _ _ => None)
    (fun n => n ++ "-secrets") (fun n r => n ++ "-" ++ r)
    "git-username" "git-token"
    (fun cr => mkTest (CRName cr) "" (SpecType (Spec cr)) (SpecSchedule (Spec cr))
                 (SpecParams (Spec cr)) (CRLabels cr))
    (map (fun cr => mkTest (CRName cr) "" (SpecType (Spec cr)) (SpecSchedule (Spec cr))
                      (SpecParams (Spec cr)) (CRLabels cr)))
    (fun r => mkTestCR (UpsertName r) (UpsertLabels r)
                (mkTestSpec "postman/collection" (UpsertSchedule r) None "{}"))
    (fun _ _ => inl (fun _ => true)).

End TestsVocabulary.

(** ** Query escaping (package [net/url]) *)

Module Url.
Local Open Scope char_scope.

Definition ishex (c : ascii) : bool :=
  let n := nat_of_ascii c in
  ((48 <=? n) && (n <=? 57) || (97 <=? n) && (n <=? 102) || (65 <=? n) && (n <=? 70))%nat.

Definition unhex (c : ascii) : nat :=
  let n := nat_of_ascii c in
  (if (48 <=? n) && (n <=? 57) then n - 48
   else if (97 <=? n) && (n <=? 102) then n - 97 + 10
   else if (65 <=? n) && (n <=? 70) then n - 65 + 10
   else 0)%nat.

(** [url.QueryUnescape]: [%XX] becomes the byte [XX] and [+] a space;
    a [%] that is not followed by two hexadecimal digits is an error
    ([None]), and the handlers only test that error against nil. *)
Fixpoint QueryUnescape (s : string) : option string :=
  match s with
  | EmptyString => Some EmptyString
  | String "%" (String a (String b rest)) =>
      if ishex a && ishex b then
        match QueryUnescape rest with
        | Some t => Some (String (ascii_of_nat (unhex a * 16 + unhex b)) t)
        | None => None
        end
      else None
  | String "%" _ => None
  | String "+" rest =>
      match QueryUnescape rest with
      | Some t => Some (String " " t)
      | None => None
      end
  | String c rest =>
      match QueryUnescape rest with
      | Some t => Some (String c t)
      | None => None
      end
  end.

(** [shouldEscape(c, encodeQueryComponent)]: everything but letters,
    digits and [-_.~]. *)
Definition shouldEscape (c : ascii) : bool :=
  let n := nat_of_ascii c in
  negb ((97 <=? n) && (n <=? 122) || (65 <=? n) && (n <=? 90) || (48 <=? n) && (n <=? 57)
        || Ascii.eqb c "-" || Ascii.eqb c "_" || Ascii.eqb c "." || Ascii.eqb c "~")%nat.

(** The digit [upperhex[n]] of [0123456789ABCDEF]. *)
Definition upperhex (n : nat) : ascii :=
  (if n <? 10 then ascii_of_nat (48 + n) else ascii_of_nat (65 + (n - 10)))%nat.

(** [url.QueryEscape] *)
Fixpoint QueryEscape (s : string) : string :=
  match s with
  | EmptyString => EmptyString
  | String c rest =>
      if shouldEscape c then
        if Ascii.eqb c " " then String "+" (QueryEscape rest)
        else
          String "%" (String (upperhex (nat_of_ascii c / 16))
                        (String (upperhex (nat_of_ascii c mod 16)) (QueryEscape rest)))
      else String c (QueryEscape rest)
  end.

End Url.

(** ** The remaining execution handlers (package [v1], [executions.go]) *)

Module Executions.
Import GoTime Testkube Collab V1 Act Tests Url.
Local Open Scope act_scope.

(** A stored [testkube.Execution], with the [Duration] text that the
    model of [executeTest] does not need. *)
Record ExecutionDoc := mkExecutionDoc {
  DocExecution : Execution;
  DocDuration : string
}.

(** [testkube.ExecutionSummary] *)
Record ExecutionSummary := mkExecutionSummary {
  SummaryId : string;
  SummaryName : string;
  SummaryTestName : string;
  SummaryTestType : string;
  SummaryStatus : option ExecutionStatus;
  SummaryStartTime : Time;
  SummaryEndTime : Time;
  SummaryDuration : string;
  SummaryLabels : GoMap
}.

(** The zero value [testkube.ExecutionSummary{}]. *)
Definition zeroSummary : ExecutionSummary :=
  mkExecutionSummary "" "" "" "" None zeroTime zeroTime "" None.

Section Handlers.
(** The filter of a listing and the totals of the store are passed
    through; [getFilterFromRequest] and [types.FormatDuration] are not
    among the sources. *)
Context {Filter Totals : Type}.

(** [testkube.ExecutionsResult] *)
Record ExecutionsResult := mkExecutionsResult {
  ResultTotals : option Totals;
  ResultFiltered : option Totals;
  Results : list ExecutionSummary
}.

(** The calls of these handlers on their collaborators. *)
Inductive ECall :=
| CallGetExecutions (filter : Filter)
| CallGetExecutionTotals (filtered : bool) (filter : Filter)
| CallStoreGet (executionID : string)
| CallStoreGetByNameAndTest (executionID : string) (id : string)
| CallDebugw (msg : string) (execution : ExecutionDoc)
| CallDownloadFile (executionID : string) (fileName : string).

Record ExecutionServices := mkExecutionServices {
  getFilterFromRequest : FiberCtx -> Filter;
  FormatDuration : string -> string;
  GetExecutions : Filter -> list ExecutionDoc * option GoError;
  GetExecutionTotals : bool -> Filter -> Totals * option GoError;
  StoreGet : string -> ExecutionDoc * option StoreError;
  StoreGetByNameAndTest : string -> string -> ExecutionDoc * option StoreError;
  DownloadFile : string -> string -> string + GoError
}.

Variable S : ExecutionServices.

(** The summary of one execution in [mapExecutionsToExecutionSummary],
    lines 500-510; [execution.ExecutionResult.Status] reads through the
    pointer [ExecutionResult]. *)
Definition summaryOf (execution : ExecutionDoc) : option ExecutionSummary :=
  match Result (DocExecution execution) with
  | None => None
  | Some result =>
      Some (mkExecutionSummary
              (Id (DocExecution execution)) (Name (DocExecution execution))
              (TestName (DocExecution execution)) (TestType (DocExecution execution))
              (Status result)
              (StartTime (DocExecution execution)) (EndTime (DocExecution execution))
              (FormatDuration S (DocDuration execution))
              (Labels (DocExecution execution)))
  end.

(** The loop [for i, execution := range executions] writing
    [result[i]]; [None] is the nil pointer dereference. *)
Fixpoint summaryLoop (i : nat) (executions : list ExecutionDoc)
    (result : list ExecutionSummary) : option (list ExecutionSummary) :=
  match executions with
  | [] => Some result
  | execution :: rest =>
      match summaryOf execution with
      | None => None
      | Some summary => summaryLoop (Datatypes.S i) rest (<[i := summary]> result)
      end
  end.

(** [func mapExecutionsToExecutionSummary(executions []testkube.Execution)
    []testkube.ExecutionSummary] *)
Definition mapExecutionsToExecutionSummary (executions : list ExecutionDoc)
  : option (list ExecutionSummary) :=
  let result := replicate (length executions) zeroSummary in
  summaryLoop 0 executions result.

Abbreviation Handler P := (Act ECall (Reply P) (Reply P)) (only parsing).

(** [func (s TestkubeAPI) ListExecutionsHandler() fiber.Handler] *)
Definition ListExecutionsHandler (c : FiberCtx) : Handler ExecutionsResult :=
  let filter := getFilterFromRequest S c in
  call (CallGetExecutions filter) ;;
  let '(executions, err) := GetExecutions S filter in
  match err with
  | Some err => exit (ReplyError StatusInternalServerError err)
  | None => ret tt
  end ;;
  call (CallGetExecutionTotals false filter) ;;
  let '(executionTotals, err) := GetExecutionTotals S false filter in
  match err with
  | Some err => exit (ReplyError StatusInternalServerError err)
  | None => ret tt
  end ;;
  call (CallGetExecutionTotals true filter) ;;
  let '(filteredTotals, err) := GetExecutionTotals S true filter in
  match err with
  | Some err => exit (ReplyError StatusInternalServerError err)
  | None => ret tt
  end ;;
  match mapExecutionsToExecutionSummary executions with
  | None => exit ReplyPanic
  | Some summaries =>
      ret (ReplyJSON (mkExecutionsResult (Some executionTotals) (Some filteredTotals)
                        summaries))
  end.

(** [func (s TestkubeAPI) GetExecutionHandler() fiber.Handler] *)
Definition GetExecutionHandler (c : FiberCtx) : Handler ExecutionDoc :=
  let id := CtxParams c "id" in
  let executionID := CtxParams c "executionID" in
  execution <-
    (if String.eqb id "" then
       call (CallStoreGet executionID) ;;
       let '(execution, err) := StoreGet S executionID in
       match err with
       | Some ErrNoDocuments =>
           exit (ReplyError StatusNotFound
                   (mkError ("test with execution id " ++ executionID ++ " not found")
                      false))
       | Some (StoreFailure err) => exit (ReplyError StatusInternalServerError err)
       | None => ret execution
       end
     else
       call (CallStoreGetByNameAndTest executionID id) ;;
       let '(execution, err) := StoreGetByNameAndTest S executionID id in
       match err with
       | Some ErrNoDocuments =>
           exit (ReplyError StatusNotFound
                   (mkError ("test " ++ id ++ "/" ++ executionID ++ " not found") false))
       | Some (StoreFailure err) => exit (ReplyError StatusInternalServerError err)
       | None => ret execution
       end) ;;
  let execution :=
    mkExecutionDoc (DocExecution execution) (FormatDuration S (DocDuration execution)) in
  call (CallDebugw "get test execution request - debug" execution) ;;
  ret (ReplyJSON execution).

(** The file name after the two attempts to unescape it, lines 402-410
    of [GetArtifactHandler]. *)
Definition unescapedTwice (fileName : string) : string :=
  let fileName :=
    match QueryUnescape fileName with
    | Some unescaped => unescaped
    | None => fileName
    end in
  match QueryUnescape fileName with
  | Some unescaped => unescaped
  | None => fileName
  end.

(** [func (s TestkubeAPI) GetArtifactHandler() fiber.Handler] *)
Definition GetArtifactHandler (c : FiberCtx) : Handler unit :=
  let executionID := CtxParams c "executionID" in
  let fileName := CtxParams c "filename" in
  let fileName := unescapedTwice fileName in
  call (CallDownloadFile executionID fileName) ;;
  match DownloadFile S executionID fileName with
  | inr err => exit (ReplyError StatusInternalServerError err)
  | inl file => ret (ReplySendStream file)
  end.

End Handlers.

Section Logs.
(** The outputs of the executor's log channel are passed through. *)
Context {Out : Type}.

(** The line feed [\n]. *)
Definition newline : string := String (ascii_of_nat 10) "".

(** What the stream writer of [ExecutionLogsHandler] does to the response
    writer, and what it logs. *)
Inductive WriterOp :=
| Flush
| Fprintf (text : string)
| LogDebug (msg : string)
| PrintError (err : GoError)
| LogError (err : GoError)
| LogEncode (err : GoError).

(** [json.Marshal] of an output, as [enc.Encode] uses it. *)
Variable Marshal : Out -> string + GoError.

(** [enc.Encode(out)]: the JSON text and a newline, or nothing when the
    output cannot be encoded. *)
Definition Encode (out : Out) : list WriterOp :=
  match Marshal out with
  | inl text => [Fprintf (text ++ newline)]
  | inr err => [LogEncode err]
  end.

(** The loop [for out := range logs], lines 336-346, over the outputs
    received until the channel is closed. *)
Fixpoint logsLoop (logs : list Out) : list WriterOp :=
  match logs with
  | [] => []
  | out :: rest =>
      ([LogDebug "got log"; Fprintf "data: "] ++ Encode out
       ++ [Fprintf newline; Flush] ++ logsLoop rest)%list
  end.

(** The stream writer set by [ExecutionLogsHandler], lines 315-347, for
    the answer of [s.Executor.Logs(executionID)]. *)
Definition streamWriter (logs : list Out + GoError) : list WriterOp :=
  ([LogDebug "starting stream writer"; Flush; LogDebug "getting logs";
    LogDebug "waiting for jobs channel"]
   ++ match logs with
      | inr err => [PrintError err; LogError err; Flush]
      | inl logs => logsLoop logs
      end)%list.

(** The text written to the response by a sequence of operations. *)
Fixpoint body (ops : list WriterOp) : string :=
  match ops with
  | [] => ""
  | Fprintf text :: rest => text ++ body rest
  | _ :: rest => body rest
  end.

Definition isFlush (op : WriterOp) : bool :=
  match op with Flush => true | _ => false end.

(** The server-sent event of one output. *)
Definition event (out : Out) : string :=
  match Marshal out with
  | inl text => "data: " ++ text ++ newline ++ newline
  | inr _ => "data: " ++ newline
  end.

End Logs.

End Executions.

(** ** The newman runner (package [newman]) *)

Module Newman.
Import Testkube Act.
Local Open Scope act_scope.

Section Runner.
(** Readers and the metadata of a newman report are passed through. *)
Context {Reader Metadata : Type}.

(** [NewmanExecutionResult], the fields [Run] writes. *)
Record NewmanExecutionResult := mkNewmanExecutionResult {
  RawOutput : string;
  ResultMetadata : option Metadata
}.

(** The calls of [Run] on the file system, the process and the console. *)
Inductive RCall :=
| CallReaderToTmpfile (input : Reader)
| CallNewEnvFileReader (params : GoMap)
| CallTmpName
| CallExecute (command : string) (arguments : list string)
| CallReadFile (name : string)
| CallPrintf (format : string) (text : string)
| CallPrintfResult (format : string) (result : ExecutionResult)
| CallUnmarshal (bytes : string).

Record RunnerServices := mkRunnerServices {
  ReaderToTmpfile : Reader -> string + GoError;
  NewEnvFileReader : GoMap -> Reader + GoError;
  tmpName : string;
  processExecute : string -> list string -> string + GoError;
  ReadFile : string -> string + GoError;
  jsonUnmarshal : string -> Metadata + GoError;
  MapMetadataToResult : NewmanExecutionResult -> ExecutionResult
}.

Variable S : RunnerServices.

(** [func (r *Runner) Run(input io.Reader, params map[string]string)
    (result kubetest.ExecutionResult)]; [result] is the zero value at
    every [result.Err(err)]. *)
Definition Run (input : Reader) (params : GoMap)
  : Act RCall ExecutionResult ExecutionResult :=
  let result := mkExecutionResult None "" "" in
  call (CallReaderToTmpfile input) ;;
  path <- match ReaderToTmpfile S input with
          | inr err => exit (ResultErr result err)
          | inl path => ret path
          end ;;
  call (CallNewEnvFileReader params) ;;
  envReader <- match NewEnvFileReader S params with
               | inr err => exit (ResultErr result err)
               | inl envReader => ret envReader
               end ;;
  call (CallReaderToTmpfile envReader) ;;
  envpath <- match ReaderToTmpfile S envReader with
             | inr err => exit (ResultErr result err)
             | inl envpath => ret envpath
             end ;;
  call CallTmpName ;;
  let tmpName := tmpName S ++ ".json" in
  let arguments :=
    ["run"; path; "-e"; envpath; "--reporters"; "cli,json";
     "--reporter-json-export"; tmpName] in
  call (CallExecute "newman" arguments) ;;
  out <- match processExecute S "newman" arguments with
         | inr err => exit (ResultErr result err)
         | inl out => ret out
         end ;;
  call (CallReadFile tmpName) ;;
  bytes <- match ReadFile S tmpName with
           | inr err => exit (ResultErr result err)
           | inl bytes => ret bytes
           end ;;
  call (CallPrintf "JSON:\n%+v\n" bytes) ;;
  call (CallPrintf "TMPFILE:\n%+v\n" tmpName) ;;
  call (CallUnmarshal bytes) ;;
  metadata <- match jsonUnmarshal S bytes with
              | inr err =>
                  exit (ResultErr result
                          (Errorf_w "parsing results metadata error: " (Some err)))
              | inl metadata => ret metadata
              end ;;
  let res := MapMetadataToResult S (mkNewmanExecutionResult out (Some metadata)) in
  call (CallPrintfResult "RESULT: %+v\n" res) ;;
  ret res.

(** The calls that start a process. *)
Definition isExecute (c : RCall) : bool :=
  match c with CallExecute _ _ => true | _ => false end.

(** What a run reports: the error of the first step that fails, or the
    mapped output and report. *)
Definition reported (input : Reader) (params : GoMap) : ExecutionResult :=
  let failed := ResultErr (mkExecutionResult None "" "") in
  match ReaderToTmpfile S input with
  | inr err => failed err
  | inl path =>
      match NewEnvFileReader S params with
      | inr err => failed err
      | inl envReader =>
          match ReaderToTmpfile S envReader with
          | inr err => failed err
          | inl envpath =>
              let report := tmpName S ++ ".json" in
              match processExecute S "newman"
                      ["run"; path; "-e"; envpath; "--reporters"; "cli,json";
                       "--reporter-json-export"; report] with
              | inr err => failed err
              | inl out =>
                  match ReadFile S report with
                  | inr err => failed err
                  | inl bytes =>
                      match jsonUnmarshal S bytes with
                      | inr err =>
                          failed (Errorf_w "parsing results metadata error: " (Some err))
                      | inl metadata =>
                          MapMetadataToResult S
                            (mkNewmanExecutionResult out (Some metadata))
                      end
                  end
              end
          end
      end
  end.

End Runner.

End Newman.

(** * Properties *)

(** ** Durations of test-suite executions *)

Section DurationFacts.
Import GoTime Suite.

(** The zero [time.Time] lies before 1678, so its [UnixNano] wraps; the
    wrapped value is negative. *)
Lemma UnixNano_zeroTime : UnixNano zeroTime = -6795364578871345152.
Proof. reflexivity. Qed.

Lemma IsZero_eq t : IsZero t = true -> t = zeroTime.
Proof.
  destruct t as [s n]. unfold IsZero. cbn.
  rewrite andb_true_iff, !Z.eqb_eq. intros [-> ->]. reflexivity.
Qed.

Lemma IsZero_unset t : IsZero t = true -> unset t = true.
Proof. intros H. apply IsZero_eq in H. subst t. reflexivity. Qed.

Lemma After_false t u :
  After t u = false ->
  sec t <= sec u /\ (sec t = sec u -> nsec t <= nsec u).
Proof.
  unfold After. rewrite orb_false_iff, andb_false_iff.
  rewrite !Z.ltb_ge, Z.eqb_neq. lia.
Qed.

Lemma Sub_nonneg t u :
  wfTime t -> wfTime u -> After u t = false -> 0 <= Sub t u.
Proof.
  unfold wfTime, Second. intros Ht Hu Haft.
  apply After_false in Haft. destruct Haft as [Hs Hn].
  assert (Hd : 0 <= (sec t - sec u) * Second + (nsec t - nsec u)).
  { unfold Second. destruct (Z.eq_dec (sec u) (sec t)) as [e|ne].
    - specialize (Hn e). rewrite e. lia.
    - lia. }
  unfold Sub. cbv zeta.
  destruct (Z.ltb_spec ((sec t - sec u) * Second + (nsec t - nsec u)) minDuration) as [Hlt|_].
  - unfold minDuration in Hlt. lia.
  - destruct (Z.ltb_spec maxDuration ((sec t - sec u) * Second + (nsec t - nsec u))).
    + unfold maxDuration. lia.
    + exact Hd.
Qed.

Lemma After_false_trans a b c :
  After a b = false -> After b c = false -> After a c = false.
Proof.
  intros H1 H2. apply After_false in H1. apply After_false in H2.
  unfold After. rewrite orb_false_iff, andb_false_iff, !Z.ltb_ge, Z.eqb_neq.
  lia.
Qed.

(** A timestamp at or before the Unix epoch, like one past the year 2262,
    has a non-positive [UnixNano()] and is therefore unset as well. *)
Remark pre_epoch_is_unset : unset (mkTime (unixToInternal - 1) 0) = true.
Proof. reflexivity. Qed.

Lemma unset_epoch (t : Time) :
  wfTime t -> representable t -> (unset t = true <-> After t unixEpoch = false).
Proof.
  unfold wfTime, representable, unset, UnixNano, wrap64, After, unixEpoch,
    internalToUnix, Second.
  cbn [sec nsec]. intros Hwf Hrep.
  rewrite Z.leb_le, orb_false_iff, andb_false_iff, !Z.ltb_ge, Z.eqb_neq.
  rewrite Z.mod_small by lia. lia.
Qed.




End DurationFacts.

(** ** Merging parameters *)

Section MergeFacts.
Import Testkube Collab V1 Vocabulary.

Lemma forEach_assign {E} l kvs (w : World) :
  forEach (E := E) kvs (fun kv => mapAssign l (fst kv) (snd kv)) w
  = (inr tt, mkWorld (assignAll l kvs (heap w)) (trace w)).
Proof.
  revert w. induction kvs as [|kv kvs IH]; intros [h t].
  - reflexivity.
  - cbn [forEach]. unfold bind at 1. cbn [mapAssign].
    unfold mapAssign at 1. rewrite IH. reflexivity.
Qed.

Lemma assignAll_other l l' kvs h : l' <> l -> assignAll l kvs h !! l' = h !! l'.
Proof.
  intros Hne. revert h. induction kvs as [|kv kvs IH]; intros h; [reflexivity|].
  unfold assignAll in *. cbn [fold_left]. rewrite IH. by rewrite lookup_insert_ne.
Qed.

Lemma assignAll_contents l kvs h :
  contents (assignAll l kvs h) (Some l) = insertAll kvs (contents h (Some l)).
Proof.
  revert h. induction kvs as [|kv kvs IH]; intros h; [reflexivity|].
  unfold assignAll, insertAll in *. cbn [fold_left]. rewrite IH. f_equal.
  unfold contents. by rewrite lookup_insert_eq.
Qed.

Lemma insertAll_lookup kvs (m : gmap string string) k :
  NoDup (kvs.*1) ->
  insertAll kvs m !! k = (list_to_map kvs ∪ m) !! k.
Proof.
  revert m. induction kvs as [|[k0 v0] kvs IH]; intros m Hnd.
  - cbn. by rewrite (left_id_L ∅ (∪)).
  - cbn in Hnd. apply NoDup_cons in Hnd as [Hnotin Hnd].
    unfold insertAll in *. cbn [fold_left fst snd]. rewrite IH by done.
    cbn [list_to_map foldr uncurry fst snd].
    rewrite !lookup_union.
    destruct (decide (k = k0)) as [->|Hne].
    + rewrite !lookup_insert_eq.
      rewrite (not_elem_of_list_to_map_1 _ _ Hnotin).
      by destruct (m !! k0).
    + rewrite !lookup_insert_ne by congruence. done.
Qed.

Lemma insertAll_entries (m2 m1 : gmap string string) :
  insertAll (map_to_list m2) m1 = m2 ∪ m1.
Proof.
  apply map_eq. intros k.
  rewrite insertAll_lookup by apply NoDup_fst_map_to_list.
  by rewrite list_to_map_to_list.
Qed.

(** The order in which the loop visits the entries does not matter. *)
Lemma insertAll_any_order kvs (m2 m1 : gmap string string) :
  kvs ≡ₚ map_to_list m2 -> insertAll kvs m1 = m2 ∪ m1.
Proof.
  intros Hperm. apply map_eq. intros k.
  assert (Hnd : NoDup (kvs.*1)).
  { rewrite Hperm. apply NoDup_fst_map_to_list. }
  rewrite insertAll_lookup by exact Hnd.
  rewrite (list_to_map_proper kvs (map_to_list m2) Hnd Hperm).
  by rewrite list_to_map_to_list.
Qed.

Lemma mergeParams_run {E} (params appendParams : GoMap) (w : World) :
  mergeParams (E := E) params appendParams w =
  let l := match params with Some l => l | None => fresh (dom (heap w)) end in
  let h0 := match params with Some _ => heap w | None => <[l := ∅]> (heap w) end in
  (inr (Some l),
   mkWorld (assignAll l (map_to_list (contents h0 appendParams)) h0) (trace w)).
Proof.
  destruct w as [h t]. unfold mergeParams.
  destruct params as [l|]; unfold bind, newMap, ret, mapRange; cbn [heap trace];
    rewrite forEach_assign; reflexivity.
Qed.

Lemma contents_fresh (h : Heap) (m : GoMap) :
  contents (<[fresh (dom h) := ∅]> h) m = contents h m.
Proof.
  destruct m as [l|]; [|reflexivity]. unfold contents.
  destruct (decide (l = fresh (dom h))) as [->|Hne].
  - rewrite lookup_insert_eq.
    assert (h !! fresh (dom h) = None) as ->; [|done].
    apply not_elem_of_dom, is_fresh.
  - by rewrite lookup_insert_ne.
Qed.

(** [GetExecuteOptions] hands the merged map on as the parameters of the
    request, from which [newExecutionFromExecutionOptions] takes those of
    the execution. *)
Lemma GetExecuteOptions_merges S namespace id request (h : Heap) testCR executorCR :
  TestsGet S id = inl testCR ->
  ExecutorsGetByType S (SpecType (Spec testCR)) = inl executorCR ->
  exists l,
    ReqParams (OptRequest (fst (fst (runBody (GetExecuteOptions S namespace id request)
                                       (mkWorld h [])))))
    = Some l /\
    contents (heap (snd (runBody (GetExecuteOptions S namespace id request)
                           (mkWorld h [])))) (Some l)
    = contents h (ReqParams request) ∪ contents h (SpecParams (Spec testCR)).
Proof.
  intros Ht He. unfold runBody, GetExecuteOptions.
  unfold bind, call, ret, exit. cbn beta iota. rewrite Ht.
  rewrite !mergeParams_run. cbn beta iota zeta. rewrite He.
  cbn [fst snd heap OptRequest ReqParams withReqParams].
  eexists. split; [reflexivity|].
  rewrite assignAll_contents, insertAll_entries.
  destruct (SpecParams (Spec testCR)) as [l|]; [reflexivity|].
  rewrite contents_fresh. f_equal.
  unfold contents. by rewrite lookup_insert_eq.
Qed.

(** C6: the merged map holds exactly the keys of both maps; a key of the
    request-level map takes the request-level value, any other key keeps
    the test-level value. *)
Theorem mergeParams_union (params appendParams : GoMap) (w : World) :
  exists l,
    fst (mergeParams (E := Empty_set) params appendParams w) = inr (Some l) /\
    let merged :=
      contents (heap (snd (mergeParams (E := Empty_set) params appendParams w)))
               (Some l) in
    let base := contents (heap w) params in
    let extra := contents (heap w) appendParams in
    dom merged = dom base ∪ dom extra /\
    forall k, merged !! k = match extra !! k with
                            | Some v => Some v
                            | None => base !! k
                            end.
Proof.
  assert (Hgoal : forall merged base extra : gmap string string,
             merged = extra ∪ base ->
             dom merged = dom base ∪ dom extra /\
             forall k, merged !! k = match extra !! k with
                                     | Some v => Some v
                                     | None => base !! k
                                     end).
  { intros merged base extra ->. split.
    - rewrite dom_union_L. set_solver.
    - intros k. rewrite lookup_union.
      destruct (extra !! k), (base !! k); done. }
  rewrite mergeParams_run. cbv zeta. cbn [fst snd heap].
  eexists. split; [reflexivity|]. apply Hgoal.
  rewrite assignAll_contents, insertAll_entries.
  destruct params as [l|]; [reflexivity|].
  rewrite contents_fresh. f_equal.
  unfold contents. by rewrite lookup_insert_eq.
Qed.

(** C7, as stated, fails: merging a request-level key into a non-nil
    test-level map writes the key into the caller's map. *)
Lemma mergeParams_mutates_params :
  ~ mergeParams_pure (Some 1%positive) (Some 2%positive)
      (mkWorld (<[1%positive := {["a" := "1"]}]>
                  (<[2%positive := {["b" := "2"]}]> ∅)) []).
Proof.
  unfold mergeParams_pure. rewrite mergeParams_run. cbv zeta. cbn [snd heap].
  intros [H _]. rewrite assignAll_contents, insertAll_entries in H.
  apply (f_equal (fun m => m !! "b")) in H. revert H.
  unfold contents. rewrite lookup_union.
  rewrite lookup_insert_ne by done. rewrite !lookup_insert_eq.
  cbv [default from_option id].
  rewrite lookup_singleton_eq, lookup_singleton_ne by done. discriminate.
Qed.

(** C7 (amended): [mergeParams] returns its first argument updated in
    place when that map is not nil, and a newly allocated map when it is
    nil; the entries of the second argument and every other map of the
    caller are left as they were, and no collaborator is called. *)
Theorem mergeParams_frame (params appendParams : GoMap) (w : World) :
  let r := mergeParams (E := Empty_set) params appendParams w in
  trace (snd r) = trace w /\
  contents (heap (snd r)) appendParams = contents (heap w) appendParams /\
  match params with
  | Some l =>
      fst r = inr (Some l) /\
      contents (heap (snd r)) (Some l)
        = contents (heap w) appendParams ∪ contents (heap w) (Some l) /\
      (forall l', l' <> l -> heap (snd r) !! l' = heap w !! l')
  | None =>
      exists l,
        fst r = inr (Some l) /\ heap w !! l = None /\
        (forall l', l' <> l -> heap (snd r) !! l' = heap w !! l')
  end.
Proof.
  cbv zeta. rewrite mergeParams_run. cbv zeta. cbn [fst snd heap trace].
  split; [reflexivity|].
  destruct params as [l|].
  - assert (Hl : contents
                   (assignAll l (map_to_list (contents (heap w) appendParams)) (heap w))
                   (Some l)
                 = contents (heap w) appendParams ∪ contents (heap w) (Some l)).
    { by rewrite assignAll_contents, insertAll_entries. }
    split; [|split; [reflexivity|split; [exact Hl|]]].
    + destruct appendParams as [a|]; [|reflexivity].
      destruct (decide (a = l)) as [->|Hne].
      * rewrite Hl. apply (idemp_L (∪)).
      * unfold contents at 1 3. by rewrite assignAll_other.
    + intros l' Hne. by apply assignAll_other.
  - rewrite contents_fresh.
    assert (Hfresh : heap w !! fresh (dom (heap w)) = None).
    { apply not_elem_of_dom, is_fresh. }
    split.
    + destruct appendParams as [a|]; [|reflexivity].
      destruct (decide (a = fresh (dom (heap w)))) as [->|Hne].
      * rewrite assignAll_contents, insertAll_entries.
        unfold contents. rewrite Hfresh, lookup_insert_eq.
        cbv [default from_option id]. by rewrite (left_id_L ∅ (∪)).
      * unfold contents at 1 3.
        rewrite assignAll_other by done. by rewrite lookup_insert_ne.
    + eexists. split; [reflexivity|]. split; [exact Hfresh|].
      intros l' Hne. rewrite assignAll_other by done. by rewrite lookup_insert_ne.
Qed.

End MergeFacts.

(** ** Running the notification and option helpers *)

Section RunFacts.
Import Testkube Collab V1 Vocabulary.
Local Open Scope prog_scope.

Lemma addCalls_nil w : addCalls w [] = w.
Proof. destruct w. unfold addCalls. cbn. by rewrite app_nil_r. Qed.

Lemma addCalls_addCalls w cs1 cs2 :
  addCalls (addCalls w cs1) cs2 = addCalls w (cs1 ++ cs2).
Proof. unfold addCalls. cbn. by rewrite app_assoc. Qed.

Lemma call_run {E} c w : call (E := E) c w = (inr tt, addCalls w [c]).
Proof. reflexivity. Qed.

Lemma callsSince_addCalls w cs : callsSince w (addCalls w cs) = cs.
Proof. unfold callsSince, addCalls. cbn. by rewrite drop_app_length. Qed.

Lemma notifySlack_run {E} S ty e w :
  notifySlack (E := E) S ty e w = (inr tt, addCalls w (slackCalls S ty e)).
Proof.
  unfold notifySlack, slackCalls, bind. rewrite call_run.
  destruct (SlackSendEvent S ty e).
  - rewrite call_run, addCalls_addCalls. reflexivity.
  - unfold ret. rewrite <- (addCalls_nil (addCalls w _)) at 1.
    rewrite addCalls_addCalls. reflexivity.
Qed.

Lemma webhooks_run {E} ty e whs w :
  forEach (E := E) whs (fun wh =>
    call (CallLog "debug" "Sending event") ;;
    call (CallNotify (mkWebhookEvent (WebhookUri wh) ty e))) w
  = (inr tt, addCalls w (webhookCalls ty e whs)).
Proof.
  revert w. induction whs as [|wh whs IH]; intros w.
  - cbn. unfold ret. by rewrite addCalls_nil.
  - cbn [forEach]. unfold bind at 1. unfold bind at 1. rewrite !call_run.
    rewrite IH, !addCalls_addCalls. reflexivity.
Qed.

Lemma notifyEvents_run S ty e w :
  runBody (notifyEvents S ty e) w
  = (notifyOutcome S ty, addCalls w (notifyCalls S ty e)).
Proof.
  unfold runBody, notifyEvents, notifyOutcome, notifyCalls.
  unfold bind at 1. rewrite call_run. unfold bind at 1.
  destruct (WebhooksGetByEvent S ty) as [whs|err].
  - unfold ret at 1. unfold bind at 1. rewrite webhooks_run.
    unfold bind at 1. rewrite notifySlack_run. unfold ret.
    rewrite !addCalls_addCalls. reflexivity.
  - unfold exit. reflexivity.
Qed.

Lemma notifyAndLog_run {E} S ty e w :
  notifyAndLog (E := E) S ty e w
  = (inr (notifyOutcome S ty), addCalls w (notifyLogCalls S ty e)).
Proof.
  unfold notifyAndLog, notifyLogCalls, invoke, bind.
  rewrite notifyEvents_run. cbn [fst snd].
  destruct (notifyOutcome S ty).
  - rewrite call_run, addCalls_addCalls. reflexivity.
  - unfold ret. rewrite app_nil_r. reflexivity.
Qed.

Lemma GetExecuteOptions_run S namespace id request w :
  runBody (GetExecuteOptions S namespace id request) w
  = (optionsOutcome S namespace id request (heap w),
     mkWorld (optionsHeap S namespace id request (heap w))
             (trace w ++ optionsCalls S id)).
Proof.
  unfold optionsOutcome, optionsHeap, optionsCalls, runBody, GetExecuteOptions.
  unfold bind, call, ret, exit. cbn beta iota.
  destruct (TestsGet S id) as [testCR|err]; [|reflexivity].
  rewrite !mergeParams_run. cbn beta iota zeta.
  destruct (ExecutorsGetByType S (SpecType (Spec testCR))) as [executorCR|err];
    cbn [fst snd heap trace]; rewrite <- !app_assoc; reflexivity.
Qed.

End RunFacts.

(** ** Reasoning rules for programs *)

Section WpRules.
Import Testkube Collab V1 Vocabulary.
Context {E A B : Type}.
Implicit Types (Qe : E -> World -> Prop) (w : World).

Lemma wp_ret (a : A) Qe (Qa : A -> World -> Prop) w :
  Qa a w -> wp (ret a) Qe Qa w.
Proof. exact id. Qed.

Lemma wp_exit (e : E) Qe (Qa : A -> World -> Prop) w :
  Qe e w -> wp (exit e) Qe Qa w.
Proof. exact id. Qed.

Lemma wp_bind (m : Prog E A) (k : A -> Prog E B) Qe (Qb : B -> World -> Prop) w :
  wp m Qe (fun a w' => wp (k a) Qe Qb w') w -> wp (bind m k) Qe Qb w.
Proof. unfold wp, bind. destruct (m w) as [[e|a] w']; exact id. Qed.

Lemma wp_call (c : Call) Qe (Qa : unit -> World -> Prop) w :
  Qa tt (addCalls w [c]) -> wp (call c) Qe Qa w.
Proof. exact id. Qed.

Lemma wp_notifyAndLog S ty e Qe (Qa : option GoError -> World -> Prop) w :
  Qa (notifyOutcome S ty) (addCalls w (notifyLogCalls S ty e)) ->
  wp (notifyAndLog S ty e) Qe Qa w.
Proof. unfold wp. rewrite notifyAndLog_run. exact id. Qed.

Lemma wp_invoke_options S namespace id request Qe
    (Qa : ExecuteOptions * option GoError -> World -> Prop) w :
  Qa (optionsOutcome S namespace id request (heap w))
     (mkWorld (optionsHeap S namespace id request (heap w))
              (trace w ++ optionsCalls S id)) ->
  wp (invoke (GetExecuteOptions S namespace id request)) Qe Qa w.
Proof. unfold wp, invoke. rewrite GetExecuteOptions_run. intros H. exact H. Qed.

End WpRules.

Lemma wp_runBody {A} (m : Collab.Prog A A) (Q : A -> Collab.World -> Prop) w :
  Vocabulary.wp m Q Q w ->
  Q (fst (Collab.runBody m w)) (snd (Collab.runBody m w)).
Proof.
  unfold Vocabulary.wp, Collab.runBody.
  destruct (m w) as [[a|a] w']; exact id.
Qed.

Ltac wp_step :=
  lazymatch goal with
  | |- Vocabulary.wp (Collab.bind _ _) _ _ _ => apply wp_bind
  | |- Vocabulary.wp (Collab.ret _) _ _ _ => apply wp_ret
  | |- Vocabulary.wp (Collab.exit _) _ _ _ => apply wp_exit
  | |- Vocabulary.wp (Collab.call _) _ _ _ => apply wp_call
  | |- Vocabulary.wp (V1.notifyAndLog _ _ _) _ _ _ => apply wp_notifyAndLog
  | |- Vocabulary.wp (Collab.invoke (V1.GetExecuteOptions _ _ _ _)) _ _ _ =>
      apply wp_invoke_options
  | |- Vocabulary.wp (match ?x with _ => _ end) _ _ _ => destruct x eqn:?
  end; cbv beta zeta.

(** ** [executeTest] *)

Section ExecuteTestFacts.
Import Testkube Collab V1 Vocabulary Outcomes.

Lemma executeTest_nil_error S test request w :
  snd (fst (runBody (executeTest S test request) w)) = None.
Proof.
  apply (wp_runBody _ (fun r _ => snd r = None)).
  unfold executeTest. cbv zeta.
  repeat wp_step; reflexivity.
Qed.

Lemma heap_addCalls w cs : heap (addCalls w cs) = heap w.
Proof. reflexivity. Qed.

Ltac run_step := wp_step; rewrite ?heap_addCalls; cbn [heap]; cbv beta iota zeta.

Ltac unfold_outcomes :=
  unfold reported, reachesSecretLookup, heapAfter; unfold stage;
  unfold dispatchAnswer; unfold dispatchOptions; unfold secretAnswer;
  unfold startedExecution; unfold pendingExecution; unfold resolved, storedExecution;
  unfold namedRequest.

(** A run returns the execution of its stage with a nil error, and leaves
    the heap as the resolution of the options left it. *)
Lemma executeTest_run S test request w :
  fst (runBody (executeTest S test request) w) = (reported S test request (heap w), None) /\
  heap (snd (runBody (executeTest S test request) w)) = heapAfter S test request (heap w).
Proof.
  apply (wp_runBody _ (fun r w' => r = (_, None) /\ heap w' = _)).
  unfold_outcomes. unfold executeTest. cbv zeta.
  repeat run_step.
  all: split; reflexivity.
Qed.

(** C10: on every path [executeTest] returns a nil error together with the
    execution of the stage at which the run ended, so the response the
    worker pool builds from it carries that execution and no error.  At
    every stage but the completed one the result of the returned execution
    has the terminal status Error and a message that starts with the text
    of the failure: a duplicate name, the resolution of the options, the
    insertion and the update of the result are recorded with the text of
    their error; a failed start, secret lookup or dispatch with the text
    the source formats after the notification of the end. *)
Theorem executeTest_returns_nil_error S test request w :
  let r := runBody (executeTest S test request) w in
  let h := heap w in
  snd (fst r) = None /\
  fst (fst r) = reported S test request h /\
  Workerpool.wrap (fst r) = Workerpool.mkResponse (Some (reported S test request h)) None /\
  match stage S test request h with
  | Completed => Result (fst (fst r)) = Some (fst (dispatchAnswer S test request h))
  | failed =>
      exists result,
        Result (fst (fst r)) = Some result /\
        Status result = Some Error /\
        IsFailed result = true /\ IsCompleted result = true /\
        match failed with
        | Duplicate =>
            ErrorMessage result
            = "test execution with name " ++ ReqName (namedRequest S request)
              ++ " already exists"
        | OptionsFailed err =>
            ErrorMessage result = "can't create valid execution options: " ++ errText err
        | InsertFailed err =>
            ErrorMessage result
            = "can't create new test execution, can't insert into storage: "
              ++ errText err
        | UpdateFailed uerr =>
            ErrorMessage result = "update execution error: " ++ errText uerr
        | StartFailed _ =>
            exists detail,
              ErrorMessage result
              = "can't execute test, can't insert into storage error: " ++ detail
        | SecretFailed _ =>
            exists detail, ErrorMessage result = "can't get secrets: " ++ detail
        | DispatchFailed _ =>
            exists detail, ErrorMessage result = "test execution failed: " ++ detail
        | Completed => True
        end
  end.
Proof.
  intros r h. destruct (executeTest_run S test request w) as [Hr _].
  fold r h in Hr. rewrite Hr. cbn [fst snd Workerpool.wrap].
  split; [reflexivity|]. split; [reflexivity|]. split; [reflexivity|].
  unfold reported. destruct (stage S test request h); [..|reflexivity].
  all: eexists; split; [reflexivity|]; repeat split.
  all: unfold Errorf_w; destruct (notifyOutcome S EndTest); eexists; reflexivity.
Qed.

Lemma ReqName_effective S request :
  ReqName (if String.eqb (ReqName request) "" then withReqName request (randName S)
           else request) = effectiveName S request.
Proof. unfold effectiveName. by destruct (String.eqb (ReqName request) ""). Qed.

(** C1: when the execution name already names a stored execution of the
    test, [executeTest] returns that lookup's execution marked as terminal
    Error together with a nil error; its only call is the lookup, so
    nothing is inserted, started, dispatched or updated, and the worker
    pool reports the execution as a result. *)
Theorem executeTest_duplicate_name S test request w :
  Name (fst (GetByNameAndTest S (effectiveName S request) (TName test)))
    = effectiveName S request ->
  let stored := fst (GetByNameAndTest S (effectiveName S request) (TName test)) in
  let r := runBody (executeTest S test request) w in
  fst r = (Err stored
             (mkError ("test execution with name " ++ effectiveName S request
                       ++ " already exists") false), None) /\
  statusOf (fst (fst r)) = Some Error /\
  (exists result, Result (fst (fst r)) = Some result /\ IsCompleted result = true) /\
  callsSince w (snd r) = [CallGetByNameAndTest (effectiveName S request) (TName test)] /\
  heap (snd r) = heap w /\
  Workerpool.wrap (fst r) = Workerpool.mkResponse (Some (fst (fst r))) None.
Proof.
  intros Hdup stored r.
  assert (Hr : r = ((Err stored
             (mkError ("test execution with name " ++ effectiveName S request
                       ++ " already exists") false), None),
                    addCalls w [CallGetByNameAndTest (effectiveName S request) (TName test)])).
  { subst r. rewrite (surjective_pairing (runBody _ _)).
    apply (wp_runBody _ (fun a w' => (a, w') = _)).
    unfold executeTest. cbv zeta. rewrite !ReqName_effective.
    wp_step. wp_step. wp_step.
    rewrite Hdup, String.eqb_refl. wp_step. reflexivity. }
  rewrite Hr. cbn [fst snd]. rewrite callsSince_addCalls.
  repeat split. eexists. split; reflexivity.
Qed.

Lemma executeTest_duplicate_name_witness :
  let stored := mkExecution "61aa" "api-test" "testkube" "postman/collection"
                  "run-1" [] None "" "{}" (GoTime.mkTime 63785000000 0)
                  (GoTime.mkTime 63785000060 0)
                  (Some (mkExecutionResult (Some Success) "" "done")) None in
  let S := withStoredExecution (sampleServices "" None (fun _ => inl []) None) stored in
  let r := runBody (executeTest S sampleTest sampleRequest) (mkWorld ∅ []) in
  Name (fst (GetByNameAndTest S (effectiveName S sampleRequest) (TName sampleTest)))
    = effectiveName S sampleRequest /\
  statusOf (fst (fst r)) = Some Error /\
  callsSince (mkWorld ∅ []) (snd r) = [CallGetByNameAndTest "run-1" "api-test"].
Proof.
  intros stored S r.
  assert (Hdup : Name (fst (GetByNameAndTest S (effectiveName S sampleRequest)
                              (TName sampleTest)))
                 = effectiveName S sampleRequest) by reflexivity.
  pose proof (executeTest_duplicate_name S sampleTest sampleRequest (mkWorld ∅ []) Hdup)
    as (_ & Hs & _ & Hc & _).
  split; [exact Hdup|]. split; [exact Hs|exact Hc].
Defined.

Lemma webhookCalls_auxiliary ty e whs :
  Forall (fun c => isAuxiliary c = true) (webhookCalls ty e whs).
Proof.
  induction whs as [|wh whs IH]; [constructor|].
  cbn. repeat constructor. exact IH.
Qed.

Lemma notifyLogCalls_auxiliary S ty e :
  Forall (fun c => isAuxiliary c = true) (notifyLogCalls S ty e).
Proof.
  unfold notifyLogCalls, notifyCalls, notifyOutcome, slackCalls.
  destruct (WebhooksGetByEvent S ty) as [whs|err].
  - rewrite app_nil_r. constructor; [reflexivity|].
    apply Forall_app. split; [apply webhookCalls_auxiliary|].
    destruct (SlackSendEvent S ty e); repeat constructor.
  - repeat constructor.
Qed.

Lemma optionsCalls_auxiliary S id :
  Forall (fun c => isAuxiliary c = true) (optionsCalls S id).
Proof. unfold optionsCalls. destruct (TestsGet S id); repeat constructor. Qed.

Lemma filter_auxiliary (p : Call -> bool) cs :
  (forall c, isAuxiliary c = true -> p c = false) ->
  Forall (fun c => isAuxiliary c = true) cs ->
  List.filter p cs = [].
Proof.
  intros Hp. induction 1 as [|c cs Hc _ IH]; [reflexivity|].
  cbn. by rewrite (Hp c Hc).
Qed.

Lemma auxiliary_not_dispatch c : isAuxiliary c = true -> isDispatch c = false.
Proof. by destruct c. Qed.

Lemma auxiliary_not_secret c : isAuxiliary c = true -> isSecretLookup c = false.
Proof. by destruct c. Qed.

Lemma optionsOutcome_TestName S namespace id request h :
  snd (optionsOutcome S namespace id request h) = None ->
  OptTestName (fst (optionsOutcome S namespace id request h)) = id.
Proof.
  unfold optionsOutcome, runBody, GetExecuteOptions.
  unfold bind, call, ret, exit. cbn beta iota.
  destruct (TestsGet S id) as [testCR|err]; [|discriminate].
  rewrite !mergeParams_run. cbn beta iota zeta.
  destruct (ExecutorsGetByType S (SpecType (Spec testCR))); [reflexivity|discriminate].
Qed.

(** The secret lookup and the dispatch of a run, by its stage. *)
Lemma executeTest_calls S test request w :
  let calls := callsSince w (snd (runBody (executeTest S test request) w)) in
  List.filter isSecretLookup calls
  = (if reachesSecretLookup S test request (heap w) then
       [CallSecretGet
          (secretMetadataName S (TestName (startedExecution S test request (heap w))))]
     else []) /\
  List.filter isDispatch calls
  = match stage S test request (heap w) with
    | UpdateFailed _ | DispatchFailed _ | Completed =>
        [dispatchCall (startedExecution S test request (heap w))
           (dispatchOptions S test request (heap w))]
    | _ => []
    end.
Proof.
  cbv zeta.
  apply (wp_runBody _ (fun _ w' =>
    List.filter isSecretLookup (callsSince w w') = _ /\
    List.filter isDispatch (callsSince w w') = _)).
  unfold dispatchCall. unfold_outcomes. unfold executeTest. cbv zeta.
  repeat run_step.
  all: unfold callsSince, addCalls in *; cbn [trace heap] in *; rewrite <- ?app_assoc;
    rewrite drop_app_length.
  all: rewrite ?List.filter_app.
  all: rewrite ?(filter_auxiliary _ _ auxiliary_not_secret (notifyLogCalls_auxiliary _ _ _)),
         ?(filter_auxiliary _ _ auxiliary_not_secret (optionsCalls_auxiliary _ _)),
         ?(filter_auxiliary _ _ auxiliary_not_dispatch (notifyLogCalls_auxiliary _ _ _)),
         ?(filter_auxiliary _ _ auxiliary_not_dispatch (optionsCalls_auxiliary _ _)).
  all: cbn [List.filter isSecretLookup isDispatch app].
  all: split; reflexivity.
Qed.

(** The execution is created for the test of the job. *)
Lemma startedExecution_TestName S test request h :
  snd (resolved S test request h) = None ->
  TestName (startedExecution S test request h) = TName test.
Proof.
  intros Hopt. unfold startedExecution, pendingExecution.
  cbn [TestName Start withStartTime withResult newExecutionFromExecutionOptions
       NewExecution].
  by apply optionsOutcome_TestName.
Qed.

End ExecuteTestFacts.

(** ** Notifications are set apart from the execution *)

Section RelationalRules.
Import Testkube Collab V1 Vocabulary.
Local Open Scope list_scope.
Context {E : Type} (RE : E -> E -> Prop).

Lemma quietCalls_app cs1 cs2 :
  quietCalls (cs1 ++ cs2) = quietCalls cs1 ++ quietCalls cs2.
Proof. apply List.filter_app. Qed.

Lemma webhookCalls_quiet ty e whs : quietCalls (webhookCalls ty e whs) = [].
Proof. induction whs as [|wh whs IH]; [reflexivity|exact IH]. Qed.

Lemma notifyLogCalls_quiet S ty e : quietCalls (notifyLogCalls S ty e) = [].
Proof.
  unfold notifyLogCalls, notifyCalls, notifyOutcome, slackCalls.
  destruct (WebhooksGetByEvent S ty) as [whs|err]; [|reflexivity].
  rewrite app_nil_r. cbn [quietCalls List.filter isNotification negb].
  fold (quietCalls (webhookCalls ty e whs ++
                    CallSlackSendEvent ty e ::
                    match SlackSendEvent S ty e with
                    | Some _ => [CallLog "warn" "notify slack failed"]
                    | None => []
                    end)).
  rewrite quietCalls_app, webhookCalls_quiet.
  by destruct (SlackSendEvent S ty e).
Qed.

Lemma sameQuiet_addCalls w1 w2 cs1 cs2 :
  sameQuiet w1 w2 -> quietCalls cs1 = quietCalls cs2 ->
  sameQuiet (addCalls w1 cs1) (addCalls w2 cs2).
Proof.
  intros [Hh Ht] Hcs. split; [exact Hh|].
  cbn. by rewrite !quietCalls_app, Ht, Hcs.
Qed.

Lemma related_ret {A} (RA : A -> A -> Prop) a1 a2 :
  RA a1 a2 -> related RE RA (ret a1) (ret a2).
Proof. intros H w1 w2 Hw. by split. Qed.

Lemma related_exit {A} (RA : A -> A -> Prop) e1 e2 :
  RE e1 e2 -> related RE RA (exit e1) (exit e2).
Proof. intros H w1 w2 Hw. by split. Qed.

Lemma related_bind {A B} (RA : A -> A -> Prop) (RB : B -> B -> Prop)
    (m1 m2 : Prog E A) (k1 k2 : A -> Prog E B) :
  related RE RA m1 m2 ->
  (forall a1 a2, RA a1 a2 -> related RE RB (k1 a1) (k2 a2)) ->
  related RE RB (bind m1 k1) (bind m2 k2).
Proof.
  intros Hm Hk w1 w2 Hw. specialize (Hm w1 w2 Hw). unfold bind.
  destruct (m1 w1) as [[e1|a1] w1'], (m2 w2) as [[e2|a2] w2']; try done.
  destruct Hm as [Ha Hw']. exact (Hk a1 a2 Ha w1' w2' Hw').
Qed.

Lemma related_bind_eq {A B} (RB : B -> B -> Prop)
    (m1 m2 : Prog E A) (k1 k2 : A -> Prog E B) :
  related RE eq m1 m2 ->
  (forall a, related RE RB (k1 a) (k2 a)) ->
  related RE RB (bind m1 k1) (bind m2 k2).
Proof.
  intros Hm Hk. apply (related_bind eq); [exact Hm|].
  intros a1 a2 ->. apply Hk.
Qed.

Lemma related_call c : related RE eq (call c) (call c).
Proof.
  intros w1 w2 Hw. split; [reflexivity|].
  by apply sameQuiet_addCalls.
Qed.

Lemma related_notifyAndLog S1 S2 ty e :
  related RE (fun _ _ => True) (notifyAndLog S1 ty e) (notifyAndLog S2 ty e).
Proof.
  intros w1 w2 Hw. rewrite !notifyAndLog_run. split; [exact I|].
  apply sameQuiet_addCalls; [exact Hw|]. by rewrite !notifyLogCalls_quiet.
Qed.

Lemma related_bind_notify {B} (RB : B -> B -> Prop) S1 S2 ty e
    (k1 k2 : option GoError -> Prog E B) :
  (forall a1 a2, related RE RB (k1 a1) (k2 a2)) ->
  related RE RB (bind (notifyAndLog S1 ty e) k1) (bind (notifyAndLog S2 ty e) k2).
Proof.
  intros Hk. apply (related_bind (fun _ _ => True)).
  - apply related_notifyAndLog.
  - intros a1 a2 _. apply Hk.
Qed.

Lemma related_options S namespace id request :
  related RE eq (invoke (GetExecuteOptions S namespace id request))
                (invoke (GetExecuteOptions S namespace id request)).
Proof.
  intros w1 w2 [Hh Ht]. unfold invoke. rewrite !GetExecuteOptions_run.
  cbn [fst snd]. rewrite Hh. split; [reflexivity|].
  split; [reflexivity|]. cbn [trace]. by rewrite !quietCalls_app, Ht.
Qed.

End RelationalRules.

Lemma GetExecuteOptions_agree S1 S2 :
  Collab.TestsGet S1 = Collab.TestsGet S2 ->
  Collab.ExecutorsGetByType S1 = Collab.ExecutorsGetByType S2 ->
  V1.GetExecuteOptions S1 = V1.GetExecuteOptions S2.
Proof.
  intros H1 H2. unfold V1.GetExecuteOptions. rewrite H1, H2. reflexivity.
Qed.

Ltac rel_step :=
  lazymatch goal with
  | |- Vocabulary.related _ _ (Collab.bind (V1.notifyAndLog _ _ _) _)
                              (Collab.bind (V1.notifyAndLog _ _ _) _) =>
      apply related_bind_notify; intros ? ?
  | |- Vocabulary.related _ _ (Collab.bind _ _) (Collab.bind _ _) =>
      apply related_bind_eq; [|intros ?]
  | |- Vocabulary.related _ _ (Collab.call _) (Collab.call _) => apply related_call
  | |- Vocabulary.related _ _ (Collab.ret _) (Collab.ret _) =>
      apply related_ret; first [reflexivity | split; reflexivity]
  | |- Vocabulary.related _ _ (Collab.exit _) (Collab.exit _) =>
      apply related_exit; split; reflexivity
  | |- Vocabulary.related _ _ (Collab.invoke _) (Collab.invoke _) =>
      apply related_options
  | |- Vocabulary.related _ _ (match ?x with _ => _ end) (match ?x with _ => _ end) =>
      destruct x eqn:?
  end; cbv beta zeta.

Section NotificationFacts.
Import Testkube Collab V1 Vocabulary.
Local Open Scope list_scope.

Lemma executeTest_related S1 S2 test request :
  agreeOffNotifications S1 S2 ->
  related sameOutcome sameOutcome
    (executeTest S1 test request) (executeTest S2 test request).
Proof.
  intros (H1 & H2 & H3 & H4 & H5 & H6 & H7 & H8 & H9 & H10 & H11 & H12 & H13 & H14).
  unfold executeTest. cbv zeta.
  unfold newExecutionFromExecutionOptions.
  rewrite <- (GetExecuteOptions_agree S1 S2 H8 H9).
  rewrite <- H1, <- H2, <- H3, <- H4, <- H5, <- H6, <- H7, <- H10, <- H11, <- H12,
    <- H13, <- H14.
  repeat rel_step.
Qed.

Lemma filter_quietCalls (p : Call -> bool) cs :
  (forall c, p c = true -> isNotification c = false) ->
  List.filter p (quietCalls cs) = List.filter p cs.
Proof.
  intros Hp. unfold quietCalls. induction cs as [|c cs IH]; [reflexivity|].
  cbn [List.filter]. destruct (isNotification c) eqn:Hc; cbn [negb List.filter].
  - destruct (p c) eqn:Hpc; [|exact IH].
    rewrite (Hp c Hpc) in Hc. discriminate Hc.
  - by rewrite IH.
Qed.

Lemma storage_write_not_notification c :
  isStorageWrite c = true -> isNotification c = false.
Proof. by destruct c. Qed.

Lemma executeTest_trace_extends S test request w :
  exists cs, trace (snd (runBody (executeTest S test request) w)) = trace w ++ cs.
Proof.
  apply (wp_runBody _ (fun _ w' => exists cs, trace w' = trace w ++ cs)).
  unfold executeTest. cbv zeta.
  repeat wp_step.
  all: unfold addCalls; cbn [trace heap]; rewrite <- ?app_assoc; eexists; reflexivity.
Qed.

Lemma webhookCalls_deliveries ty e whs :
  List.filter isDelivery (webhookCalls ty e whs)
  = map (fun wh => CallNotify (mkWebhookEvent (WebhookUri wh) ty e)) whs.
Proof.
  induction whs as [|wh whs IH]; [reflexivity|].
  cbn. f_equal. exact IH.
Qed.

(** C9, as stated, fails twice: when the webhook lookup fails the chat
    notifier is not called, and on a failed dispatch the error message of
    the returned execution is the outcome of the notification. *)
Lemma notifications_not_isolated :
  ~ chat_notified_regardless
      (sampleServices "" None (fun _ => inr (mkError "webhooks unavailable" false)) None)
      StartTest zeroExecution (mkWorld ∅ []) /\
  ~ notifications_transparent
      (sampleServices "" None (fun _ => inl [])
         (Some (mkError "executor unreachable" false)))
      (sampleServices "" None (fun _ => inr (mkError "webhooks unavailable" false))
         (Some (mkError "executor unreachable" false)))
      sampleTest sampleRequest (mkWorld ∅ []).
Proof.
  split.
  - unfold chat_notified_regardless. rewrite notifyEvents_run.
    cbn [snd]. rewrite callsSince_addCalls. cbn.
    intros [H|[]]. discriminate H.
  - intros H.
    assert (Hagree : agreeOffNotifications
      (sampleServices "" None (fun _ => inl [])
         (Some (mkError "executor unreachable" false)))
      (sampleServices "" None (fun _ => inr (mkError "webhooks unavailable" false))
         (Some (mkError "executor unreachable" false)))).
    { repeat split. }
    specialize (H Hagree).
    apply (f_equal (fun e => match Result e with
                             | Some r => ErrorMessage r
                             | None => ""
                             end)) in H.
    vm_compute in H. discriminate H.
Qed.

(** C9 (amended): [notifyEvents] first looks the webhooks up.  When the
    lookup succeeds it delivers the event to every webhook found and then
    to the chat notifier, whatever the chat notifier answers; when the
    lookup fails it returns that error and delivers to no sink.  Whatever
    the webhook lookup and the chat notifier answer, [executeTest] makes
    the same calls on the store, the definitions, the secrets, the
    executor and the metric, leaves the same heap, and returns a nil error
    with the same execution up to the error message of its result. *)
Theorem notifications_best_effort S S2 ty e test request w :
  (let r := runBody (notifyEvents S ty e) w in
   match WebhooksGetByEvent S ty with
   | inl whs =>
       fst r = None /\
       List.filter isDelivery (callsSince w (snd r))
       = map (fun wh => CallNotify (mkWebhookEvent (WebhookUri wh) ty e)) whs
         ++ [CallSlackSendEvent ty e]
   | inr err =>
       fst r = Some err /\ List.filter isDelivery (callsSince w (snd r)) = []
   end) /\
  (agreeOffNotifications S S2 ->
   let r1 := runBody (executeTest S test request) w in
   let r2 := runBody (executeTest S2 test request) w in
   quietCalls (callsSince w (snd r1)) = quietCalls (callsSince w (snd r2)) /\
   List.filter isStorageWrite (callsSince w (snd r1))
   = List.filter isStorageWrite (callsSince w (snd r2)) /\
   heap (snd r1) = heap (snd r2) /\
   withoutMessage (fst (fst r1)) = withoutMessage (fst (fst r2)) /\
   snd (fst r1) = None /\ snd (fst r2) = None).
Proof.
  split.
  - cbv zeta. rewrite notifyEvents_run. cbn [fst snd].
    rewrite callsSince_addCalls. unfold notifyOutcome, notifyCalls.
    destruct (WebhooksGetByEvent S ty) as [whs|err]; (split; [reflexivity|]).
    + cbn [List.filter isDelivery]. rewrite List.filter_app, webhookCalls_deliveries.
      unfold slackCalls. by destruct (SlackSendEvent S ty e).
    + reflexivity.
  - intros Hagree r1 r2.
    pose proof (executeTest_related S S2 test request Hagree w w
                  (conj eq_refl eq_refl)) as Hrel.
    destruct (executeTest_trace_extends S test request w) as [cs1 Hcs1].
    destruct (executeTest_trace_extends S2 test request w) as [cs2 Hcs2].
    pose proof (executeTest_nil_error S test request w) as Hn1.
    pose proof (executeTest_nil_error S2 test request w) as Hn2.
    assert (Hout : sameOutcome (fst r1) (fst r2) /\ sameQuiet (snd r1) (snd r2)).
    { subst r1 r2. unfold runBody.
      destruct (executeTest S test request w) as [[a1|a1] w1],
               (executeTest S2 test request w) as [[a2|a2] w2]; done. }
    destruct Hout as [[Hmsg _] [Hheap Hquiet]].
    assert (Hcalls : quietCalls (callsSince w (snd r1))
                     = quietCalls (callsSince w (snd r2))).
    { unfold callsSince. fold r1 in Hcs1. fold r2 in Hcs2.
      rewrite Hcs1, Hcs2, !drop_app_length.
      rewrite Hcs1, Hcs2, !quietCalls_app in Hquiet.
      by apply app_inv_head in Hquiet. }
    repeat split; try assumption.
    rewrite <- (filter_quietCalls _ (callsSince w (snd r1))
                  storage_write_not_notification).
    rewrite <- (filter_quietCalls _ (callsSince w (snd r2))
                  storage_write_not_notification).
    by rewrite Hcalls.
Qed.

Lemma notifications_best_effort_witness :
  let S1 := sampleServices "" None (fun _ => inl [mkWebhook "http://hooks/a"])
              (Some (mkError "executor unreachable" false)) in
  let S2 := sampleServices "" None (fun _ => inr (mkError "webhooks unavailable" false))
              (Some (mkError "executor unreachable" false)) in
  let w := mkWorld ∅ [] in
  agreeOffNotifications S1 S2 /\
  quietCalls (callsSince w (snd (runBody (executeTest S1 sampleTest sampleRequest) w)))
  = quietCalls (callsSince w (snd (runBody (executeTest S2 sampleTest sampleRequest) w))).
Proof.
  intros S1 S2 w.
  assert (Hagree : agreeOffNotifications S1 S2) by (repeat split).
  split; [exact Hagree|].
  pose proof (notifications_best_effort S1 S2 StartTest zeroExecution
                sampleTest sampleRequest w) as [_ H].
  exact (proj1 (H Hagree)).
Defined.

End NotificationFacts.

(** ** The worker pool *)

Section PoolFacts.
Import Testkube Workerpool.
Local Open Scope list_scope.
Local Open Scope nat_scope.
Context {In Opt Out W : Type}.
Implicit Types (p : Workerpool.Pool In Opt Out W) (r : Workerpool.Request In Opt Out W).

Lemma step_remaining p p' : step p p' -> remaining p = S (remaining p').
Proof.
  destruct 1 as [n ctx r q fl rs w Hctx Hfree|n ctx q fl1 r fl2 rs w|n ctx q fl rs w Hctx];
    unfold remaining; cbn [queue inflight context cancelled];
    rewrite ?length_app, ?Hctx; cbn [length]; lia.
Qed.

Lemma step_accounts p p' :
  step p p' ->
  length (queue p') + length (inflight p') + length (responses p')
  = length (queue p) + length (inflight p) + length (responses p).
Proof.
  destruct 1; cbn [queue inflight responses];
    rewrite ?length_app; cbn [length]; lia.
Qed.

Lemma step_concurrency p p' : step p p' -> concurrency p' = concurrency p.
Proof. by destruct 1. Qed.

(** A cancelled context stays cancelled, and the queue only shrinks while
    it is not. *)
Lemma step_cancelled p p' :
  step p p' ->
  (cancelled (context p) = true ->
   cancelled (context p') = true /\ queue p' = queue p) /\
  (cancelled (context p') = false -> cancelled (context p) = false).
Proof.
  destruct 1 as [n ctx r q fl rs w Hctx Hfree|n ctx q fl1 r fl2 rs w|n ctx q fl rs w Hctx];
    cbn [context queue cancelled]; split; try congruence; try done.
Qed.

Lemma wrap_exclusive (o : Out * option GoError) : exclusive (wrap o).
Proof.
  destruct o as [out [err|]]; cbn.
  - right. split; [reflexivity|]. by eexists.
  - left. split; [|reflexivity]. by eexists.
Qed.

(** What holds of every outcome of every job of the batch holds of every
    response. *)
Lemma step_responses (P : Workerpool.Response Out -> Prop) p p' :
  step p p' ->
  let good r := forall ctx w, P (wrap (fst (execute ctx r w))) in
  Forall good (queue p) /\ Forall good (inflight p) /\ Forall P (responses p) ->
  Forall good (queue p') /\ Forall good (inflight p') /\ Forall P (responses p').
Proof.
  intros Hstep good.
  destruct Hstep as [n ctx r q fl rs w Hctx Hfree|n ctx q fl1 r fl2 rs w|n ctx q fl rs w Hctx];
    cbn [queue inflight responses]; intros (Hq & Hf & Hr).
  - apply Forall_cons in Hq as [Hgood Hq].
    split; [exact Hq|]. split; [|exact Hr].
    apply Forall_app. split; [exact Hf|]. by constructor.
  - apply Forall_app in Hf as [Hf1 Hf2]. apply Forall_cons in Hf2 as [Hgood Hf2].
    split; [exact Hq|]. split; [apply Forall_app; by split|].
    apply Forall_app. split; [exact Hr|]. constructor; [apply Hgood|constructor].
  - by repeat split.
Qed.

Lemma run_responses (P : Workerpool.Response Out -> Prop) k p p' :
  run k p p' ->
  let good r := forall ctx w, P (wrap (fst (execute ctx r w))) in
  Forall good (queue p) /\ Forall good (inflight p) /\ Forall P (responses p) ->
  Forall P (responses p').
Proof.
  intros Hrun good. induction Hrun as [p|k p1 p2 p3 Hstep _ IH].
  - by intros (_ & _ & H).
  - intros H. apply IH. by apply (step_responses P p1).
Qed.

Lemma pool_progress p : ~ closed p -> exists p', step p p'.
Proof.
  destruct p as [n [c] q fl rs w]. unfold closed. cbn [queue inflight context cancelled].
  intros Hopen. destruct fl as [|r fl].
  - destruct c; [destruct Hopen; by split; [|right]|].
    destruct q as [|r q]; [destruct Hopen; by split; [|left]|].
    eexists. apply step_take; [reflexivity|]. cbn. lia.
  - eexists. apply (step_finish n (mkContext c) q [] r fl rs w).
Qed.

(** Once the stream is closed nothing but the cancellation of the context
    can still happen, and it leaves the stream closed and the responses
    as they are. *)
Lemma closed_stable p p' :
  closed p -> step p p' -> closed p' /\ responses p' = responses p.
Proof.
  intros [Hf Hq] Hstep.
  destruct Hstep as [n ctx r q fl rs w Hctx Hfree|n ctx q fl1 r fl2 rs w|n ctx q fl rs w Hctx];
    cbn [queue inflight responses context cancelled] in *.
  - destruct Hq as [Hq|Hq]; [discriminate Hq|congruence].
  - by destruct fl1.
  - split; [|reflexivity]. split; [exact Hf|by right].
Qed.

Lemma step_bounded p p' :
  step p p' ->
  length (inflight p) <= Pos.to_nat (concurrency p) ->
  length (inflight p') <= Pos.to_nat (concurrency p').
Proof.
  destruct 1; cbn [inflight concurrency]; rewrite ?length_app; cbn [length]; lia.
Qed.

Lemma closed_dec p : {closed p} + {~ closed p}.
Proof.
  destruct p as [n [[|]] [|r q] [|r' fl] rs w]; unfold closed; cbn;
    first [left; split; [reflexivity|]; first [by left | by right]
          | right; intros [? [?|?]]; discriminate].
Qed.

Lemma run_remaining k p p' : run k p p' -> remaining p = k + remaining p'.
Proof.
  induction 1 as [p|k p1 p2 p3 Hstep _ IH]; [reflexivity|].
  rewrite (step_remaining _ _ Hstep), IH. lia.
Qed.

Lemma run_accounts k p p' :
  run k p p' ->
  length (queue p') + length (inflight p') + length (responses p')
  = length (queue p) + length (inflight p) + length (responses p).
Proof.
  induction 1 as [p|k p1 p2 p3 Hstep _ IH]; [reflexivity|].
  rewrite IH. by apply step_accounts.
Qed.

Lemma run_bounded k p p' :
  run k p p' ->
  length (inflight p) <= Pos.to_nat (concurrency p) ->
  length (inflight p') <= Pos.to_nat (concurrency p').
Proof.
  induction 1 as [p|k p1 p2 p3 Hstep _ IH]; [exact id|].
  intros H. apply IH. by apply (step_bounded p1).
Qed.

Lemma run_concurrency k p p' : run k p p' -> concurrency p' = concurrency p.
Proof.
  induction 1 as [p|k p1 p2 p3 Hstep _ IH]; [reflexivity|].
  rewrite IH. by apply step_concurrency.
Qed.

Lemma run_exclusive k p p' :
  run k p p' -> Forall exclusive (responses p) -> Forall exclusive (responses p').
Proof.
  intros Hrun H. apply (run_responses exclusive _ _ _ Hrun).
  split; [|split; [|exact H]]; apply Forall_forall; intros r _ ctx w;
    apply wrap_exclusive.
Qed.

Lemma run_closes p : exists k p', run k p p' /\ closed p'.
Proof.
  remember (remaining p) as m eqn:Hm. revert p Hm.
  induction m as [m IH] using lt_wf_ind. intros p Hm.
  destruct (closed_dec p) as [Hc|Ho].
  - exists 0, p. split; [constructor|exact Hc].
  - destruct (pool_progress p Ho) as [p1 Hstep].
    pose proof (step_remaining _ _ Hstep) as Hrem.
    destruct (IH (remaining p1) ltac:(lia) p1 eq_refl) as (k & p' & Hrun & Hc).
    exists (S k), p'. split; [|exact Hc]. by apply (run_step k p p1 p').
Qed.

(** While the context is not cancelled no job leaves the queue unstarted,
    so a stream that closes uncancelled has consumed every job. *)
Lemma run_uncancelled k p p' :
  run k p p' -> cancelled (context p') = false -> cancelled (context p) = false.
Proof.
  induction 1 as [p|k p1 p2 p3 Hstep _ IH]; [exact id|].
  intros H. by apply (step_cancelled _ _ Hstep), IH.
Qed.

Section SiblingFacts.
Variable R : W -> W -> Prop.
Variables j j' : Workerpool.Request In Opt Out W.
Hypothesis Hsame : sameEffect R j j'.

Lemma similar_step p q p' :
  similar R j j' p q -> step p p' -> exists q', step q q' /\ similar R j j' p' q'.
Proof.
  intros (Hn & Hc & Hs & Hcase) Hstep.
  destruct q as [n' ctx' q' fl' rs' w'].
  destruct Hstep as [n ctx r q fl rs w Hctx Hfree|n ctx q fl1 r fl2 rs w|n ctx q fl rs w Hctx];
    cbn [concurrency context queue inflight responses shared] in *; subst n' ctx'.
  - (* a free worker takes the oldest job *)
    destruct Hcase as [(b & a & Hq & -> & Hba & -> & Hfl & ->)
                      |[(b & a & -> & Hq & Hf & -> & Hba & ->)
                       |(-> & Hq & -> & Hfl & Hd)]].
    + destruct b as [|r0 b]; cbn [app] in Hq; injection Hq as -> ->.
      * exists (mkPool n ctx a (fl ++ [j']) rs w'). split; [by apply step_take|].
        repeat split; cbn [concurrency context queue inflight responses shared]; try done.
        right. left. exists fl, []. rewrite app_nil_r in *. by repeat split.
      * cbn [app] in Hba. apply Forall_cons in Hba as [Hr0 Hba].
        exists (mkPool n ctx (b ++ j' :: a) (fl ++ [r0]) rs w').
        split; [by apply (step_take n ctx r0)|].
        repeat split; cbn [concurrency context queue inflight responses shared]; try done.
        left. exists b, a. repeat split; try done.
        apply Forall_app. split; [done|by constructor].
    + apply Forall_cons in Hq as [Hr Hq].
      exists (mkPool n ctx q ((b ++ j' :: a) ++ [r]) rs w'). split.
      * apply step_take; [done|]. rewrite Hf in Hfree.
        rewrite length_app in *. cbn [length] in *. lia.
      * repeat split; cbn [concurrency context queue inflight responses shared]; try done.
        right. left. exists b, (a ++ [r]). rewrite Hf, <- !app_assoc. cbn [app].
        repeat split; try done.
        rewrite app_assoc. apply Forall_app. split; [done|by constructor].
    + apply Forall_cons in Hq as [Hr Hq].
      exists (mkPool n ctx q (fl ++ [r]) rs' w'). split; [by apply step_take|].
      repeat split; cbn [concurrency context queue inflight responses shared]; try done.
      right. right. repeat split; try done.
      apply Forall_app. split; [done|by constructor].
  - (* a worker finishes its job *)
    destruct Hcase as [(b & a & Hq & -> & Hba & -> & Hfl & ->)
                      |[(b & a & -> & Hq & Hf & -> & Hba & ->)
                       |(-> & Hq & -> & Hfl & Hd)]].
    + apply Forall_app in Hfl as [Hfl1 Hfl2]. apply Forall_cons in Hfl2 as [Hr Hfl2].
      destruct (Hr ctx w w' Hs) as [Hout Hs'].
      exists (mkPool n ctx (b ++ j' :: a) (fl1 ++ fl2)
                (rs ++ [wrap (fst (execute ctx r w'))]) (snd (execute ctx r w'))).
      split; [apply step_finish|].
      repeat split; cbn [concurrency context queue inflight responses shared]; try done.
      left. exists b, a. rewrite Hout. repeat split; try done.
      apply Forall_app. by split.
    + apply app_eq_app in Hf as [l [[-> Hl]|[-> Hl]]].
      * destruct l as [|x l]; cbn [app] in Hl; injection Hl as <- ->.
        -- rewrite app_nil_r in *.
           exists (mkPool n ctx q (b ++ fl2)
                     (rs ++ [wrap (fst (execute ctx j' w'))]) (snd (execute ctx j' w'))).
           split; [apply step_finish|].
           repeat split; cbn [concurrency context queue inflight responses shared];
             try done; [by apply Hsame|].
           right. right. repeat split; try done.
           exists rs, [], ctx, w, w'. by repeat split.
        -- apply Forall_app in Hba as [Hb Ha]. apply Forall_app in Ha as [Hl Ha].
           apply Forall_cons in Ha as [Hr Ha].
           destruct (Hr ctx w w' Hs) as [Hout Hs'].
           exists (mkPool n ctx q ((b ++ j' :: l) ++ fl2)
                     (rs ++ [wrap (fst (execute ctx r w'))]) (snd (execute ctx r w'))).
           split.
           { replace (b ++ j' :: l ++ r :: fl2) with ((b ++ j' :: l) ++ r :: fl2)
               by (rewrite <- app_assoc; reflexivity).
             apply step_finish. }
           repeat split; cbn [concurrency context queue inflight responses shared]; try done.
           right. left. exists b, (l ++ fl2). rewrite Hout, <- !app_assoc. cbn [app].
           repeat split; try done.
           apply Forall_app. split; [done|]. apply Forall_app. by split.
      * destruct l as [|x l]; cbn [app] in Hl;
          [injection Hl as -> ->|injection Hl as <- ->].
        -- rewrite app_nil_r in *.
           exists (mkPool n ctx q (fl1 ++ a)
                     (rs ++ [wrap (fst (execute ctx j' w'))]) (snd (execute ctx j' w'))).
           split; [apply step_finish|].
           repeat split; cbn [concurrency context queue inflight responses shared];
             try done; [by apply Hsame|].
           right. right. repeat split; try done.
           exists rs, [], ctx, w, w'. by repeat split.
        -- rewrite <- app_assoc in Hba. cbn [app] in Hba.
           apply Forall_app in Hba as [Hb Ha]. apply Forall_cons in Ha as [Hr Ha].
           destruct (Hr ctx w w' Hs) as [Hout Hs'].
           exists (mkPool n ctx q (fl1 ++ l ++ j' :: a)
                     (rs ++ [wrap (fst (execute ctx r w'))]) (snd (execute ctx r w'))).
           split.
           { rewrite <- app_assoc. cbn [app]. apply step_finish. }
           repeat split; cbn [concurrency context queue inflight responses shared]; try done.
           right. left. exists (fl1 ++ l), a. rewrite Hout, <- !app_assoc.
           repeat split; try done.
           apply Forall_app. by split.
    + apply Forall_app in Hfl as [Hfl1 Hfl2]. apply Forall_cons in Hfl2 as [Hr Hfl2].
      destruct (Hr ctx w w' Hs) as [Hout Hs'].
      destruct Hd as (rs1 & rs2 & ctx0 & w0 & w0' & Hw0 & -> & ->).
      exists (mkPool n ctx q (fl1 ++ fl2)
                ((rs1 ++ wrap (fst (execute ctx0 j' w0')) :: rs2)
                 ++ [wrap (fst (execute ctx r w'))]) (snd (execute ctx r w'))).
      split; [apply step_finish|].
      repeat split; cbn [concurrency context queue inflight responses shared]; try done.
      right. right. repeat split; try done; [apply Forall_app; by split|].
      exists rs1, (rs2 ++ [wrap (fst (execute ctx r w'))]), ctx0, w0, w0'.
      rewrite Hout, <- !app_assoc. by repeat split.
  - (* the context is cancelled *)
    exists (mkPool n (mkContext true) q' fl' rs' w'). split; [by apply step_cancel|].
    by repeat split.
Qed.

Lemma similar_run k p p' q :
  run k p p' -> similar R j j' p q -> exists q', run k q q' /\ similar R j j' p' q'.
Proof.
  intros Hrun. revert q. induction Hrun as [p|k p1 p2 p3 Hstep _ IH]; intros q Hsim.
  - exists q. split; [constructor|exact Hsim].
  - destruct (similar_step _ _ _ Hsim Hstep) as (q2 & Hstep' & Hsim').
    destruct (IH _ Hsim') as (q3 & Hrun' & Hsim3).
    exists q3. split; [|exact Hsim3]. by apply (run_step k q q2 q3).
Qed.

Lemma similar_lengths p q :
  similar R j j' p q ->
  length (queue q) = length (queue p) /\ length (inflight q) = length (inflight p) /\
  length (responses q) = length (responses p).
Proof.
  intros (_ & _ & _ & [(b & a & -> & -> & _ & -> & _ & ->)
                      |[(b & a & -> & _ & -> & -> & _ & ->)
                       |(-> & _ & -> & _ & rs1 & rs2 & ctx & w & w' & _ & -> & ->)]]);
    rewrite ?length_app; cbn [length]; by repeat split.
Qed.

Lemma similar_closed p q : similar R j j' p q -> closed p -> closed q.
Proof.
  intros Hsim [Hfl Hqc]. pose proof (similar_lengths _ _ Hsim) as (Hq & Hf & _).
  destruct Hsim as (_ & Hc & _). split.
  - apply length_zero_iff_nil. rewrite Hf, Hfl. reflexivity.
  - destruct Hqc as [Hqc|Hqc]; [left|right; by rewrite Hc].
    apply length_zero_iff_nil. rewrite Hq, Hqc. reflexivity.
Qed.

Lemma similar_submitted n ctx before after w w' :
  Forall (respects R) (before ++ after) -> R w w' ->
  similar R j j' (submitted n ctx (before ++ j :: after) w)
    (submitted n ctx (before ++ j' :: after) w').
Proof.
  intros Hall Hw.
  repeat split; cbn [submitted concurrency context queue inflight responses shared];
    try done.
  left. exists before, after. by repeat split.
Qed.

(** Once the stream has closed with the context not cancelled, the job
    has answered. *)
Lemma similar_answered p q :
  similar R j j' p q -> inflight p = [] -> queue p = [] ->
  differ R j j' (responses p) (responses q).
Proof.
  intros (_ & _ & _ & [(b & a & Hq & _)|[(b & a & _ & _ & Hf & _)|(_ & _ & _ & _ & Hd)]])
    Hfl Hqe.
  - rewrite Hqe in Hq. by destruct b.
  - rewrite Hfl in Hf. by destruct b.
  - exact Hd.
Qed.

(** Replacing one job of the batch by a job that leaves the shared state
    alike, failing or not: to every run of the pool corresponds a run of
    the same steps, with as many jobs waiting and in flight, in which the
    responses are the same at every position of the stream but the one of
    the job replaced. *)
Lemma siblings_unaffected n ctx before after w w' k p :
  Forall (respects R) (before ++ after) -> R w w' ->
  run k (submitted n ctx (before ++ j :: after) w) p ->
  exists p',
    run k (submitted n ctx (before ++ j' :: after) w') p' /\
    (closed p -> closed p') /\
    context p' = context p /\
    length (queue p') = length (queue p) /\
    length (inflight p') = length (inflight p) /\
    (responses p' = responses p \/ differ R j j' (responses p) (responses p')) /\
    (closed p -> cancelled (context p) = false ->
     differ R j j' (responses p) (responses p')).
Proof.
  intros Hall Hw Hrun.
  destruct (similar_run _ _ _ _ Hrun (similar_submitted n ctx before after w w' Hall Hw))
    as (p' & Hrun' & Hsim).
  exists p'. split; [exact Hrun'|]. split; [by apply similar_closed|].
  pose proof (similar_lengths _ _ Hsim) as (Hq & Hf & _).
  split; [by destruct Hsim as (_ & Hc & _)|]. split; [exact Hq|]. split; [exact Hf|].
  split.
  - destruct Hsim as (_ & _ & _ & [(b & a & _ & _ & _ & _ & _ & Hr)
                                  |[(b & a & _ & _ & _ & _ & _ & Hr)
                                   |(_ & _ & _ & _ & Hd)]]); [by left|by left|by right].
  - intros [Hfl [Hqe|Hcan]] Hctx; [|congruence].
    by apply (similar_answered p p').
Qed.

End SiblingFacts.

(** Every job sees all of the shared state it is run in. *)
Lemma respects_eq r : respects eq r.
Proof. intros ctx w w' <-. by split. Qed.

Lemma failing_sameEffect r err : sameEffect eq r (failing r err).
Proof. intros ctx w w' <-. reflexivity. Qed.

End PoolFacts.

(** ** The batch handler *)

Section HandlerFacts.
Import Testkube Collab V1 Vocabulary.
Local Open Scope list_scope.

Lemma scheduleLoop_run S c request tests :
  Forall (schedules S request) (scheduledTests c tests) ->
  forall results work w,
    scheduleLoop S c request tests results work w
    = (inr (results ++ map (fun t => queuedExecution t (ReqNamespace request))
                           (scheduledTests c tests),
            work ++ immediateTests c tests),
       addCalls w (map (cronCall S request) (scheduledTests c tests))).
Proof.
  unfold scheduledTests, immediateTests.
  induction tests as [|t tests IH]; intros Hok results work w.
  - cbn. unfold ret. by rewrite !app_nil_r, addCalls_nil.
  - cbn [scheduleLoop List.filter] in *. destruct (runsNow c t) eqn:Hnow; cbn [negb] in *.
    + rewrite (IH Hok). by rewrite <- app_assoc.
    + apply Forall_cons in Hok as [[[data Hdata] Hcron] Hok].
      unfold cronOptions, marshalled in Hcron. rewrite Hdata in Hcron.
      unfold bind at 1. rewrite Hdata. unfold ret at 1.
      unfold bind at 1. rewrite call_run.
      unfold bind at 1. rewrite Hcron. unfold ret at 1.
      rewrite (IH Hok). rewrite addCalls_addCalls. cbn [map].
      unfold cronCall at 2, cronOptions, marshalled. rewrite Hdata.
      by rewrite <- app_assoc.
Qed.

Lemma collectResults_run S c w request tests :
  BodyParser c = inl request ->
  requestedTests S c = inl tests ->
  Forall (schedules S request) (scheduledTests c tests) ->
  (immediateTests c tests <> [] ->
   exists n, Atoi (QueryDefault c "concurrency" defaultConcurrencyLevel) = inl n) ->
  collectResults S c w
  = (inr (map (fun t => queuedExecution t (ReqNamespace request))
              (scheduledTests c tests)
          ++ match immediateTests c tests with
             | [] => []
             | _ :: _ =>
                 map (fun r => default zeroExecution (Workerpool.RespResult r))
                   (PoolResponses S (concurrencyLevelOf c)
                      (prepareTestRequests S (immediateTests c tests) request))
             end),
     addCalls w
       (lookupCall c :: map (cronCall S request) (scheduledTests c tests)
        ++ match immediateTests c tests with
           | [] => []
           | _ :: _ =>
               [CallPool (concurrencyLevelOf c)
                  (prepareTestRequests S (immediateTests c tests) request)]
           end)).
Proof.
  intros Hbody Htests Hsched Hlevel.
  unfold collectResults. rewrite Hbody. unfold bind at 1. unfold ret at 1.
  unfold bind at 1.
  assert (Hlookup :
    (if negb (String.eqb (CtxParams c "id") "") then
       bind (call (CallTestsGet (CtxParams c "id")))
         (fun _ => match TestsGet S (CtxParams c "id") with
                   | inr err =>
                       exit (ErrorResponse StatusInternalServerError
                               (Errorf_w "can't get test: " (Some err)))
                   | inl test => ret [test]
                   end)
     else
       bind (call (CallTestsList (CtxQuery c "selector")))
         (fun _ => match TestsList S (CtxQuery c "selector") with
                   | inr err =>
                       exit (ErrorResponse StatusInternalServerError
                               (Errorf_w "can't get tests: " (Some err)))
                   | inl items => ret items
                   end)) w
    = (inr tests, addCalls w [lookupCall c])).
  { unfold requestedTests in Htests. unfold lookupCall.
    destruct (negb (String.eqb (CtxParams c "id") "")); unfold bind; rewrite call_run.
    - destruct (TestsGet S (CtxParams c "id")); [|discriminate].
      by injection Htests as <-.
    - by rewrite Htests. }
  rewrite Hlookup. unfold bind at 1.
  rewrite (scheduleLoop_run S c request tests Hsched). cbn [fst snd app].
  rewrite addCalls_addCalls.
  destruct (immediateTests c tests) as [|t work] eqn:Hwork.
  - cbn [length Nat.eqb negb]. unfold ret. by rewrite !app_nil_r.
  - cbn [length Nat.eqb negb]. destruct (Hlevel ltac:(discriminate)) as [n Hn].
    unfold concurrencyLevelOf. rewrite Hn.
    unfold bind at 1. unfold ret at 1. unfold bind at 1. rewrite call_run.
    unfold ret. rewrite addCalls_addCalls. reflexivity.
Qed.

(** C4, as stated, fails: with a [concurrency] query value that is not a
    number, a test without schedule is never handed to the worker pool. *)
Lemma handler_rejects_bad_concurrency :
  ~ immediate_tests_dispatched
      (sampleServices "" None (fun _ => inl []) None)
      (sampleCtx "api-test" "many") (mkWorld ∅ []).
Proof.
  intros H.
  destruct (H (mkExecutionRequest "run-1" "testkube" None "" [] false)
              [mkTestCR "api-test" None (mkTestSpec "postman/collection" "" None "{}")]
              (mkTestCR "api-test" None (mkTestSpec "postman/collection" "" None "{}"))
              eq_refl eq_refl (or_introl eq_refl) eq_refl)
    as (level & jobs & Hin & _).
  vm_compute in Hin. destruct Hin as [Hin|[]]. discriminate Hin.
Qed.

(** C4 (amended): provided the request body parses, the tests are found,
    the scheduler accepts every registration and, when some test runs
    now, the [concurrency] value is a number, the handler registers
    exactly the tests that have a schedule and no [callback] override with
    the scheduler, reports one Queued execution for each of them, and
    hands exactly the other tests to the worker pool in one batch. *)
Theorem handler_partitions S c w request tests :
  BodyParser c = inl request ->
  requestedTests S c = inl tests ->
  Forall (schedules S request) (scheduledTests c tests) ->
  (immediateTests c tests <> [] ->
   exists n, Atoi (QueryDefault c "concurrency" defaultConcurrencyLevel) = inl n) ->
  let scheduled := scheduledTests c tests in
  let immediate := immediateTests c tests in
  let jobs := prepareTestRequests S immediate request in
  let queued := map (fun t => queuedExecution t (ReqNamespace request)) scheduled in
  fst (collectResults S c w)
  = inr (queued ++
         match immediate with
         | [] => []
         | _ :: _ =>
             map (fun r => default zeroExecution (Workerpool.RespResult r))
               (PoolResponses S (concurrencyLevelOf c) jobs)
         end) /\
  snd (runBody (ExecuteTestsHandler S c) w) = snd (collectResults S c w) /\
  callsSince w (snd (collectResults S c w))
  = lookupCall c :: map (cronCall S request) scheduled
    ++ match immediate with
       | [] => []
       | _ :: _ => [CallPool (concurrencyLevelOf c) jobs]
       end /\
  Forall (fun e => statusOf e = Some Queued) queued /\
  Forall (fun t => SpecSchedule (Spec t) <> "" /\ CtxQuery c "callback" = "") scheduled /\
  Forall (fun t => SpecSchedule (Spec t) = "" \/ CtxQuery c "callback" <> "") immediate /\
  (length scheduled + length immediate = length tests)%nat.
Proof.
  intros Hbody Htests Hsched Hlevel scheduled immediate jobs queued.
  pose proof (collectResults_run S c w request tests Hbody Htests Hsched Hlevel) as Hrun.
  fold scheduled immediate jobs queued in Hrun.
  rewrite Hrun. cbn [fst snd]. split; [reflexivity|].
  split.
  { unfold ExecuteTestsHandler, runBody, bind. rewrite Hrun. reflexivity. }
  split.
  { by rewrite callsSince_addCalls. }
  split.
  { subst queued. apply Forall_map. by apply Forall_forall. }
  split.
  { subst scheduled. unfold scheduledTests. apply Forall_forall. intros t Ht.
    apply list_elem_of_In, List.filter_In in Ht as [_ Ht].
    unfold runsNow in Ht. apply negb_true_iff, orb_false_iff in Ht as [H1 H2].
    apply negb_false_iff in H2. split.
    - by apply String.eqb_neq.
    - by apply String.eqb_eq. }
  split.
  { subst immediate. unfold immediateTests. apply Forall_forall. intros t Ht.
    apply list_elem_of_In, List.filter_In in Ht as [_ Ht].
    unfold runsNow in Ht. apply orb_true_iff in Ht as [H1|H2].
    - left. by apply String.eqb_eq.
    - right. apply negb_true_iff in H2. by apply String.eqb_neq. }
  subst scheduled immediate. unfold scheduledTests, immediateTests.
  clear. induction tests as [|t tests IH]; [reflexivity|].
  cbn. destruct (runsNow c t); cbn; lia.
Qed.

Lemma handler_partitions_witness :
  let S := sampleServices "0 3 * * *" None (fun _ => inl []) None in
  let c := sampleCtx "nightly" "" in
  let request := mkExecutionRequest "run-1" "testkube" None "" [] false in
  let cr := mkTestCR "nightly" None
              (mkTestSpec "postman/collection" "0 3 * * *" None "{}") in
  let w := mkWorld ∅ [] in
  BodyParser c = inl request /\
  requestedTests S c = inl [cr] /\
  Forall (schedules S request) (scheduledTests c [cr]) /\
  fst (collectResults S c w) = inr [queuedExecution cr "testkube"] /\
  callsSince w (snd (collectResults S c w))
  = [CallTestsGet "nightly"; cronCall S request cr].
Proof.
  intros S c request cr w.
  assert (Hbody : BodyParser c = inl request) by reflexivity.
  assert (Htests : requestedTests S c = inl [cr]) by reflexivity.
  assert (Hsched : Forall (schedules S request) (scheduledTests c [cr])).
  { repeat constructor. by exists "{}". }
  assert (Hlevel : immediateTests c [cr] <> [] ->
            exists n, Atoi (QueryDefault c "concurrency" defaultConcurrencyLevel) = inl n).
  { intros _. by exists 10. }
  pose proof (handler_partitions S c w request [cr] Hbody Htests Hsched Hlevel)
    as (Hres & _ & Hcalls & _).
  repeat split; assumption.
Defined.

(** C5: once the results are gathered, a request that names one test by
    id and has at least one result is answered with the first result
    alone, as a server error carrying its error message exactly when that
    result is failed (status Error or a non-empty error message), and as
    the execution itself otherwise; a request without id is answered with
    the whole batch, failed results included. *)
Theorem handler_answer S c w results w' :
  collectResults S c w = (inr results, w') ->
  (CtxParams c "id" <> "" ->
   forall first rest result,
     results = first :: rest -> Result first = Some result ->
     runBody (ExecuteTestsHandler S c) w
     = (if IsFailed result then
          ErrorResponse StatusInternalServerError (fmtErrorf0 S (ErrorMessage result))
        else JSONExecution first,
        w')) /\
  (CtxParams c "id" = "" ->
   runBody (ExecuteTestsHandler S c) w = (JSONExecutions results, w')) /\
  (forall result,
     IsFailed result = true <->
     Status result = Some Error \/ ErrorMessage result <> "").
Proof.
  intros Hrun.
  assert (Hhandler : runBody (ExecuteTestsHandler S c) w
                     = (respond S (CtxParams c "id") results, w')).
  { unfold runBody, ExecuteTestsHandler, bind. by rewrite Hrun. }
  rewrite Hhandler. split; [|split].
  - intros Hid first rest result -> Hresult. unfold respond.
    apply String.eqb_neq in Hid. rewrite Hid, Hresult. reflexivity.
  - intros ->. reflexivity.
  - intros result. unfold IsFailed. split.
    + destruct (Status result) as [[]|]; intros H;
        first [by left | right; apply negb_true_iff in H; by apply String.eqb_neq].
    + intros [->|H]; [reflexivity|].
      apply String.eqb_neq in H. rewrite H. by destruct (Status result) as [[]|].
Qed.

Lemma handler_answer_witness :
  let S := sampleServices "0 3 * * *" None (fun _ => inl []) None in
  let c := sampleCtx "nightly" "" in
  let cr := mkTestCR "nightly" None
              (mkTestSpec "postman/collection" "0 3 * * *" None "{}") in
  let w := mkWorld ∅ [] in
  exists w',
    collectResults S c w = (inr [queuedExecution cr "testkube"], w') /\
    runBody (ExecuteTestsHandler S c) w
    = (JSONExecution (queuedExecution cr "testkube"), w').
Proof.
  intros S c cr w.
  exists (snd (collectResults S c w)).
  assert (Hrun : collectResults S c w
                 = (inr [queuedExecution cr "testkube"], snd (collectResults S c w))).
  { vm_compute. reflexivity. }
  split; [exact Hrun|].
  pose proof (handler_answer S c w _ _ Hrun) as [H _].
  exact (H ltac:(discriminate) _ _ _ eq_refl eq_refl).
Defined.

End HandlerFacts.

(** ** The jobs of the batch handler in the worker pool *)

Section JobFacts.
Import Testkube Collab V1 Vocabulary MoreVocabulary Outcomes Workerpool.
Local Open Scope list_scope.

(** A run of [executeTest] reads of the world only its heap. *)
Lemma executeTest_respects S job : respects sameHeap (asPoolRequest S job).
Proof.
  intros ctx w w' Hw. unfold execute, asPoolRequest, sameHeap in *.
  cbn [ExecFn Object Options].
  destruct (executeTest_run S (JobObject job) (JobOptions job) w) as [Hr Hh].
  destruct (executeTest_run S (JobObject job) (JobOptions job) w') as [Hr' Hh'].
  rewrite Hr, Hr', Hh, Hh', Hw. by split.
Qed.

Lemma withSecretGet_sameEffect S answer job :
  sameEffect sameHeap (asPoolRequest S job) (asPoolRequest (withSecretGet S answer) job).
Proof.
  intros ctx w w' Hw. unfold execute, asPoolRequest, sameHeap in *.
  cbn [ExecFn Object Options].
  destruct (executeTest_run S (JobObject job) (JobOptions job) w) as [_ Hh].
  destruct (executeTest_run (withSecretGet S answer) (JobObject job) (JobOptions job) w')
    as [_ Hh'].
  rewrite Hh, Hh', Hw. reflexivity.
Qed.

Lemma executeTest_response S job ctx w :
  wrap (fst (execute ctx (asPoolRequest S job) w))
  = mkResponse (Some (reported S (JobObject job) (JobOptions job) (heap w))) None.
Proof.
  unfold execute, asPoolRequest. cbn [ExecFn Object Options].
  destruct (executeTest_run S (JobObject job) (JobOptions job) w) as [-> _].
  reflexivity.
Qed.

(** C8: a run of [executeTest] whose name is free, whose options resolve
    and whose execution is inserted and started looks the secret of the
    test up, once.  When the secret is found the run dispatches the started
    execution, once, with [HasSecrets] true; when the lookup answers "not
    found", with [HasSecrets] false; on any other error nothing is
    dispatched and the run returns the started execution with the terminal
    status Error and a nil error.  Whatever the secret store answers to
    this job, the pool runs the same steps and the responses to its
    siblings are the same, at the same positions of the stream; only the
    response to this job differs, and it carries an execution and no
    error. *)
Theorem executeTest_secret_lookup S test request w :
  let r := runBody (executeTest S test request) w in
  let calls := callsSince w (snd r) in
  let h := heap w in
  let started := startedExecution S test request h in
  let options :=
    withOptID (fst (resolved S test request h)) (Id (pendingExecution S test request h)) in
  String.eqb (Name (storedExecution S test request)) (ReqName (namedRequest S request))
    = false ->
  snd (resolved S test request h) = None ->
  Insert S (pendingExecution S test request h) = None ->
  StartExecution S (Id started) (StartTime started) = None ->
  List.filter isSecretLookup calls = [CallSecretGet (secretMetadataName S (TName test))] /\
  match SecretGet S (secretMetadataName S (TName test)) with
  | None =>
      List.filter isDispatch calls = [dispatchCall started (withHasSecrets options true)]
  | Some err =>
      if isNotFound err then
        List.filter isDispatch calls = [dispatchCall started (withHasSecrets options false)]
      else
        List.filter isDispatch calls = [] /\
        fst r = (Errw started "can't get secrets: " (notifyOutcome S EndTest), None) /\
        statusOf (fst (fst r)) = Some Error
  end /\
  (forall answer n ctx before after w0 k p,
     let S' := withSecretGet S answer in
     let job := mkTestJob test request in
     let siblings l := map (asPoolRequest S) l in
     run k (submitted n ctx (siblings before ++ asPoolRequest S job :: siblings after) w0) p ->
     exists p',
       run k (submitted n ctx
                (siblings before ++ asPoolRequest S' job :: siblings after) w0) p' /\
       (closed p -> closed p') /\
       context p' = context p /\
       length (queue p') = length (queue p) /\
       length (inflight p') = length (inflight p) /\
       (responses p' = responses p \/
        exists rs1 rs2 h',
          responses p
          = rs1 ++ mkResponse (Some (reported S test request h')) None :: rs2 /\
          responses p'
          = rs1 ++ mkResponse (Some (reported S' test request h')) None :: rs2)).
Proof.
  intros r calls h started options Hdup Hopt Hins Hstart.
  apply and_assoc. split.
  - destruct (executeTest_run S test request w) as [Hr _].
    destruct (executeTest_calls S test request w) as [Hs Hd].
    fold r in Hr. fold r calls h in Hs, Hd. fold h in Hr.
    unfold reachesSecretLookup in Hs. unfold reported in Hr.
    unfold stage in *. fold h started in Hs, Hd, Hr.
    rewrite Hdup, Hopt, Hins in *. fold started in Hs, Hd, Hr. rewrite Hstart in *.
    pose proof (startedExecution_TestName S test request h Hopt) as Hname.
    fold started in Hname.
    unfold dispatchAnswer, dispatchOptions, secretAnswer in *.
    fold started options in Hs, Hd, Hr. rewrite Hname in *.
    revert Hs Hd.
    destruct (SecretGet S (secretMetadataName S (TName test))) as [err|];
      [destruct (isNotFound err); cbn [negb] in *|].
    + match goal with
      | |- context [UpdateResult S ?id ?result] => destruct (UpdateResult S id result)
      end; [by split|].
      match goal with
      | |- context [match snd ?answer with _ => _ end] => destruct (snd answer)
      end; by split.
    + intros Hs Hd. rewrite Hr. by repeat split.
    + match goal with
      | |- context [UpdateResult S ?id ?result] => destruct (UpdateResult S id result)
      end; [by split|].
      match goal with
      | |- context [match snd ?answer with _ => _ end] => destruct (snd answer)
      end; by split.
  - clear. intros answer n ctx before after w0 k p S' job siblings Hrun.
    destruct (siblings_unaffected sameHeap (asPoolRequest S job) (asPoolRequest S' job)
                (withSecretGet_sameEffect S answer job)
                n ctx (siblings before) (siblings after) w0 w0 k p)
      as (p' & Hrun' & Hc & Hctx & Hq & Hf & Hr & _).
    + unfold siblings. rewrite <- map_app. apply Forall_forall. intros x Hx.
      apply list_elem_of_In, in_map_iff in Hx as (sibling & <- & _).
      apply executeTest_respects.
    + reflexivity.
    + exact Hrun.
    + exists p'. repeat (split; [assumption|]).
      destruct Hr as [Hr|(rs1 & rs2 & ctx0 & w1 & w1' & Hheap & -> & ->)]; [by left|].
      right. exists rs1, rs2, (heap w1). rewrite !executeTest_response.
      unfold sameHeap in Hheap. rewrite <- Hheap. by split.
Qed.

Lemma executeTest_secret_lookup_witness :
  let w := mkWorld ∅ [] in
  let deployment secret := sampleServices "" secret (fun _ => inl []) None in
  let r secret := runBody (executeTest (deployment secret) sampleTest sampleRequest) w in
  let dispatched secret := List.filter isDispatch (callsSince w (snd (r secret))) in
  let missing := mkError "secrets not found" true in
  let forbidden := mkError "secrets is forbidden" false in
  (exists e o, dispatched None = [dispatchCall e o] /\ OptHasSecrets o = true) /\
  (exists e o, dispatched (Some missing) = [dispatchCall e o] /\ OptHasSecrets o = false) /\
  dispatched (Some forbidden) = [] /\
  statusOf (fst (fst (r (Some forbidden)))) = Some Error.
Proof.
  intros w deployment r dispatched missing forbidden.
  pose proof (fun secret H1 H2 H3 H4 =>
                proj1 (proj2 (executeTest_secret_lookup (deployment secret) sampleTest
                                sampleRequest w H1 H2 H3 H4))) as H.
  split; [|split].
  - eexists _, _. split.
    + refine (H None _ _ _ _); vm_compute; reflexivity.
    + reflexivity.
  - eexists _, _. split.
    + refine (H (Some missing) _ _ _ _); vm_compute; reflexivity.
    + reflexivity.
  - assert (Hfatal := H (Some forbidden)).
    destruct Hfatal as (Hnone & _ & Hstatus); try (vm_compute; reflexivity).
    split; [exact Hnone|exact Hstatus].
Defined.

(** The tests of a request are scheduled or run now. *)
Lemma tests_partition c (tests : list TestCR) :
  (length (scheduledTests c tests) + length (immediateTests c tests) = length tests)%nat.
Proof.
  unfold scheduledTests, immediateTests.
  induction tests as [|t tests IH]; [reflexivity|].
  cbn. destruct (runsNow c t); cbn; lia.
Qed.

(** Every response to a job of the batch handler carries an execution and
    no error. *)
Lemma job_responses S n ctx (jobs : list TestJob) w k p :
  run k (submitted n ctx (map (asPoolRequest S) jobs) w) p ->
  exists executions, responses p = map (fun e => mkResponse (Some e) None) executions.
Proof.
  intros Hrun.
  assert (H : Forall (fun r => exists e : Execution, r = mkResponse (Some e) None)
                (responses p)).
  { apply (run_responses _ _ _ _ Hrun). cbn [submitted queue inflight responses].
    split; [|split; constructor].
    apply Forall_forall. intros r Hr ctx' w'.
    apply list_elem_of_In, in_map_iff in Hr as (job & <- & _).
    rewrite executeTest_response. by eexists. }
  induction H as [|r rs [e ->] _ [es ->]]; [by exists []|].
  by exists (e :: es).
Qed.




End JobFacts.

(** * Further properties of the code *)

(** ** Durations grow with the clock *)

Section DurationOrder.
Import GoTime Suite.

Lemma Sub_monotone t1 t2 u :
  wfTime t1 -> wfTime t2 -> After t1 t2 = false -> Sub t1 u <= Sub t2 u.
Proof.
  unfold wfTime, Second. intros H1 H2 Haft.
  apply After_false in Haft. destruct Haft as [Hs Hn].
  assert (Hd : (sec t1 - sec u) * Second + (nsec t1 - nsec u)
               <= (sec t2 - sec u) * Second + (nsec t2 - nsec u)).
  { unfold Second. destruct (Z.eq_dec (sec t1) (sec t2)) as [e|ne].
    - specialize (Hn e). rewrite e. lia.
    - lia. }
  unfold Sub. cbv zeta. unfold minDuration, maxDuration in *.
  repeat match goal with
         | |- context [?a <? ?b] => destruct (Z.ltb_spec a b)
         end; lia.
Qed.



End DurationOrder.

(** ** What [executeTest] writes, counts and announces *)

Section ExecuteTestOrder.
Import Testkube Collab V1 Vocabulary MoreVocabulary.
Local Open Scope list_scope.

Lemma auxiliary_not_storage c : isAuxiliary c = true -> isStorageWrite c = false.
Proof. by destruct c. Qed.

Lemma auxiliary_not_metric c : isAuxiliary c = true -> isMetric c = false.
Proof. by destruct c. Qed.

Lemma auxiliary_not_update c : isAuxiliary c = true -> isUpdateResult c = false.
Proof. by destruct c. Qed.

Lemma auxiliary_not_insert c : isAuxiliary c = true -> isInsert c = false.
Proof. by destruct c. Qed.

Lemma optionsCalls_no_event_lookup S id :
  List.filter isEventLookup (optionsCalls S id) = [].
Proof. unfold optionsCalls. by destruct (TestsGet S id). Qed.

Lemma webhookCalls_no_event_lookup ty e whs :
  List.filter isEventLookup (webhookCalls ty e whs) = [].
Proof. induction whs as [|wh whs IH]; [reflexivity|exact IH]. Qed.

Lemma notifyLogCalls_event_lookup S ty e :
  List.filter isEventLookup (notifyLogCalls S ty e) = [CallWebhooksGetByEvent ty].
Proof.
  unfold notifyLogCalls, notifyCalls, notifyOutcome, slackCalls.
  destruct (WebhooksGetByEvent S ty) as [whs|err]; [|reflexivity].
  rewrite app_nil_r. cbn [List.filter isEventLookup]. f_equal.
  rewrite List.filter_app, webhookCalls_no_event_lookup.
  by destruct (SlackSendEvent S ty e).
Qed.

Lemma optionsOutcome_ReqName S namespace id request h :
  snd (optionsOutcome S namespace id request h) = None ->
  ReqName (OptRequest (fst (optionsOutcome S namespace id request h)))
  = ReqName request.
Proof.
  unfold optionsOutcome, runBody, GetExecuteOptions.
  unfold bind, call, ret, exit. cbn beta iota.
  destruct (TestsGet S id) as [testCR|err]; [|discriminate].
  rewrite !mergeParams_run. cbn beta iota zeta.
  destruct (ExecutorsGetByType S (SpecType (Spec testCR))); [reflexivity|discriminate].
Qed.

Ltac calls_norm :=
  unfold callsSince, addCalls in *; cbn [trace heap] in *;
  rewrite <- ?app_assoc; rewrite drop_app_length;
  rewrite ?List.filter_app.

(** The store sees an execution in a fixed order: it is inserted as
    Pending under the effective name and a new id, then marked started
    under that id at the time of [Start], then given its result under
    that id; each write happens at most once and none is skipped. *)
Theorem executeTest_storage_order S test request w :
  let writes :=
    List.filter isStorageWrite
      (callsSince w (snd (runBody (executeTest S test request) w))) in
  writes = [] \/
  exists e,
    Id e = newObjectID S /\ Name e = effectiveName S request /\
    TestName e = TName test /\ Result e = Some NewPendingExecutionResult /\
    (writes = [CallInsert e] \/
     writes = [CallInsert e; CallStartExecution (Id e) (timeNow S)] \/
     exists r, writes = [CallInsert e; CallStartExecution (Id e) (timeNow S);
                         CallUpdateResult (Id e) r]).
Proof.
  cbv zeta.
  apply (wp_runBody _ (fun _ w' =>
    List.filter isStorageWrite (callsSince w w') = [] \/
    exists e,
      Id e = newObjectID S /\ Name e = effectiveName S request /\
      TestName e = TName test /\ Result e = Some NewPendingExecutionResult /\
      (List.filter isStorageWrite (callsSince w w') = [CallInsert e] \/
       List.filter isStorageWrite (callsSince w w')
       = [CallInsert e; CallStartExecution (Id e) (timeNow S)] \/
       exists r, List.filter isStorageWrite (callsSince w w')
                 = [CallInsert e; CallStartExecution (Id e) (timeNow S);
                    CallUpdateResult (Id e) r]))).
  unfold executeTest. cbv zeta. rewrite !ReqName_effective.
  repeat wp_step.
  all: calls_norm.
  all: rewrite ?(filter_auxiliary _ _ auxiliary_not_storage (notifyLogCalls_auxiliary _ _ _)),
         ?(filter_auxiliary _ _ auxiliary_not_storage (optionsCalls_auxiliary _ _)).
  all: cbn [List.filter isStorageWrite app].
  all: try (left; reflexivity).
  all: right;
    lazymatch goal with
    | |- exists e, _ /\ _ /\ _ /\ _ /\ (CallInsert ?e0 :: _ = _ \/ _) => exists e0
    end;
    cbn [Id Name TestName Result Start withStartTime withResult
         newExecutionFromExecutionOptions NewExecution StartTime].
  all: (split; [reflexivity|]).
  all: (split; [rewrite optionsOutcome_ReqName by assumption;
                apply ReqName_effective|]).
  all: (split; [by apply optionsOutcome_TestName|]).
  all: (split; [reflexivity|]).
  all: first [ left; reflexivity
             | right; left; reflexivity
             | right; right; eexists; reflexivity ].
Qed.

(** A started notification is never left without its ended notification:
    [executeTest] attempts the two notifications, in this order and once
    each, exactly when it inserted the execution, and none otherwise. *)
Theorem executeTest_events_paired S test request w :
  let calls := callsSince w (snd (runBody (executeTest S test request) w)) in
  List.filter isEventLookup calls
  = match List.filter isInsert calls with
    | [CallInsert e] =>
        match Insert S e with
        | None => [CallWebhooksGetByEvent StartTest; CallWebhooksGetByEvent EndTest]
        | Some _ => []
        end
    | _ => []
    end.
Proof.
  cbv zeta.
  apply (wp_runBody _ (fun _ w' =>
    List.filter isEventLookup (callsSince w w')
    = match List.filter isInsert (callsSince w w') with
      | [CallInsert e] =>
          match Insert S e with
          | None => [CallWebhooksGetByEvent StartTest; CallWebhooksGetByEvent EndTest]
          | Some _ => []
          end
      | _ => []
      end)).
  unfold executeTest. cbv zeta. rewrite !ReqName_effective.
  repeat wp_step.
  all: calls_norm.
  all: rewrite ?(filter_auxiliary _ _ auxiliary_not_insert (notifyLogCalls_auxiliary _ _ _)),
         ?(filter_auxiliary _ _ auxiliary_not_insert (optionsCalls_auxiliary _ _)),
         ?notifyLogCalls_event_lookup, ?optionsCalls_no_event_lookup.
  all: cbn [List.filter isEventLookup isInsert app].
  all: try match goal with H : Insert _ _ = _ |- _ => rewrite H end.
  all: reflexivity.
Qed.

(** The execution metric follows the stored result, not the outcome of the
    dispatch: it is counted once, for the execution carrying the stored
    result, exactly when [UpdateResult] was called and succeeded (also
    when the executor returned an error), and never otherwise. *)
Theorem executeTest_metric_follows_update S test request w :
  let calls := callsSince w (snd (runBody (executeTest S test request) w)) in
  (List.filter isUpdateResult calls = [] /\ List.filter isMetric calls = []) \/
  exists id r,
    List.filter isUpdateResult calls = [CallUpdateResult id r] /\
    match UpdateResult S id r with
    | None =>
        exists e, List.filter isMetric calls = [CallIncExecution e] /\
                  Id e = id /\ Result e = Some r
    | Some _ => List.filter isMetric calls = []
    end.
Proof.
  cbv zeta.
  apply (wp_runBody _ (fun _ w' =>
    (List.filter isUpdateResult (callsSince w w') = [] /\
     List.filter isMetric (callsSince w w') = []) \/
    exists id r,
      List.filter isUpdateResult (callsSince w w') = [CallUpdateResult id r] /\
      match UpdateResult S id r with
      | None =>
          exists e, List.filter isMetric (callsSince w w') = [CallIncExecution e] /\
                    Id e = id /\ Result e = Some r
      | Some _ => List.filter isMetric (callsSince w w') = []
      end)).
  unfold executeTest. cbv zeta. rewrite !ReqName_effective.
  repeat wp_step.
  all: calls_norm.
  all: rewrite ?(filter_auxiliary _ _ auxiliary_not_update (notifyLogCalls_auxiliary _ _ _)),
         ?(filter_auxiliary _ _ auxiliary_not_update (optionsCalls_auxiliary _ _)),
         ?(filter_auxiliary _ _ auxiliary_not_metric (notifyLogCalls_auxiliary _ _ _)),
         ?(filter_auxiliary _ _ auxiliary_not_metric (optionsCalls_auxiliary _ _)).
  all: cbn [List.filter isUpdateResult isMetric app].
  all: try (left; split; reflexivity).
  all: right;
    lazymatch goal with
    | |- exists id r, [CallUpdateResult ?id0 ?r0] = _ /\ _ => exists id0, r0
    end;
    (split; [reflexivity|]).
  all: match goal with H : UpdateResult _ _ _ = _ |- _ => rewrite H end.
  all: try reflexivity.
  all: eexists; split; [reflexivity|]; split; reflexivity.
Qed.

(** A failed dispatch is still counted. *)
Lemma failed_dispatch_is_counted :
  let S := sampleServices "" None (fun _ => inl [])
             (Some (mkError "executor unreachable" false)) in
  let r := runBody (executeTest S sampleTest sampleRequest) (mkWorld ∅ []) in
  statusOf (fst (fst r)) = Some Error /\
  length (List.filter isMetric (callsSince (mkWorld ∅ []) (snd r))) = 1%nat.
Proof. vm_compute. split; reflexivity. Qed.

End ExecuteTestOrder.

(** ** The batch handler validates the concurrency value last *)

Section HandlerOrder.
Import Testkube Collab V1 Vocabulary MoreVocabulary.
Local Open Scope list_scope.

Lemma lookup_run S c w tests :
  requestedTests S c = inl tests ->
  (if negb (String.eqb (CtxParams c "id") "") then
     bind (call (CallTestsGet (CtxParams c "id")))
       (fun _ => match TestsGet S (CtxParams c "id") with
                 | inr err =>
                     exit (E := HttpResponse)
                       (ErrorResponse StatusInternalServerError
                          (Errorf_w "can't get test: " (Some err)))
                 | inl test => ret [test]
                 end)
   else
     bind (call (CallTestsList (CtxQuery c "selector")))
       (fun _ => match TestsList S (CtxQuery c "selector") with
                 | inr err =>
                     exit (ErrorResponse StatusInternalServerError
                             (Errorf_w "can't get tests: " (Some err)))
                 | inl items => ret items
                 end)) w
  = (inr tests, addCalls w [lookupCall c]).
Proof.
  intros Htests. unfold requestedTests in Htests. unfold lookupCall.
  destruct (negb (String.eqb (CtxParams c "id") "")); unfold bind; rewrite call_run.
  - destruct (TestsGet S (CtxParams c "id")); [|discriminate].
    by injection Htests as <-.
  - by rewrite Htests.
Qed.

(** The [concurrency] query value is read only after the scheduled tests
    were registered: when it is not a number and some test is to run now,
    the handler answers 400 although every scheduled test of the request
    has already been registered with the scheduler, and the worker pool is
    not called. *)
Theorem handler_registers_before_rejecting S c w request tests err :
  BodyParser c = inl request ->
  requestedTests S c = inl tests ->
  Forall (schedules S request) (scheduledTests c tests) ->
  immediateTests c tests <> [] ->
  Atoi (QueryDefault c "concurrency" defaultConcurrencyLevel) = inr err ->
  runBody (ExecuteTestsHandler S c) w
  = (ErrorResponse StatusBadRequest
       (Errorf_w "can't detect concurrency level: " (Some err)),
     addCalls w (lookupCall c :: map (cronCall S request) (scheduledTests c tests))).
Proof.
  intros Hbody Htests Hsched Hwork Hlevel.
  unfold runBody, ExecuteTestsHandler. unfold bind at 1.
  unfold collectResults. rewrite Hbody. unfold bind at 1. unfold ret at 1.
  unfold bind at 1. rewrite (lookup_run S c w tests Htests).
  unfold bind at 1.
  rewrite (scheduleLoop_run S c request tests Hsched). cbn [fst snd app].
  rewrite addCalls_addCalls.
  destruct (immediateTests c tests) as [|t work]; [done|].
  cbn [length Nat.eqb negb]. rewrite Hlevel.
  unfold bind, exit. reflexivity.
Qed.

Lemma handler_registers_before_rejecting_witness :
  let S := withTestsList (sampleServices "" None (fun _ => inl []) None)
             (fun _ => inl sampleListing) in
  let c := sampleCtx "" "many" in
  exists err,
    runBody (ExecuteTestsHandler S c) (mkWorld ∅ [])
    = (ErrorResponse StatusBadRequest
         (Errorf_w "can't detect concurrency level: " (Some err)),
       mkWorld ∅
         [CallTestsList "";
          CallCronApply "nightly" "nightly-tests"
            (mkCronJobOptions "0 3 * * *" "tests" "{}" None)]).
Proof.
  intros S c. eexists.
  refine (handler_registers_before_rejecting S c (mkWorld ∅ []) sampleRequest
            sampleListing _ eq_refl eq_refl _ _ eq_refl).
  - repeat constructor. by exists "{}".
  - discriminate.
Defined.

End HandlerOrder.

(** ** The options of an execution *)

Section OptionsFacts.
Import Testkube Collab V1 Vocabulary MoreVocabulary.
Local Open Scope list_scope.

(** [GetExecuteOptions] merges the request's parameters into the
    parameter map of the test object itself, before it looks the executor
    up: when the test has a parameter map, that very map holds the merged
    entries afterwards, whether or not the executor is found, and the
    options returned on success share it as the request's parameters. *)
Theorem GetExecuteOptions_updates_test_params S namespace id request
    (h : Heap) testCR l :
  TestsGet S id = inl testCR ->
  SpecParams (Spec testCR) = Some l ->
  let r := runBody (GetExecuteOptions S namespace id request) (mkWorld h []) in
  contents (heap (snd r)) (Some l)
  = contents h (ReqParams request) ∪ contents h (Some l) /\
  (snd (fst r) = None -> ReqParams (OptRequest (fst (fst r))) = Some l).
Proof.
  intros Ht Hl r. subst r. unfold runBody, GetExecuteOptions.
  unfold bind, call, ret, exit. cbn beta iota. rewrite Ht.
  rewrite !mergeParams_run. cbn beta iota zeta. rewrite Hl.
  destruct (ExecutorsGetByType S (SpecType (Spec testCR))) as [executorCR|err];
    cbn [fst snd heap OptRequest ReqParams withReqParams].
  all: rewrite assignAll_contents, insertAll_entries.
  all: by split.
Qed.

Lemma GetExecuteOptions_updates_test_params_witness :
  let S := withStoredParams (sampleServices "" None (fun _ => inl []) None) 1%positive in
  let h : Heap := {[ 1%positive := {["retries" := "3"]}; 2%positive := {["env" := "ci"]} ]} in
  let request := mkExecutionRequest "run-1" "testkube" (Some 2%positive) "" [] false in
  contents
    (heap (snd (runBody (GetExecuteOptions S "testkube" "api-test" request)
                  (mkWorld h []))))
    (Some 1%positive)
  = contents h (Some 2%positive) ∪ contents h (Some 1%positive).
Proof.
  intros S h request.
  refine (proj1 (GetExecuteOptions_updates_test_params S "testkube" "api-test" request h
                   _ 1%positive eq_refl eq_refl)).
Defined.

End OptionsFacts.

(** ** Content types and tables *)

Section ModelFacts.
Import Testkube Models.
Local Open Scope list_scope.
Local Open Scope nat_scope.

(** No test content is fetched both as a directory and as a file, and a
    content is fetched one way or the other exactly when its type is one
    of the four content types; a content made by [NewStringScriptContent]
    is a file whatever its text. *)
Theorem content_dir_xor_file (c : TestContent) (str : string) :
  (IsDir c && IsFile c = false) /\
  (IsDir c || IsFile c = true <->
   In (Type_ c) [ScriptContentTypeString; ScriptContentTypeFileURI;
                 ScriptContentTypeGitFile; ScriptContentTypeGitDir]) /\
  IsFile (NewStringScriptContent str) = true /\
  IsDir (NewStringScriptContent str) = false.
Proof.
  unfold IsDir, IsFile. repeat split.
  - destruct (String.eqb_spec (Type_ c) ScriptContentTypeGitDir) as [->|]; done.
  - intros H. cbn [In].
    destruct (String.eqb_spec (Type_ c) ScriptContentTypeGitDir); [naive_solver|].
    destruct (String.eqb_spec (Type_ c) ScriptContentTypeGitFile); [naive_solver|].
    destruct (String.eqb_spec (Type_ c) ScriptContentTypeFileURI); [naive_solver|].
    destruct (String.eqb_spec (Type_ c) ScriptContentTypeString); [naive_solver|].
    discriminate.
  - cbn [In]. intros [<-|[<-|[<-|[<-|[]]]]]; reflexivity.
Qed.

Section Tables.
Context {Step : Type}.
Variable LabelsToString : GoMap -> string.
Variable StepTypeOf : Step -> TestSuiteStepType.
Variable FullName : Step -> string.
Variable StatusText : ExecutionStatus -> string.

Lemma suiteRows_app (es : list (TestSuiteWithExecution (Step := Step))) output :
  suiteRows LabelsToString es output = output ++ suiteRows LabelsToString es [].
Proof.
  revert output. induction es as [|e es IH]; intros output; cbn [suiteRows].
  - by rewrite app_nil_r.
  - destruct (WithSuite e); [|done].
    rewrite IH, (IH ([] ++ _)). by rewrite <- app_assoc.
Qed.

(** The table of test suites has one row per entry that carries a test
    suite, in the order of the entries, and every row is as wide as the
    header; the first cell of a row is the suite's name, so the rows name
    the same suites as [GetObjectRef] does for those entries. *)
Theorem SuitesTable_rows (es : list (TestSuiteWithExecution (Step := Step))) :
  let '(header, output) := SuitesTable LabelsToString es in
  Forall (fun row => length row = length header) output /\
  map (fun row => nth 0 row "") output
  = map (fun e => RefName (GetObjectRef e)) (List.filter hasSuite es).
Proof.
  unfold SuitesTable. induction es as [|e es [IH1 IH2]]; [by split|].
  cbn [suiteRows List.filter]. unfold hasSuite at 1.
  destruct (WithSuite e) as [suite|] eqn:Hs; [|by split].
  rewrite suiteRows_app. cbn [app]. split.
  - constructor; [|done]. unfold suiteRow.
    by destruct (WithLatestExecution e) as [[? []]|].
  - cbn [map]. f_equal; [|done]. unfold suiteRow, GetObjectRef. rewrite Hs.
    by destruct (WithLatestExecution e) as [[? []]|].
Qed.

Lemma executionRows_app (srs : list (TestStepExecutionResult (Step := Step))) output :
  executionRows StepTypeOf FullName StatusText srs output
  = output ++ executionRows StepTypeOf FullName StatusText srs [].
Proof.
  revert output. induction srs as [|sr srs IH]; intros output; cbn [executionRows].
  - by rewrite app_nil_r.
  - rewrite IH, (IH ([] ++ _)). by rewrite <- app_assoc.
Qed.

(** The table of a suite execution shows the step results of script and
    delay steps only, one row each and in order (a step of another type
    gets no row); every row is as wide as the header and its second cell
    is the step's full name. *)
Theorem ExecutionTable_rows (srs : list (TestStepExecutionResult (Step := Step))) :
  let '(header, output) := ExecutionTable StepTypeOf FullName StatusText srs in
  Forall (fun row => length row = length header) output /\
  map (fun row => nth 1 row "") output
  = map (fun sr => FullName (ResultStep sr)) (List.filter (isShown StepTypeOf) srs).
Proof.
  unfold ExecutionTable. induction srs as [|sr srs [IH1 IH2]]; [by split|].
  cbn [executionRows List.filter]. rewrite executionRows_app. cbn [app].
  unfold isShown at 1, executionRow.
  destruct (StepTypeOf (ResultStep sr)).
  - destruct (StepExecution sr) as [ex|]; [destruct (Result ex)|];
      (split; [by constructor | cbn [map app]; by f_equal]).
  - split; [by constructor | cbn [map app]; by f_equal].
  - by split.
Qed.

Lemma testsRows_app (tests : list (TestSummary (Step := Step))) output :
  testsRows tests output = output ++ testsRows tests [].
Proof.
  revert output. induction tests as [|e es IH]; intros output; cbn [testsRows].
  - by rewrite app_nil_r.
  - rewrite IH, (IH ([] ++ _)). by rewrite <- app_assoc.
Qed.

(** The table of tests has one row per test, in order, each as wide as
    the header; a row starts with the test's name and ends with the
    number of its steps. *)
Theorem TestsTable_rows (tests : list (TestSummary (Step := Step))) :
  let '(header, output) := TestsTable tests in
  Forall (fun row => length row = length header) output /\
  map (fun row => (nth 0 row "", nth 2 row "")) output
  = map (fun e => (SummaryName e, Sprintf_d (length (SummarySteps e)))) tests.
Proof.
  unfold TestsTable. induction tests as [|e es [IH1 IH2]]; [by split|].
  cbn [testsRows]. rewrite testsRows_app. cbn [app]. split.
  - by constructor.
  - cbn [map]. by f_equal.
Qed.

End Tables.

End ModelFacts.

(** ** The test handlers *)

(** Evaluation of a run up to the next answer of a collaborator. *)
Ltac act_simpl :=
  cbv beta iota zeta delta [Act.bind Act.ret Act.exit Act.call Act.answer Act.calls fst snd app].

(** Case analysis on an answer the run is waiting for. *)
Ltac act_case :=
  match goal with
  | |- context [match ?x with _ => _ end] =>
      lazymatch x with
      | context [match _ with _ => _ end] => fail
      | negb ?y => destruct y eqn:?
      | _ => destruct x eqn:?
      end
  end.

Ltac act_cases := repeat (act_simpl; cbn [negb]; act_case); act_simpl; cbn [negb].

Section TestsFacts.
Import GoTime Testkube Collab V1 Models Act Tests TestsVocabulary.
Local Open Scope list_scope.
Local Open Scope nat_scope.

Lemma removeLoop_take {A} (keep : A -> bool) n (items : list A) :
  n <= length items ->
  removeLoop keep n items = Some (List.filter keep (take n items) ++ drop n items).
Proof.
  revert items. induction n as [|i IH]; intros items Hn; [done|].
  cbn [removeLoop].
  destruct (lookup_lt_is_Some_2 items i) as [x Hx]; [lia|]. rewrite Hx.
  rewrite (take_S_r _ _ _ Hx), List.filter_app. cbn [List.filter].
  destruct (keep x); cbn [negb].
  - rewrite IH by lia. rewrite (drop_S _ _ _ Hx). by rewrite <- app_assoc.
  - rewrite IH by (rewrite length_app, length_take; lia).
    rewrite app_nil_r.
    rewrite take_app_length' by (rewrite length_take; lia).
    rewrite drop_app_length' by (rewrite length_take; lia).
    by rewrite Nat.add_1_r.
Qed.

Lemma removeLoop_filter {A} (keep : A -> bool) (items : list A) :
  removeLoop keep (length items) items = Some (List.filter keep items).
Proof.
  rewrite removeLoop_take by done. by rewrite firstn_all, drop_all, app_nil_r.
Qed.

Lemma Contains_empty s : Contains s "" = true.
Proof. by destruct s. Qed.

Lemma filter_filter {A} (f g : A -> bool) l :
  List.filter g (List.filter f l) = List.filter (fun x => f x && g x) l.
Proof.
  induction l as [|x l IH]; [done|]. cbn [List.filter].
  destruct (f x); cbn [List.filter andb]; [destruct (g x)|]; by rewrite IH.
Qed.

Lemma filter_ext_true {A} (f : A -> bool) l :
  (forall x, f x = true) -> List.filter f l = l.
Proof.
  intros Hf. induction l as [|x l IH]; [done|]. cbn. by rewrite Hf, IH.
Qed.

Lemma bind_ret {C E A B} (a : A) (k : A -> Act C E B) : bind (ret a) k = k a.
Proof. unfold bind, ret. by destruct (k a). Qed.

Lemma bind_call {C E B} (c : C) (k : unit -> Act C E B) :
  bind (call c) k = (fst (k tt), c :: snd (k tt)).
Proof. unfold bind, call. by destruct (k tt). Qed.

Lemma getFilteredTestList_run {P} S c :
  getFilteredTestList (P := P) S c
  = (inr match TestsList S (CtxQuery c "selector") with
         | inr err => inr err
         | inl items => inl (List.filter (selects c) items)
         end,
     [CallList (CtxQuery c "selector")]).
Proof.
  unfold getFilteredTestList, selects. rewrite bind_call.
  destruct (TestsList S (CtxQuery c "selector")) as [items|err]; [|done].
  rewrite <- filter_filter.
  destruct (String.eqb_spec (CtxQuery c "textSearch") "") as [->|_]; cbn [negb].
  - rewrite (filter_ext_true (fun t => Contains (CRName t) ""))
      by (intros; apply Contains_empty).
    rewrite bind_ret.
    destruct (String.eqb_spec (CtxQuery c "type") "") as [->|_]; cbn [negb].
    + rewrite bind_ret.
      by rewrite (filter_ext_true (fun t => Contains (SpecType (Spec t)) ""))
        by (intros; apply Contains_empty).
    + rewrite removeLoop_filter. by rewrite bind_ret.
  - rewrite removeLoop_filter, bind_ret.
    destruct (String.eqb_spec (CtxQuery c "type") "") as [->|_]; cbn [negb].
    + rewrite bind_ret.
      by rewrite (filter_ext_true (fun t => Contains (SpecType (Spec t)) ""))
        by (intros; apply Contains_empty).
    + rewrite removeLoop_filter. by rewrite bind_ret.
Qed.

(** The listing of tests asks the cluster once and keeps, in their order,
    the tests whose name contains the [textSearch] value and whose type
    contains the [type] value (an empty value keeps every test); the two
    loops that remove items in place while walking backwards never read
    beyond the list, so the function does not panic. *)
Theorem getFilteredTestList_selects S c :
  fst (getFilteredTestList (P := unit) S c)
  = inr match TestsList S (CtxQuery c "selector") with
        | inr err => inr err
        | inl items => inl (List.filter (selects c) items)
        end /\
  calls (getFilteredTestList (P := unit) S c) = [CallList (CtxQuery c "selector")].
Proof. by rewrite getFilteredTestList_run. Qed.

Lemma executionMap_lookup name executions :
  executionMap executions !! name = latestFor name executions.
Proof.
  unfold executionMap, latestFor.
  rewrite <- fold_left_rev_right.
  induction (rev executions) as [|e es IH]; [done|].
  cbn [fold_right find].
  destruct (String.eqb_spec (TestName e) name) as [->|Hne].
  - by rewrite lookup_insert_eq.
  - by rewrite lookup_insert_ne.
Qed.

(** The listing of tests with executions, when it answers a list: the
    execution store is asked once, for the names of the selected tests;
    every selected test is paired with the last execution the store
    returned for its name, or with none; with a [status] value given, the
    tests whose execution has one of the parsed statuses remain, in order,
    and a test without an execution is dropped.  "No documents" from the
    store is not an error, any other store error answers 500, a failed
    listing 502 and an invalid [status] value 400. *)
Theorem ListTestWithExecutionsHandler_pairs S c :
  answer (ListTestWithExecutionsHandler S c)
  = match TestsList S (CtxQuery c "selector") with
    | inr err => ReplyError StatusBadGateway err
    | inl items =>
        let tests := MapTestListKubeToAPI S (List.filter (selects c) items) in
        match GetLatestByTests S (map TName tests) with
        | (_, Some (StoreFailure err)) => ReplyError StatusInternalServerError err
        | (executions, _) =>
            if String.eqb (CtxQuery c "status") "" then
              ReplyJSON (map (withLatest executions) tests)
            else
              match ParseExecutionStatusList S (CtxQuery c "status") "," with
              | inr err =>
                  ReplyError StatusBadRequest
                    (Errorf_w "execution status filter invalid: " (Some err))
              | inl statusMap =>
                  ReplyJSON (List.filter (keepsStatus statusMap)
                               (map (withLatest executions) tests))
              end
        end
    end /\
  calls (ListTestWithExecutionsHandler S c)
  = CallList (CtxQuery c "selector")
    :: match TestsList S (CtxQuery c "selector") with
       | inr _ => []
       | inl items =>
           [CallGetLatestByTests
              (map TName (MapTestListKubeToAPI S (List.filter (selects c) items)))]
       end.
Proof.
  unfold ListTestWithExecutionsHandler. rewrite getFilteredTestList_run.
  destruct (TestsList S (CtxQuery c "selector")) as [items|err]; [|done].
  act_simpl.
  set (tests := MapTestListKubeToAPI S (List.filter (selects c) items)).
  assert (Hmap : forall executions,
             map (fun t => mkTestWithExecution (Some t) (executionMap executions !! TName t))
               tests
             = map (withLatest executions) tests).
  { intros. apply map_ext. intros t. unfold withLatest. by rewrite executionMap_lookup. }
  destruct (GetLatestByTests S (map TName tests)) as [executions [[|err]|]];
    act_simpl; cbn [isErrNoDocuments negb]; act_simpl; [| done |].
  all: rewrite !Hmap.
  all: destruct (String.eqb (CtxQuery c "status") ""); cbn [negb]; act_simpl; [done|].
  all: destruct (ParseExecutionStatusList S (CtxQuery c "status") ",") as [statusMap|err];
         act_simpl; [|done].
  all: rewrite removeLoop_filter; by act_simpl.
Qed.

(** Getting a test with its latest execution asks the execution store
    only after the test was found.  A test that has no execution yet is
    not an error: the store's "no documents" gives the test alone; the
    execution is part of the answer only when the store returned no error,
    and any other store error answers 500.  A test that is not found
    answers 404, any other failure of the lookup 502. *)
Theorem GetTestWithExecutionHandler_latest S c :
  let name := CtxParams c "id" in
  answer (GetTestWithExecutionHandler S c)
  = match TestsGet S name with
    | inr err =>
        ReplyError (if isNotFound err then StatusNotFound else StatusBadGateway) err
    | inl crTest =>
        match GetLatestByTest S name with
        | (execution, None) =>
            ReplyJSON (mkTestWithExecution (Some (MapCRToAPI S crTest)) (Some execution))
        | (_, Some ErrNoDocuments) =>
            ReplyJSON (mkTestWithExecution (Some (MapCRToAPI S crTest)) None)
        | (_, Some (StoreFailure err)) => ReplyError StatusInternalServerError err
        end
    end /\
  calls (GetTestWithExecutionHandler S c)
  = CallGet name
    :: match TestsGet S name with
       | inl _ => [CallGetLatestByTest name]
       | inr _ => []
       end.
Proof.
  intros name. unfold GetTestWithExecutionHandler. fold name.
  destruct (TestsGet S name) as [crTest|err]; act_simpl.
  - by destruct (GetLatestByTest S name) as [execution [[|err]|]].
  - by destruct (isNotFound err).
Qed.

(** Getting a test with its execution agrees with getting the test
    alone: it fails with the same answer whenever the plain handler
    fails, and a test it answers is the one the plain handler answers. *)
Theorem GetTestWithExecutionHandler_extends S c :
  (forall status err,
     answer (GetTestHandler S c) = ReplyError status err ->
     answer (GetTestWithExecutionHandler S c) = ReplyError status err) /\
  (forall t,
     answer (GetTestWithExecutionHandler S c) = ReplyJSON t ->
     exists test,
       answer (GetTestHandler S c) = ReplyJSON test /\ WithTest t = Some test).
Proof.
  unfold GetTestHandler, GetTestWithExecutionHandler. act_cases.
  all: naive_solver.
Qed.

Lemma filter_map_sublist {A B} (f : A -> B) (keep : A -> bool) (l : list A) :
  sublist (map f (List.filter keep l)) (map f l).
Proof.
  induction l as [|x l IH]; [done|]. cbn [List.filter map].
  destruct (keep x); [by apply sublist_skip | by apply sublist_cons].
Qed.

(** Listing the tests with their executions agrees with listing the
    tests: it fails with the same answer whenever the plain listing
    fails, and the tests it answers are among those of the plain listing,
    in the same order, and are all of them when no [status] value is
    given. *)
Theorem ListTestWithExecutionsHandler_extends S c :
  (forall status err,
     answer (ListTestsHandler S c) = ReplyError status err ->
     answer (ListTestWithExecutionsHandler S c) = ReplyError status err) /\
  (forall l,
     answer (ListTestWithExecutionsHandler S c) = ReplyJSON l ->
     exists tests,
       answer (ListTestsHandler S c) = ReplyJSON tests /\
       sublist (map WithTest l) (map Some tests) /\
       (CtxQuery c "status" = "" -> map WithTest l = map Some tests)).
Proof.
  unfold ListTestsHandler, ListTestWithExecutionsHandler.
  rewrite !getFilteredTestList_run.
  destruct (TestsList S (CtxQuery c "selector")) as [items|err]; act_simpl.
  2: { split; [by intros ? ? [= <- <-]|done]. }
  split; [done|]. intros l.
  set (tests := MapTestListKubeToAPI S (List.filter (selects c) items)).
  assert (Hmap : forall executions,
             map WithTest
               (map (fun t => mkTestWithExecution (Some t) (executionMap executions !! TName t))
                  tests)
             = map Some tests).
  { intros. rewrite map_map. by apply map_ext. }
  destruct (GetLatestByTests S (map TName tests)) as [executions [[|err]|]];
    act_simpl; cbn [isErrNoDocuments negb]; act_simpl; [| done |].
  all: destruct (String.eqb_spec (CtxQuery c "status") "") as [Hs|Hs]; cbn [negb];
         act_simpl.
  1,3: intros [= <-]; exists tests; rewrite Hmap; by repeat split.
  all: destruct (ParseExecutionStatusList S (CtxQuery c "status") ",") as [statusMap|err];
         act_simpl; [|done].
  all: rewrite removeLoop_filter; act_simpl.
  all: intros [= <-]; exists tests; split; [done|]; split; [|done].
  all: rewrite <- (Hmap executions); apply filter_map_sublist.
Qed.

(** The secret data of a test always has exactly the two credential keys,
    whatever the content is; without a repository both values are empty. *)
Theorem GetSecretsStringData_keys S (content : option TestContent) :
  GitUsernameSecretName S <> GitTokenSecretName S ->
  dom (GetSecretsStringData S content)
  = ({[GitUsernameSecretName S; GitTokenSecretName S]} : gset string) /\
  GetSecretsStringData S content !! GitUsernameSecretName S
  = Some (match content with
          | Some (mkTestContent _ _ (Some repository)) => Username repository
          | _ => ""
          end) /\
  GetSecretsStringData S content !! GitTokenSecretName S
  = Some (match content with
          | Some (mkTestContent _ _ (Some repository)) => Token repository
          | _ => ""
          end).
Proof.
  intros Hne. unfold GetSecretsStringData.
  destruct content as [[ty data [repository|]]|]; cbn [ContentRepository].
  all: rewrite ?dom_insert_L, dom_empty_L.
  all: split; [set_solver|].
  all: rewrite ?lookup_insert_eq; split; [|done].
  all: rewrite lookup_insert_ne by done.
  all: rewrite ?lookup_insert_eq; try done.
  all: rewrite lookup_insert_ne by done.
  all: by rewrite lookup_insert_ne, lookup_insert_eq by done.
Qed.

Lemma GetSecretsStringData_keys_witness :
  GetSecretsStringData sampleTestServices
    (Some (mkTestContent "git-dir" "" (Some (mkRepository "ci" "s3cr3t"))))
  !! "git-username" = Some "ci".
Proof.
  refine (proj1 (proj2 (GetSecretsStringData_keys sampleTestServices
            (Some (mkTestContent "git-dir" "" (Some (mkRepository "ci" "s3cr3t")))) _))).
  discriminate.
Defined.

(** Creating a test counts the metric before the error of the creation is
    looked at: the metric is counted once, with that error, whenever the
    client returned a test object, and a nil object makes the handler
    panic there.  The secret is written only after a successful creation,
    under the name taken from the request and with the labels of the
    created test, and the test is the answer exactly when both the
    creation and the secret succeeded; a failed secret leaves the test
    created. *)
Theorem CreateTestHandler_metric_and_secret S request :
  let r := CreateTestHandler S (inl request) in
  match TestsCreate S (Namespace S) (MapToSpec S request) with
  | (None, _) => answer r = ReplyPanic /\ List.filter isTestMetric (calls r) = []
  | (Some test, err) =>
      let secretCall :=
        CallSecretCreate (secretName S (UpsertName request)) (CRLabels test)
          (GetSecretsStringData S (UpsertContent request)) in
      List.filter isTestMetric (calls r) = [CallIncCreateTest (SpecType (Spec test)) err] /\
      List.filter isSecretWrite (calls r)
      = match err with None => [secretCall] | Some _ => [] end /\
      (answer r = ReplyJSON test <->
       err = None /\
       SecretCreate S (secretName S (UpsertName request)) (CRLabels test)
         (GetSecretsStringData S (UpsertContent request)) = None)
  end /\
  In (CallCreate (Namespace S) (MapToSpec S request)) (calls r).
Proof.
  intros r. subst r. unfold CreateTestHandler. act_simpl.
  destruct (TestsCreate S (Namespace S) (MapToSpec S request)) as [[test|] [err|]];
    act_simpl.
  1,3,4: cbn; naive_solver.
  destruct (SecretCreate S _ _ _); act_simpl; cbn; naive_solver.
Qed.

(** What updating a test does to its cron job: the cron client is asked
    only when the stored test has a schedule; the cron job is deleted
    exactly when it exists and the request has no schedule, and relabelled
    from the stored labels to the requested ones when the request keeps a
    schedule; a "not found" from the cron client is tolerated and any other
    error stops the update.  No cron job is made for a test that had no
    schedule.  The test written keeps the stored name and takes the
    requested labels and specification.  When the cron client fails, on
    the lookup, the deletion or the relabelling, the handler answers 502
    with that error and has made no other call since it read the test:
    the test is not written; otherwise the test is written. *)
Theorem UpdateTestHandler_cron S request test :
  TestsGet S (UpsertName request) = inl test ->
  let name := cronName S (UpsertName request) testResourceURI in
  let made := calls (UpdateTestHandler S (inl request)) in
  List.filter isCronCall made
  = (if String.eqb (SpecSchedule (Spec test)) "" then []
     else CallCronGet name
          :: match CronGet S name with
             | (Some cronJob, err) =>
                 if tolerated err then
                   if String.eqb (UpsertSchedule request) "" then [CallCronDelete name]
                   else [CallCronUpdateLabels cronJob (CRLabels test) (UpsertLabels request)]
                 else []
             | (None, _) => []
             end) /\
  (forall written, In (CallUpdate written) made ->
     written = mkTestCR (CRName test) (UpsertLabels request) (Spec (MapToSpec S request))) /\
  match cronStage S request test with
  | Some err =>
      answer (UpdateTestHandler S (inl request)) = ReplyError StatusBadGateway err /\
      List.filter (fun c => negb (isCronCall c)) made
      = [CallInfow "updating test" request; CallGet (UpsertName request)]
  | None =>
      In (CallUpdate (mkTestCR (CRName test) (UpsertLabels request)
                        (Spec (MapToSpec S request)))) made
  end.
Proof.
  intros Hget name made. subst name made. unfold UpdateTestHandler, cronStage, tolerated.
  act_simpl. rewrite Hget. act_cases.
  all: cbn; naive_solver.
Qed.

Lemma UpdateTestHandler_cron_witness :
  List.filter isCronCall
    (calls (UpdateTestHandler sampleTestServices
              (inl (mkTestUpsertRequest "nightly" "" None None))))
  = [CallCronGet "nightly-tests"; CallCronDelete "nightly-tests"].
Proof.
  refine (proj1 (UpdateTestHandler_cron sampleTestServices
            (mkTestUpsertRequest "nightly" "" None None) _ eq_refl)).
Defined.

(** Deleting a test: the secret of the test is deleted only after the
    test itself was deleted, and its cron job only after the secret was
    deleted or was not there; the answer is 204 exactly when the test was
    deleted and each of the two clean-ups succeeded or found nothing.  A
    test that is not found answers 404 as a warning and nothing else is
    deleted. *)
Theorem DeleteTestHandler_order S c :
  let name := CtxParams c "id" in
  let r := DeleteTestHandler S c in
  let all := [CallDelete name; CallSecretDelete (secretName S name);
              CallCronDelete (cronName S name testResourceURI)] in
  (exists n, (1 <= n <= 3) /\ calls r = take n all) /\
  (In (CallSecretDelete (secretName S name)) (calls r) <-> TestsDelete S name = None) /\
  (In (CallCronDelete (cronName S name testResourceURI)) (calls r) <->
   TestsDelete S name = None /\ tolerated (SecretDelete S (secretName S name)) = true) /\
  (answer r = ReplyStatus StatusNoContent <->
   TestsDelete S name = None /\
   tolerated (SecretDelete S (secretName S name)) = true /\
   tolerated (CronDelete S (cronName S name testResourceURI)) = true) /\
  (forall err, TestsDelete S name = Some err -> isNotFound err = true ->
     answer r = ReplyWarn StatusNotFound err).
Proof.
  intros name r all. subst name r all.
  unfold DeleteTestHandler, unlessNotFound, tolerated. act_cases.
  all: split;
    [first [exists 1; split; [lia|reflexivity] | exists 2; split; [lia|reflexivity]
           | exists 3; split; [lia|reflexivity]]|].
  all: cbn; naive_solver congruence.
Qed.

(** Deleting the tests of a selector: all tests are deleted when the
    selector is empty and the labelled ones otherwise, never both; the
    secrets and then the cron jobs of the same selector follow only after
    the tests were deleted, and the answer is 204 exactly when the tests
    were deleted and each clean-up succeeded or found nothing.  The
    handler stops at the first failure that is not tolerated: the cron
    jobs are deleted only after the secrets were deleted or not found,
    tests that are not found answer 404 as a warning, and any other
    failure answers 502 with its error. *)
Theorem DeleteTestsHandler_order S c :
  let selector := CtxQuery c "selector" in
  let r := DeleteTestsHandler S c in
  let first := if String.eqb selector "" then CallDeleteAll
               else CallDeleteByLabels selector in
  let err := if String.eqb selector "" then TestsDeleteAll S
             else TestsDeleteByLabels S selector in
  (exists n, (1 <= n <= 3) /\
     calls r = take n [first; CallSecretDeleteAll selector;
                       CallCronDeleteAll testResourceURI selector]) /\
  (In (CallSecretDeleteAll selector) (calls r) <-> err = None) /\
  (answer r = ReplyStatus StatusNoContent <->
   err = None /\
   tolerated (SecretDeleteAll S selector) = true /\
   tolerated (CronDeleteAll S testResourceURI selector) = true) /\
  (In (CallCronDeleteAll testResourceURI selector) (calls r) <->
   err = None /\ tolerated (SecretDeleteAll S selector) = true) /\
  length (calls r)
  = (if err is None
     then if tolerated (SecretDeleteAll S selector) then 3 else 2
     else 1) /\
  answer r
  = match err with
    | Some e =>
        if isNotFound e then ReplyWarn StatusNotFound e
        else ReplyError StatusBadGateway e
    | None =>
        match SecretDeleteAll S selector, CronDeleteAll S testResourceURI selector with
        | Some e, other =>
            if isNotFound e then
              match other with
              | Some e' =>
                  if isNotFound e' then ReplyStatus StatusNoContent
                  else ReplyError StatusBadGateway e'
              | None => ReplyStatus StatusNoContent
              end
            else ReplyError StatusBadGateway e
        | None, Some e' =>
            if isNotFound e' then ReplyStatus StatusNoContent
            else ReplyError StatusBadGateway e'
        | None, None => ReplyStatus StatusNoContent
        end
    end.
Proof.
  intros selector r first err. subst selector r first err.
  unfold DeleteTestsHandler, unlessNotFound, tolerated. act_cases.
  all: split;
    [first [exists 1; split; [lia|reflexivity] | exists 2; split; [lia|reflexivity]
           | exists 3; split; [lia|reflexivity]]|].
  all: cbn; naive_solver congruence.
Qed.

End TestsFacts.

(** ** The remaining execution handlers *)

Section ExecutionsFacts.
Import GoTime Testkube Collab V1 Act Tests Url Executions.
Local Open Scope list_scope.
Local Open Scope nat_scope.

(** Evaluation of the tests and digits of one given character. *)
Ltac eval_char :=
  repeat match goal with
         | |- context [shouldEscape ?c] =>
             let v := eval vm_compute in (shouldEscape c) in
             change (shouldEscape c) with v; cbv iota
         | |- context [Ascii.eqb ?a ?b] =>
             let v := eval vm_compute in (Ascii.eqb a b) in
             change (Ascii.eqb a b) with v; cbv iota
         | |- context [upperhex ?n] =>
             let v := eval vm_compute in (upperhex n) in
             change (upperhex n) with v
         | |- context [ishex ?c] =>
             let v := eval vm_compute in (ishex c) in
             change (ishex c) with v
         | |- context [ascii_of_nat ?n] =>
             let v := eval vm_compute in (ascii_of_nat n) in
             change (ascii_of_nat n) with v
         end.

Lemma QueryUnescape_QueryEscape (s : string) : QueryUnescape (QueryEscape s) = Some s.
Proof.
  induction s as [|c s IH]; [done|].
  cbn [QueryEscape].
  destruct c as [[] [] [] [] [] [] [] []].
  all: eval_char; cbn [QueryUnescape]; eval_char; cbn [andb]; rewrite IH; reflexivity.
Qed.


(** A file whose name has a plus sign is not found under its own name. *)
Lemma plus_in_name_is_lost :
  unescapedTwice (QueryEscape "a+b.log") = "a b.log".
Proof. reflexivity. Qed.

Section Summaries.
Context {Filter Totals : Type}.
Variable S : ExecutionServices (Filter := Filter) (Totals := Totals).

Lemma summaryLoop_mapM (executions : list ExecutionDoc) :
  forall i result,
    i + length executions <= length result ->
    summaryLoop S i executions result
    = match mapM (summaryOf S) executions with
      | Some summaries =>
          Some (take i result ++ summaries ++ drop (i + length executions) result)
      | None => None
      end.
Proof.
  induction executions as [|e es IH]; intros i result Hlen; cbn [summaryLoop length] in *.
  - cbn. by rewrite Nat.add_0_r, take_drop.
  - cbn [mapM]. destruct (summaryOf S e) as [s|]; [|done]. cbn.
    rewrite IH by (rewrite length_insert; lia).
    destruct (mapM (summaryOf S) es) as [ss|]; [|done]. cbn. f_equal.
    rewrite take_S_r with (x := s) by (apply list_lookup_insert_eq; lia).
    rewrite take_insert_ge by lia.
    rewrite drop_insert_lt by lia.
    rewrite <- app_assoc. cbn. by rewrite Nat.add_succ_r.
Qed.

Lemma mapExecutionsToExecutionSummary_mapM (executions : list ExecutionDoc) :
  mapExecutionsToExecutionSummary S executions = mapM (summaryOf S) executions.
Proof.
  unfold mapExecutionsToExecutionSummary.
  rewrite summaryLoop_mapM by (rewrite length_replicate; lia).
  rewrite drop_ge by (rewrite length_replicate; lia). cbn [take app].
  destruct (mapM (summaryOf S) executions); [|done]. by rewrite app_nil_r.
Qed.

Lemma summaries_None (executions : list ExecutionDoc) :
  mapExecutionsToExecutionSummary S executions = None <->
  Exists (fun e => Result (DocExecution e) = None) executions.
Proof.
  rewrite mapExecutionsToExecutionSummary_mapM, mapM_None.
  apply Exists_proper; [|done]. intros e. unfold summaryOf.
  by destruct (Result (DocExecution e)).
Qed.

(** The summaries of a list of executions: there is one summary per
    execution, at the same position, carrying the execution's own fields,
    the status of its result and the formatted duration; the function
    panics exactly when some execution has no result. *)
Theorem mapExecutionsToExecutionSummary_positions (executions : list ExecutionDoc) :
  (mapExecutionsToExecutionSummary S executions = None <->
   Exists (fun e => Result (DocExecution e) = None) executions) /\
  (forall summaries,
     mapExecutionsToExecutionSummary S executions = Some summaries ->
     length summaries = length executions /\
     forall i e, executions !! i = Some e ->
       exists result summary,
         Result (DocExecution e) = Some result /\
         summaries !! i = Some summary /\
         SummaryId summary = Id (DocExecution e) /\
         SummaryTestName summary = TestName (DocExecution e) /\
         SummaryStatus summary = Status result /\
         SummaryDuration summary = FormatDuration S (DocDuration e)).
Proof.
  split; [apply summaries_None|].
  intros summaries Hs. rewrite mapExecutionsToExecutionSummary_mapM in Hs.
  apply mapM_Some in Hs. split; [symmetry; by eapply Forall2_length|].
  intros i e Hi.
  destruct (Forall2_lookup_l _ _ _ _ _ Hs Hi) as (s & Hsi & He).
  unfold summaryOf in He.
  destruct (Result (DocExecution e)) as [result|]; [|done].
  injection He as <-. by eexists result, _.
Qed.

(** The listing of executions reads the store three times with the same
    filter, the executions, then the totals without and with the filter
    applied, and stops at the first read that fails, answering 500 with
    the error of that read and making no further read.  It answers a
    list, with both totals and the summaries of the executions, exactly
    when the three reads succeed and every execution has a result; with
    an execution that has no result the handler panics, after all three
    reads. *)
Theorem ListExecutionsHandler_reads c :
  let filter := getFilterFromRequest S c in
  let r := ListExecutionsHandler S c in
  let reads := [CallGetExecutions filter; CallGetExecutionTotals false filter;
                CallGetExecutionTotals true filter] in
  let allRead :=
    (GetExecutions S filter).2 = None /\
    (GetExecutionTotals S false filter).2 = None /\
    (GetExecutionTotals S true filter).2 = None in
  ((exists n, (1 <= n <= 3) /\ calls r = take n reads) /\
   ((exists results, answer r = ReplyJSON results) <->
    allRead /\
    Forall (fun e => Result (DocExecution e) <> None) (GetExecutions S filter).1) /\
   (answer r = ReplyPanic <->
    allRead /\
    Exists (fun e => Result (DocExecution e) = None) (GetExecutions S filter).1) /\
   (answer r = ReplyPanic -> calls r = reads)) /\
  calls r
  = match (GetExecutions S filter).2, (GetExecutionTotals S false filter).2 with
    | Some _, _ => take 1 reads
    | None, Some _ => take 2 reads
    | None, None => reads
    end /\
  answer r
  = match (GetExecutions S filter).2, (GetExecutionTotals S false filter).2,
          (GetExecutionTotals S true filter).2 with
    | Some err, _, _ | None, Some err, _ | None, None, Some err =>
        ReplyError StatusInternalServerError err
    | None, None, None =>
        match mapExecutionsToExecutionSummary S (GetExecutions S filter).1 with
        | Some summaries =>
            ReplyJSON (mkExecutionsResult (Some (GetExecutionTotals S false filter).1)
                         (Some (GetExecutionTotals S true filter).1) summaries)
        | None => ReplyPanic
        end
    end.
Proof.
  intros filter r reads allRead. subst r reads allRead.
  split.
  2: { unfold ListExecutionsHandler. fold filter.
       destruct (GetExecutions S filter) as [executions [err|]]; act_simpl; [done|].
       destruct (GetExecutionTotals S false filter) as [totals [err|]]; act_simpl; [done|].
       destruct (GetExecutionTotals S true filter) as [filtered [err|]]; act_simpl; [done|].
       cbn [fst snd].
       by destruct (mapExecutionsToExecutionSummary S executions). }
  pose proof summaries_None as Hnone.
  unfold ListExecutionsHandler. fold filter.
  destruct (GetExecutions S filter) as [executions [err|]]; act_simpl.
  { split; [exists 1; split; [lia|done]|]. cbn. naive_solver. }
  destruct (GetExecutionTotals S false filter) as [totals [err|]]; act_simpl.
  { split; [exists 2; split; [lia|done]|]. cbn. naive_solver. }
  destruct (GetExecutionTotals S true filter) as [filtered [err|]]; act_simpl.
  { split; [exists 3; split; [lia|done]|]. cbn. naive_solver. }
  specialize (Hnone executions).
  destruct (mapExecutionsToExecutionSummary S executions) as [summaries|] eqn:Hsum;
    act_simpl; cbn [fst snd].
  all: split; [exists 3; split; [lia|done]|].
  - split; [|split; [|done]].
    + split; [|by eauto]. intros _. split; [done|].
      apply Forall_Exists_neg. intros Hex. apply Hnone in Hex. done.
    + split; [done|]. intros [_ Hex]. apply Hnone in Hex. done.
  - split; [|split; [|done]].
    + split; [by intros [? ?]|]. intros [_ Hall].
      apply Forall_Exists_neg in Hall. destruct Hall. by apply Hnone.
    + split; [|done]. intros _. split; [done|]. by apply Hnone.
Qed.

(** Getting one execution reads the store once: by the execution id
    alone when no test id is given, and by execution name and test id
    otherwise.  "No documents" answers 404, any other store error 500, and
    otherwise the stored execution is answered with its duration
    formatted. *)
Theorem GetExecutionHandler_lookup c :
  let id := CtxParams c "id" in
  let executionID := CtxParams c "executionID" in
  let r := GetExecutionHandler S c in
  let lookup := if String.eqb id "" then StoreGet S executionID
                else StoreGetByNameAndTest S executionID id in
  let read := if String.eqb id "" then CallStoreGet executionID
              else CallStoreGetByNameAndTest executionID id in
  let found :=
    mkExecutionDoc (DocExecution lookup.1) (FormatDuration S (DocDuration lookup.1)) in
  calls r = read :: match lookup.2 with
                    | None => [CallDebugw "get test execution request - debug" found]
                    | Some _ => []
                    end /\
  (forall e, answer r = ReplyJSON e <-> lookup.2 = None /\ e = found) /\
  ((exists err, answer r = ReplyError StatusNotFound err) <->
   lookup.2 = Some ErrNoDocuments).
Proof.
  intros id executionID r lookup read found. subst r lookup read found.
  unfold GetExecutionHandler. fold id executionID.
  destruct (String.eqb id ""); act_simpl.
  - destruct (StoreGet S executionID) as [e [[|err]|]]; act_simpl; cbn [fst snd].
    all: split; [done|]. all: unfold StatusNotFound, StatusInternalServerError.
    all: naive_solver.
  - destruct (StoreGetByNameAndTest S executionID id) as [e [[|err]|]]; act_simpl;
      cbn [fst snd].
    all: split; [done|]. all: unfold StatusNotFound, StatusInternalServerError.
    all: naive_solver.
Qed.

End Summaries.

Section LogFacts.
Context {Out : Type}.
Variable Marshal : Out -> string + GoError.

Lemma append_assoc (s1 s2 s3 : string) :
  ((s1 ++ s2) ++ s3 = s1 ++ (s2 ++ s3))%string.
Proof.
  induction s1 as [|c s1 IH]; [done|].
  change (String c ((s1 ++ s2) ++ s3) = String c (s1 ++ (s2 ++ s3)))%string.
  by f_equal.
Qed.

Lemma body_app (ops1 ops2 : list WriterOp) :
  body (ops1 ++ ops2) = (body ops1 ++ body ops2)%string.
Proof.
  induction ops1 as [|[] ops1 IH]; cbn [app body]; try done.
  by rewrite IH, append_assoc.
Qed.

(** The log stream is one server-sent event per output received, in
    order, each flushed as soon as it is written: the response body is the
    concatenation of the events and the writer is flushed once at the
    start and once per output.  An output that cannot be encoded leaves an
    event without its closing empty line.  When the logs cannot be
    obtained nothing is written. *)
Theorem streamWriter_events (logs : list Out) (err : GoError) :
  body (streamWriter Marshal (inl logs))
  = foldr String.append "" (map (event Marshal) logs) /\
  length (List.filter isFlush (streamWriter Marshal (inl logs))) = 1 + length logs /\
  body (streamWriter Marshal (inr err)) = "".
Proof.
  unfold streamWriter. cbn [app body List.filter isFlush length].
  split; [|split; [|done]].
  - induction logs as [|out logs IH]; [done|].
    cbn [logsLoop map app body foldr]. rewrite body_app. cbn [body]. rewrite IH.
    unfold Encode, event.
    destruct (Marshal out) as [text|e]; cbn [body]; [|reflexivity].
    rewrite !append_assoc. reflexivity.
  - f_equal. induction logs as [|out logs IH]; [done|].
    cbn [logsLoop app List.filter isFlush]. rewrite List.filter_app.
    rewrite length_app. cbn [List.filter isFlush length]. rewrite IH.
    unfold Encode. by destruct (Marshal out).
Qed.

End LogFacts.

End ExecutionsFacts.

(** ** The newman runner *)

Section NewmanFacts.
Import Testkube Act Newman.
Local Open Scope list_scope.
Context {Reader Metadata : Type}.
Variable S : RunnerServices (Reader := Reader) (Metadata := Metadata).

(** A run of the newman runner starts newman at most once, and only after
    the script and the environment built from the parameters were both
    written to temporary files, whose paths it passes on; the report is
    read only after newman succeeded, from the very path newman was told
    to export it to; and the result is [result.Err] of the error of the
    first step that fails (the parse error wrapped, the others as they
    are), or else the mapping of newman's own output together with the
    report as parsed from the file read. *)
Theorem Run_pipeline (input : Reader) (params : GoMap) :
  let r := Run S input params in
  let report := (tmpName S ++ ".json")%string in
  (List.filter isExecute (calls r) = [] \/
   exists path envReader envpath,
     ReaderToTmpfile S input = inl path /\
     NewEnvFileReader S params = inl envReader /\
     ReaderToTmpfile S envReader = inl envpath /\
     List.filter isExecute (calls r)
     = [CallExecute "newman"
          ["run"; path; "-e"; envpath; "--reporters"; "cli,json";
           "--reporter-json-export"; report]]) /\
  (forall name, In (CallReadFile name) (calls r) ->
     name = report /\
     exists arguments out,
       In (CallExecute "newman" arguments) (calls r) /\
       processExecute S "newman" arguments = inl out /\
       last arguments = Some report) /\
  ((exists err, answer r = ResultErr (mkExecutionResult None "" "") err) \/
   exists out metadata,
     answer r = MapMetadataToResult S (mkNewmanExecutionResult out (Some metadata))) /\
  answer r = reported S input params.
Proof.
  intros r report. subst r report. unfold reported, Run. act_cases.
  all: cbn [List.filter isExecute In].
  all: split; [|split; [|split; [|reflexivity]]].
  all: try (left; reflexivity).
  all: try (right; by eauto 10).
  all: try (left; by eexists).
  all: intros name Hin; repeat destruct Hin as [Hin|Hin]; try discriminate Hin; try done.
  all: injection Hin as <-; split; [done|].
  all: eexists _, _; split; [do 4 right; left; reflexivity|]; by split.
Qed.

End NewmanFacts.
